(** * NLU pipeline: language detection, text normalisation, intent
    classification and entity extraction.

    A shallow embedding of [NLU/language_detector.py],
    [NLU/text_normalizer.py], [NLU/intent_classifier.py] and
    [NLU/entity_extractor.py].

    Modelling conventions.
    - A Python [str] is a Rocq [string].  The [str] methods that the code
      uses ([lower], [strip], [split], [in], [startswith], [endswith]) are
      defined in module [PyStr] on the ASCII table; bytes above 127 are
      letters without case.
    - A Python [float] is an exact rational ([Q]).
    - The [re] module is an interface ([Regex]): the pipeline is written
      against the interface, and module [PyRe] implements it with a
      backtracking matcher for the pattern syntax the program uses.
    - The optional third-party capabilities (semantic TF-IDF classifier,
      TextBlob polarity, rapidfuzz matching) are arguments of the functions
      that consult them, [None] standing for "not available". *)

From Stdlib Require Import String Ascii List Bool Arith ZArith Lia.
From Stdlib Require Import QArith Qminmax Lqa.
From Stdlib Require Import Sorted.
From Stdlib Require DecimalString.
Import ListNotations.

Close Scope Q_scope.
Open Scope string_scope.
Open Scope list_scope.
Open Scope nat_scope.

(* ================================================================== *)
(** ** Python [str] methods *)
(* ================================================================== *)

Module PyStr.

Definition code (c : ascii) : nat := nat_of_ascii c.

Definition is_upper (c : ascii) : bool := (65 <=? code c) && (code c <=? 90).
Definition is_lower (c : ascii) : bool := (97 <=? code c) && (code c <=? 122).
Definition is_digit (c : ascii) : bool := (48 <=? code c) && (code c <=? 57).

(** [str.isspace] on one character: blank, tab, line feed, vertical tab,
    form feed, carriage return and the four separators 0x1c-0x1f. *)
Definition is_space (c : ascii) : bool :=
  ((9 <=? code c) && (code c <=? 13)) || ((28 <=? code c) && (code c <=? 32)).

(** Word characters of [\w] and [\b]. *)
Definition is_word (c : ascii) : bool :=
  is_digit c || is_upper c || is_lower c || (code c =? 95) || (128 <=? code c).

Definition lower_char (c : ascii) : ascii :=
  if is_upper c then ascii_of_nat (code c + 32) else c.
Definition upper_char (c : ascii) : ascii :=
  if is_lower c then ascii_of_nat (code c - 32) else c.

(** [s.lower()] *)
Fixpoint lower (s : string) : string :=
  match s with
  | EmptyString => EmptyString
  | String c s' => String (lower_char c) (lower s')
  end.

(** [s.upper()] *)
Fixpoint upper (s : string) : string :=
  match s with
  | EmptyString => EmptyString
  | String c s' => String (upper_char c) (upper s')
  end.

(** [s.startswith(p)] *)
Fixpoint startswith (s p : string) : bool :=
  match p, s with
  | EmptyString, _ => true
  | String a p', String b s' => Ascii.eqb a b && startswith s' p'
  | String _ _, EmptyString => false
  end.

(** [p in s] for strings. *)
Fixpoint contains (p s : string) : bool :=
  startswith s p ||
  match s with
  | EmptyString => false
  | String _ s' => contains p s'
  end.

(** [s.endswith(p)] *)
Fixpoint endswith (s p : string) : bool :=
  String.eqb s p ||
  match s with
  | EmptyString => false
  | String _ s' => endswith s' p
  end.

Fixpoint lstrip (s : string) : string :=
  match s with
  | EmptyString => EmptyString
  | String c s' => if is_space c then lstrip s' else s
  end.

Fixpoint rstrip (s : string) : string :=
  match s with
  | EmptyString => EmptyString
  | String c s' =>
      match rstrip s' with
      | EmptyString => if is_space c then EmptyString else String c EmptyString
      | r => String c r
      end
  end.

(** [s.strip()] *)
Definition strip (s : string) : string := rstrip (lstrip s).

Fixpoint split_aux (cur : string) (s : string) : list string :=
  match s with
  | EmptyString => match cur with EmptyString => [] | _ => [cur] end
  | String c s' =>
      if is_space c
      then match cur with
           | EmptyString => split_aux EmptyString s'
           | _ => cur :: split_aux EmptyString s'
           end
      else split_aux (cur ++ String c EmptyString)%string s'
  end.

(** [s.split()] with no argument: the maximal runs of non-blank characters. *)
Definition split (s : string) : list string := split_aux EmptyString s.

(** [x in xs] for a list of strings. *)
Definition in_list (x : string) (xs : list string) : bool :=
  existsb (String.eqb x) xs.

(** [any(p in s for p in ps)] *)
Definition any_in (ps : list string) (s : string) : bool :=
  existsb (fun p => contains p s) ps.

(** [any(s.startswith(p) for p in ps)] *)
Definition any_startswith (s : string) (ps : list string) : bool :=
  existsb (startswith s) ps.

(** [re.sub(r'\s+', ' ', s)] written out: every maximal run of blanks
    becomes one space.  [in_run] tells that the previous character was a
    blank, whose space has been emitted already. *)
Fixpoint collapse_aux (in_run : bool) (s : string) : string :=
  match s with
  | EmptyString => EmptyString
  | String c s' =>
      if is_space c
      then if in_run then collapse_aux true s'
           else String " " (collapse_aux true s')
      else String c (collapse_aux false s')
  end.

Definition collapse_ws (s : string) : string := collapse_aux false s.

End PyStr.

(* ================================================================== *)
(** ** The [re] module *)
(* ================================================================== *)

(** What the pipeline asks of Python's [re].  The first argument of each
    operation says whether [re.IGNORECASE] is set, the second is the
    pattern.

    - [re_findall]: the non-overlapping matches, left to right.  The
      call sites either take the length of the result or use a pattern
      whose single group spans the whole match, so each match is
      represented by its matched text.
    - [re_search]: whether the pattern matches somewhere.
    - [re_sub]: every non-overlapping match replaced by a literal text.

    The three laws are facts of [re] that the code relies on. *)
Class Regex : Type := {
  re_findall : bool -> string -> string -> list string;
  re_search : bool -> string -> string -> bool;
  re_sub : bool -> string -> string -> string -> string;
  findall_search : forall ic p s, re_findall ic p s <> [] -> re_search ic p s = true;
  sub_nomatch : forall ic p r s, re_search ic p s = false -> re_sub ic p r s = s;
  sub_blanks : forall s, re_sub false "\s+" " " s = PyStr.collapse_ws s
}.

(** [re.escape]: a backslash before every character that is special in a
    pattern, which includes the blank, [#], [&], [~], [-] and the control
    characters tab to carriage return. *)
Definition escape_special (c : ascii) : bool :=
  PyStr.in_list (String c EmptyString)
    ["("; ")"; "["; "]"; "{"; "}"; "?"; "*"; "+"; "-"; "|"; "^"; "$"; "\"; ".";
     "&"; "~"; "#"; " "]
  || ((9 <=? PyStr.code c) && (PyStr.code c <=? 13)).

Fixpoint re_escape (s : string) : string :=
  match s with
  | EmptyString => EmptyString
  | String c s' =>
      if escape_special c then String "\" (String c (re_escape s'))
      else String c (re_escape s')
  end.

(** A backtracking matcher for the pattern syntax that the program uses:
    literals, [.], escapes ([\b \d \s \w \D \S \W] and escaped
    punctuation), character classes with ranges, groups (capturing and
    [(?:...)]), alternation, the greedy quantifiers [* + ?], and the
    anchors [^] and [$]. *)
Module PyRe.

Import PyStr.

Inductive re : Type :=
| Eps
| Sym (f : ascii -> bool)
| Cat (r1 r2 : re)
| Alt (r1 r2 : re)
| Star (r : re)
| Wordb
| Bol
| Eol.

(** *** Parsing a pattern *)

Definition lit (ic : bool) (c : ascii) : re :=
  Sym (fun x => if ic then Ascii.eqb (lower_char x) (lower_char c) else Ascii.eqb x c).

Definition cls (ic neg : bool) (f : ascii -> bool) : re :=
  Sym (fun x => xorb neg (if ic then f x || f (lower_char x) || f (upper_char x) else f x)).

(** The class of an escape letter, if it is one. *)
Definition escape_class (c : ascii) : option (ascii -> bool) :=
  if Ascii.eqb c "d" then Some is_digit
  else if Ascii.eqb c "s" then Some is_space
  else if Ascii.eqb c "w" then Some is_word
  else if Ascii.eqb c "D" then Some (fun x => negb (is_digit x))
  else if Ascii.eqb c "S" then Some (fun x => negb (is_space x))
  else if Ascii.eqb c "W" then Some (fun x => negb (is_word x))
  else None.

Definition in_range (a b x : ascii) : bool :=
  (code a <=? code x) && (code x <=? code b).

(** One level of grouping: the alternatives already closed and the atoms
    of the alternative being read, last atom first. *)
Record frame : Type := { alts : list re; cur : list re }.

Definition empty_frame : frame := {| alts := []; cur := [] |}.

Definition seq_of (rev_atoms : list re) : re :=
  fold_left (fun acc a => Cat a acc) rev_atoms Eps.

Fixpoint alt_of (rs : list re) : re :=
  match rs with
  | [] => Eps
  | [r] => r
  | r :: rs' => Alt r (alt_of rs')
  end.

Definition close_frame (f : frame) : re := alt_of (alts f ++ [seq_of (cur f)]).

Definition push_atom (a : re) (f : frame) : frame :=
  {| alts := alts f; cur := a :: cur f |}.

Definition quantify (q : re -> re) (f : frame) : option frame :=
  match cur f with
  | a :: rest => Some {| alts := alts f; cur := q a :: rest |}
  | [] => None
  end.

(** [parse ic stack top cl p]: [stack] holds the enclosing groups, [top]
    the group being read, [cl] the character class being read, if any. *)
Fixpoint parse (ic : bool) (stack : list frame) (top : frame)
         (cl : option (bool * (ascii -> bool))) (p : string) {struct p} : option re :=
  match cl with
  | Some (neg, f) =>
      match p with
      | EmptyString => None
      | String c rest =>
          if Ascii.eqb c "]" then parse ic stack (push_atom (cls ic neg f) top) None rest
          else if Ascii.eqb c "\" then
            match rest with
            | EmptyString => None
            | String d rest' =>
                match escape_class d with
                | Some g => parse ic stack top (Some (neg, fun x => f x || g x)) rest'
                | None => parse ic stack top (Some (neg, fun x => f x || Ascii.eqb x d)) rest'
                end
            end
          else
            match rest with
            | String d (String e rest') =>
                if Ascii.eqb d "-" && negb (Ascii.eqb e "]")
                then parse ic stack top (Some (neg, fun x => f x || in_range c e x)) rest'
                else parse ic stack top (Some (neg, fun x => f x || Ascii.eqb x c)) rest
            | _ => parse ic stack top (Some (neg, fun x => f x || Ascii.eqb x c)) rest
            end
      end
  | None =>
      match p with
      | EmptyString =>
          match stack with
          | [] => Some (close_frame top)
          | _ => None
          end
      | String c rest =>
          if Ascii.eqb c "\" then
            match rest with
            | EmptyString => None
            | String d rest' =>
                if Ascii.eqb d "b" then parse ic stack (push_atom Wordb top) None rest'
                else match escape_class d with
                     | Some g => parse ic stack (push_atom (Sym g) top) None rest'
                     | None => parse ic stack (push_atom (lit ic d) top) None rest'
                     end
            end
          else if Ascii.eqb c "(" then
            match rest with
            | String "?" (String ":" rest') => parse ic (top :: stack) empty_frame None rest'
            | _ => parse ic (top :: stack) empty_frame None rest
            end
          else if Ascii.eqb c ")" then
            match stack with
            | [] => None
            | up :: stack' => parse ic stack' (push_atom (close_frame top) up) None rest
            end
          else if Ascii.eqb c "|" then
            parse ic stack {| alts := alts top ++ [seq_of (cur top)]; cur := [] |} None rest
          else if Ascii.eqb c "*" then
            match quantify Star top with
            | Some top' => parse ic stack top' None rest
            | None => None
            end
          else if Ascii.eqb c "+" then
            match quantify (fun a => Cat a (Star a)) top with
            | Some top' => parse ic stack top' None rest
            | None => None
            end
          else if Ascii.eqb c "?" then
            match quantify (fun a => Alt a Eps) top with
            | Some top' => parse ic stack top' None rest
            | None => None
            end
          else if Ascii.eqb c "[" then
            match rest with
            | String "^" rest' => parse ic stack top (Some (true, fun _ => false)) rest'
            | _ => parse ic stack top (Some (false, fun _ => false)) rest
            end
          else if Ascii.eqb c "." then
            parse ic stack (push_atom (Sym (fun x => negb (code x =? 10))) top) None rest
          else if Ascii.eqb c "^" then parse ic stack (push_atom Bol top) None rest
          else if Ascii.eqb c "$" then parse ic stack (push_atom Eol top) None rest
          else parse ic stack (push_atom (lit ic c) top) None rest
      end
  end.

Definition compile (ic : bool) (p : string) : option re :=
  parse ic [] empty_frame None p.

(** *** Matching *)

Definition next_is_word (s : string) : bool :=
  match s with
  | String c _ => is_word c
  | EmptyString => false
  end.

(** A continuation receives the matcher's position: whether it is the
    start of the text, whether the character before it is a word
    character, and the text still unread. *)
Definition cont : Type := bool -> bool -> string -> option string.

(** Greedy repetition of [step]: try one more round (which has to consume
    something), and fall back to the continuation when that path fails.
    [n] bounds the number of rounds by the length of the text. *)
Fixpoint star_loop (step : cont -> cont) (k : cont) (n : nat) : cont :=
  fun st pw s =>
    match n with
    | O => k st pw s
    | S n' =>
        match step (fun st' pw' s' =>
                      if String.length s' <? String.length s
                      then star_loop step k n' st' pw' s' else None) st pw s with
        | Some e => Some e
        | None => k st pw s
        end
    end.

(** [m r k st pw s]: match [r] at the head of [s], then hand what is left
    to the continuation [k].  Alternatives and repetitions are tried in
    Python's order (left alternative first, longest repetition first);
    the result is what the first successful path leaves unread. *)
Fixpoint m (r : re) (k : cont) (st pw : bool) (s : string) {struct r} : option string :=
  match r with
  | Eps => k st pw s
  | Sym f =>
      match s with
      | String c s' => if f c then k false (is_word c) s' else None
      | EmptyString => None
      end
  | Cat r1 r2 => m r1 (m r2 k) st pw s
  | Alt r1 r2 =>
      match m r1 k st pw s with
      | Some e => Some e
      | None => m r2 k st pw s
      end
  | Star r' => star_loop (m r') k (String.length s) st pw s
  | Wordb => if xorb pw (next_is_word s) then k st pw s else None
  | Bol => if st then k st pw s else None
  | Eol => match s with EmptyString => k st pw s | _ => None end
  end.

(** The length of the match of [r] that starts at the head of [s]. *)
Definition match_here (r : re) (st pw : bool) (s : string) : option nat :=
  match m r (fun _ _ rest => Some rest) st pw s with
  | Some rest => Some (String.length s - String.length rest)
  | None => None
  end.

Fixpoint search_aux (r : re) (st pw : bool) (s : string) : bool :=
  match match_here r st pw s with
  | Some _ => true
  | None =>
      match s with
      | EmptyString => false
      | String c s' => search_aux r false (is_word c) s'
      end
  end.

(** [skip] counts the characters of the current match still to pass. *)
Fixpoint findall_aux (r : re) (skip : nat) (st pw : bool) (s : string) : list string :=
  match skip with
  | S k =>
      match s with
      | EmptyString => []
      | String c s' => findall_aux r k false (is_word c) s'
      end
  | O =>
      match match_here r st pw s with
      | Some n =>
          substring 0 n s ::
          match s with
          | EmptyString => []
          | String c s' => findall_aux r (pred n) false (is_word c) s'
          end
      | None =>
          match s with
          | EmptyString => []
          | String c s' => findall_aux r 0 false (is_word c) s'
          end
      end
  end.

Fixpoint sub_aux (r : re) (repl : string) (skip : nat) (st pw : bool) (s : string) : string :=
  match skip with
  | S k =>
      match s with
      | EmptyString => EmptyString
      | String c s' => sub_aux r repl k false (is_word c) s'
      end
  | O =>
      match match_here r st pw s with
      | Some (S n) =>
          (repl ++
           match s with
           | EmptyString => EmptyString
           | String c s' => sub_aux r repl n false (is_word c) s'
           end)%string
      | Some O =>
          (repl ++
           match s with
           | EmptyString => EmptyString
           | String c s' => String c (sub_aux r repl 0 false (is_word c) s')
           end)%string
      | None =>
          match s with
          | EmptyString => EmptyString
          | String c s' => String c (sub_aux r repl 0 false (is_word c) s')
          end
      end
  end.

Definition findall (ic : bool) (p s : string) : list string :=
  match compile ic p with
  | Some r => findall_aux r 0 true false s
  | None => []
  end.

Definition search (ic : bool) (p s : string) : bool :=
  match compile ic p with
  | Some r => search_aux r true false s
  | None => false
  end.

Definition sub (ic : bool) (p repl s : string) : string :=
  match compile ic p with
  | Some r => sub_aux r repl 0 true false s
  | None => s
  end.

End PyRe.

(* ================================================================== *)
(** ** Python values: floats, dictionaries, the conversation context *)
(* ================================================================== *)

Module Py.

(** Comparisons and the two-argument [max] and [min] on floats.  Python
    keeps its first argument unless the second is strictly better. *)
Definition ltb (x y : Q) : bool := negb (Qle_bool y x).
Definition leb (x y : Q) : bool := Qle_bool x y.
Definition max (a b : Q) : Q := if ltb a b then b else a.
Definition min (a b : Q) : Q := if ltb b a then b else a.

Definition of_nat (n : nat) : Q := inject_Z (Z.of_nat n).

(** [max(xs)] and [sum(xs)] over the values of a non-empty dictionary. *)
Definition max_of (xs : list Q) : Q :=
  match xs with
  | [] => 0%Q
  | x :: xs' => fold_left max xs' x
  end.

Definition sum (xs : list Q) : Q := fold_left Qplus xs 0%Q.

(** A dictionary with string keys, in insertion order. *)
Definition dict (V : Type) : Type := list (string * V).

Fixpoint get {V : Type} (d : dict V) (k : string) : option V :=
  match d with
  | [] => None
  | (k', v) :: d' => if String.eqb k k' then Some v else get d' k
  end.

(** [d.get(k, default)] *)
Definition get_or {V : Type} (d : dict V) (k : string) (default : V) : V :=
  match get d k with
  | Some v => v
  | None => default
  end.

(** [k in d] *)
Definition mem {V : Type} (k : string) (d : dict V) : bool :=
  match get d k with Some _ => true | None => false end.

(** [d[k] = v] *)
Fixpoint set {V : Type} (d : dict V) (k : string) (v : V) : dict V :=
  match d with
  | [] => [(k, v)]
  | (k', v') :: d' => if String.eqb k k' then (k', v) :: d' else (k', v') :: set d' k v
  end.

Definition values {V : Type} (d : dict V) : list V := map snd d.

(** [if k in d: d[k] *= f] *)
Definition scale (k : string) (f : Q) (d : dict Q) : dict Q :=
  match get d k with
  | Some v => set d k (v * f)%Q
  | None => d
  end.

(** The conversation context: [None] or a dictionary.  Its values are
    strings. *)
Definition context : Type := option (dict string).

(** Truth value of a context: [None] and the empty dictionary are false. *)
Definition truthy (c : context) : bool :=
  match c with
  | Some (_ :: _) => true
  | _ => false
  end.

(** Truth value of an optional string: [None] and [''] are false. *)
Definition nonempty (v : option string) : bool :=
  match v with
  | Some (String _ _) => true
  | _ => false
  end.

(** [v == s] for a value that is [None] or a string. *)
Definition is_str (v : option string) (s : string) : bool :=
  match v with
  | Some x => String.eqb x s
  | None => false
  end.

(** [context.get(k)] *)
Definition cget (c : context) (k : string) : option string :=
  match c with
  | Some d => get d k
  | None => None
  end.

(** [str(d)] for a dictionary of strings (keys and values without quote
    or control characters). *)
Fixpoint str_items (d : dict string) : string :=
  match d with
  | [] => EmptyString
  | (k, v) :: d' =>
      ("'" ++ k ++ "': '" ++ v ++ "'" ++
       match d' with [] => EmptyString | _ => ", " ++ str_items d' end)%string
  end.

Definition str (c : context) : string :=
  match c with
  | Some d => ("{" ++ str_items d ++ "}")%string
  | None => "None"
  end.

End Py.

(* ================================================================== *)
(** ** [config.py] *)
(* ================================================================== *)

(** The entries of the ['nlu'] and ['product_matching'] sections that the
    pipeline reads.  The first three can be changed through environment
    variables; [max_fuzzy_results] and [fuzzy_threshold] cannot. *)
Record Config : Type := {
  use_semantic_fallback : bool;
  semantic_threshold : Q;
  semantic_weight : Q
}.

Definition DEFAULT_CONFIG : Config :=
  {| use_semantic_fallback := true;
     semantic_threshold := 0.5%Q;
     semantic_weight := 0.8%Q |}.

Definition max_fuzzy_results : nat := 5.

(* ================================================================== *)
(** ** [intent_classifier.py] *)
(* ================================================================== *)

Module IntentClassifier.

(** The intent names of the interface: the thirteen intents and
    ['unknown']. *)
Definition VOCABULARY : list string :=
  ["confirm_substitution"; "reject_substitution"; "request_callback";
   "report_issue"; "confirm_delivery"; "query_order_status";
   "provide_feedback"; "query_substitution"; "thank_you"; "change_delivery";
   "cancel_order"; "query_products"; "greeting"; "unknown"].

(** [IntentClassifier.INTENT_PATTERNS]: intent, then language, then the
    regular expressions, in the order of the source. *)
Definition INTENT_PATTERNS : list (string * list (string * list string)) :=
  [
   ("confirm_substitution",
    [
     ("en",
       ["\b(yes|yeah|yep|ok|okay|accept|agreed|sure|fine|good|approved|confirm|confirmed)\b";
        "\b(i accept|i agree|that works|sounds good|go ahead|proceed)\b";
        "\b(i\'?ll take|i want|i\'?d like|i\'?ll accept|take it|give me|send me)\b.*\b(replacement|substitute|alternative|instead)\b";
        "\b(replace|substitute|swap).*\b(it|them|this|that)\b"]);
     ("fi",
       ["\b(kyllä|joo|okei|hyväksyn|sopii|hyvä|hyväksytty|vahvistan|sama käy|sopii mulle|ota se|anna se|lähetä se)\b";
        "\b(otan|haluan|saan).*\b(korvauksen|vaihtoehdon|tilalle)\b"]);
     ("sv",
       ["\b(ja|okej|acceptera|godkänd|bekräfta|det fungerar|det låter bra|gå vidare|jag tar|jag vill ha|skicka)\b";
        "\b(ersättning|alternativ|istället)\b"])]);
   ("reject_substitution",
    [
     ("en",
       ["\b(no|nope|nah|decline|reject|refuse)\b";
        "\b(don\'?t want|don\'?t need|don\'?t like|don\'?t accept)\b";
        "\b(i don\'?t want|i don\'?t need|i don\'?t like|i don\'?t accept)\b";
        "\b(no thanks|no thank you|not that|not interested|not acceptable)\b";
        "\b(skip|cancel|remove|without|without it|leave it out|don\'?t send|don\'?t include)\b";
        "\b(not|don\'?t|won\'?t|can\'?t).*\b(agree|accept|want|need|like)\b"]);
     ("fi",
       ["\b(ei|en halua|en tarvitse|hylkään|kieltäydyn|ei kiitos|ohita|poista|peruuta)\b";
        "\b(ilman|jätä pois|älä lähetä|älä sisällytä)\b"]);
     ("sv",
       ["\b(nej|avvisa|jag vill inte|jag behöver inte|inte intresserad|hoppa över|ta bort|avbryt)\b";
        "\b(utan|utan den|lämna bort|skicka inte|inkludera inte)\b"])]);
   ("request_callback",
    [
     ("en",
       ["\b(call me|call back|callback|speak to|talk to|human|person|agent|representative|customer service)\b";
        "\b(i want to|i need to|can i|may i|i would like to).*\b(speak|talk|call)\b";
        "\b(contact me|reach me|get in touch)\b";
        "\b(speak to|talk to).*\b(someone|human|person|agent|representative)\b";
        "\b(i need|i want).*\b(to speak|to talk|to call|someone|human|person)\b"]);
     ("fi",
       ["\b(soita|soita takaisin|puhu|ihminen|henkilö|asiakaspalvelu|edustaja)\b";
        "\b(haluan|tarvitsen|voinko).*\b(puhua|soittaa)\b";
        "\b(ota yhteyttä|yhteydenotto)\b"]);
     ("sv",
       ["\b(ring mig|ring tillbaka|tala med|människa|person|agent|kundtjänst)\b";
        "\b(jag vill|jag behöver|kan jag).*\b(tala|prata|ringa)\b";
        "\b(kontakta mig|nå mig)\b"])]);
   ("report_issue",
    [
     ("en",
       ["\b(missing|missed|didn\'?t receive|did not receive|not received|never received|didn\'?t get|did not get|not got|wrong|incorrect|damaged|broken|defective|problem|issue|complaint)\b";
        "\b(item|product|order|delivery).*\b(missing|wrong|damaged|broken|not here|not delivered|didn\'?t arrive|did not arrive)\b";
        "\b(there\'?s|there is|i have|i\'?m missing|i am missing).*\b(problem|issue|complaint|missing)\b";
        "\b(i didn\'?t|i did not|i haven\'?t|i have not).*\b(receive|get|receive|obtain)\b";
        "\b(only|just|merely).*\b(\d+).*\b(not|instead of|but not|but got|but received).*\b(\d+)\b";
        "\b(should be|should have|expected|supposed to be).*\b(\d+).*\b(but|got|received|have|is|are).*\b(\d+)\b";
        "\b(i see|i notice|i notice that|there is|there are).*\b(only|just|merely).*\b(\d+)\b";
        "\b(quantity|amount|number).*\b(wrong|incorrect|not right|not correct|doesn\'?t match|does not match)\b";
        "\b(there is|there\'?s|there are).*\b(no|not).*\b(in|from|with).*\b(my|the).*\b(order|delivery)\b";
        "\b(in|from|with).*\b(my|the).*\b(order|delivery).*\b(there is|there\'?s|there are).*\b(no|not)\b";
        "\b(not|no).*\b(in|from|with).*\b(my|the).*\b(order|delivery)\b";
        "\b(my|the).*\b(order|delivery).*\b(doesn\'?t|does not|has no|have no|is missing|are missing)\b";
        "\b(there is|there\'?s).*\b(no|not).*\b(product|item|thing)\b"]);
     ("fi",
       ["\b(puuttuu|puuttui|ei tullut|ei saapunut|väärä|vahingoittunut|rikki|viallinen|ongelma|valitus)\b";
        "\b(tuote|tilaus|toimitus).*\b(puuttuu|väärä|vahingoittunut|rikki|ei täällä|ei toimitettu)\b";
        "\b(minulla on|siellä on).*\b(ongelma|valitus)\b"]);
     ("sv",
       ["\b(saknas|saknades|fick inte|mottog inte|fel|skadad|trasig|defekt|problem|klagomål)\b";
        "\b(produkt|beställning|leverans).*\b(saknas|fel|skadad|trasig|inte här|inte levererad)\b";
        "\b(det finns|jag har).*\b(problem|klagomål)\b"])]);
   ("confirm_delivery",
    [
     ("en",
       ["\b(received|got it|arrived|delivered|everything is|all good|all here|complete|perfect|thank you)\b";
        "\b(delivery|order).*\b(received|arrived|here|complete|good|perfect)\b";
        "\b(everything|all items).*\b(here|received|arrived|good)\b"]);
     ("fi",
       ["\b(sain|tuli|saapui|toimitettu|kaikki on|kaikki hyvin|valmis|täydellinen|kiitos)\b";
        "\b(toimitus|tilaus).*\b(saapui|täällä|valmis|hyvä|täydellinen)\b";
        "\b(kaikki|kaikki tuotteet).*\b(täällä|saapui|hyvä)\b"]);
     ("sv",
       ["\b(mottog|kom|anlände|levererad|allt är|allt bra|komplett|perfekt|tack)\b";
        "\b(leverans|beställning).*\b(anlände|här|komplett|bra|perfekt)\b";
        "\b(allt|alla produkter).*\b(här|anlände|bra)\b"])]);
   ("query_order_status",
    [
     ("en",
       ["\b(status|where is|when will|track|tracking|location|when|where)\b.*\b(order|delivery|package|shipment)\b";
        "\b(what|when|where).*\b(order|delivery|package)\b";
        "\b(is my|check my|my order|order status)\b";
        "\b(i need|i want|i have to).*\b(get|receive|have).*\b(it|order|delivery)\b"]);
     ("fi",
       ["\b(tila|missä on|milloin|seuranta|sijainti|milloin|missä)\b.*\b(tilaus|toimitus|paketti)\b";
        "\b(mikä|milloin|missä).*\b(tilaus|toimitus)\b";
        "\b(minun tilaus|tilauksen tila|tarkista tilaus)\b"]);
     ("sv",
       ["\b(status|var är|när kommer|spårning|plats|när|var)\b.*\b(beställning|leverans|paket)\b";
        "\b(vad|när|var).*\b(beställning|leverans)\b";
        "\b(min beställning|beställningsstatus|kolla beställning)\b"])]);
   ("provide_feedback",
    [
     ("en",
       ["\b(feedback|review|rating|rate|comment|opinion|suggestion|improve)\b";
        "\b(how was|how did|what do you think|tell us|let us know)\b";
        "\b(i want to|i\'?d like to).*\b(give|provide|leave).*\b(feedback|review|comment)\b"]);
     ("fi",
       ["\b(palautetta|arvostelu|arvio|kommentti|mielipide|ehdotus|parantaa)\b";
        "\b(miten|mitä mieltä|kerro meille|kerro meille)\b";
        "\b(haluan|haluaisin).*\b(antaa|jättää).*\b(palautetta|arvostelua|kommenttia)\b"]);
     ("sv",
       ["\b(feedback|recension|betyg|kommentar|åsikt|förslag|förbättra)\b";
        "\b(hur var|hur gick|vad tycker du|berätta|låt oss veta)\b";
        "\b(jag vill|jag skulle vilja).*\b(ge|lämna).*\b(feedback|recension|kommentar)\b"])]);
   ("greeting",
    [
     ("en",
       ["\b^(hello|hi|hey|good morning|good afternoon|good evening|greetings)\b";
        "\b(hello|hi|hey)\b.*\b(there|you)\b"]);
     ("fi",
       ["\b^(hei|moi|terve|hyvää päivää|päivää|iltaa)\b";
        "\b(hei|moi|terve)\b.*\b(siellä|sinä)\b"]);
     ("sv",
       ["\b^(hej|hallå|god morgon|god eftermiddag|god kväll|hälsningar)\b";
        "\b(hej|hallå)\b.*\b(där|du)\b"])]);
   ("query_substitution",
    [
     ("en",
       ["\b(what|which|tell me about).*\b(replacement|substitute|alternative|substitution)\b";
        "\b(what did you|what are you).*\b(suggest|propose|recommend|offer)\b";
        "\b(what.*replacement|which.*substitute|what.*alternative)\b";
        "\b(tell me|show me|what is).*\b(the replacement|the substitute|the alternative)\b"]);
     ("fi",
       ["\b(mikä|mitä|kerro).*\b(korvaus|vaihtoehto|korvaava)\b";
        "\b(mikä on|mitä on).*\b(korvaus|vaihtoehto)\b";
        "\b(kerro|näytä).*\b(korvaus|vaihtoehto)\b"]);
     ("sv",
       ["\b(vad|vilken|berätta).*\b(ersättning|alternativ|ersättare)\b";
        "\b(vad är|vilken är).*\b(ersättning|alternativ)\b";
        "\b(berätta|visa).*\b(ersättning|alternativ)\b"])]);
   ("thank_you",
    [
     ("en",
       ["\b(thank you|thanks|thank|appreciate|appreciated|much appreciated|grateful)\b";
        "\b(thanks a lot|thank you very much|thank you so much)\b";
        "\b(i appreciate|i\'m grateful|many thanks)\b"]);
     ("fi",
       ["\b(kiitos|kiitoksia|kiitän|kiitoksia paljon|paljon kiitoksia)\b";
        "\b(kiitos avusta|kiitos paljon)\b"]);
     ("sv",
       ["\b(tack|tack så mycket|tusen tack|tackar)\b";
        "\b(jag tackar|tack för hjälpen)\b"])]);
   ("change_delivery",
    [
     ("en",
       ["\b(change|modify|reschedule|move|shift).*\b(delivery|deliver|delivery time|delivery date|delivery address)\b";
        "\b(different|another|new).*\b(time|date|address|location|place)\b.*\b(delivery|deliver)\b";
        "\b(can i|can you|i want to|i need to|i have to).*\b(change|reschedule|modify|get|receive).*\b(delivery|deliver|it|order)\b";
        "\b(deliver|delivery).*\b(to|at|on).*\b(different|another|new)\b";
        "\b(i need|i want|i have to).*\b(get|receive|have).*\b(it|order|delivery).*\b(tomorrow|today|monday|tuesday|wednesday|thursday|friday|saturday|sunday)\b";
        "\b(need|want|have to).*\b(it|order|delivery).*\b(tomorrow|today|by|on|at)\b"]);
     ("fi",
       ["\b(muuta|vaihda|siirrä|uudelleen).*\b(toimitus|toimitusaika|toimituspäivä|toimitusosoite)\b";
        "\b(eri|toinen|uusi).*\b(aika|päivä|osoite|paikka).*\b(toimitus|toimitukselle)\b";
        "\b(voinko|voisitko|haluan|tarvitsen).*\b(muuttaa|vaihtaa|siirtää).*\b(toimitus)\b"]);
     ("sv",
       ["\b(ändra|flytta|omplanera|förändra).*\b(leverans|leveransdag|leveranstid|leveransadress)\b";
        "\b(annan|ny|annan).*\b(tid|datum|adress|plats).*\b(leverans|leverans)\b";
        "\b(kan jag|kan du|jag vill|jag behöver).*\b(ändra|flytta|omplanera).*\b(leverans)\b"])]);
   ("cancel_order",
    [
     ("en",
       ["\b(cancel|stop|canceled|cancelled).*\b(order|my order|the order|delivery)\b";
        "\b(don\'?t|do not).*\b(deliver|send|ship)\b";
        "\b(i want to|i need to|please).*\b(cancel|stop).*\b(order|delivery)\b";
        "\b(cancel|stop|abort).*\b(it|the order|my order)\b"]);
     ("fi",
       ["\b(peruuta|peru|lopeta).*\b(tilaus|minun tilaus|tilaukseni|toimitus)\b";
        "\b(älä|ei tarvitse).*\b(toimita|lähetä)\b";
        "\b(haluan|tarvitsen|voisitko).*\b(peruuttaa|lopettaa).*\b(tilaus|toimitus)\b"]);
     ("sv",
       ["\b(avbryt|stoppa|avbokning).*\b(beställning|min beställning|leverans)\b";
        "\b(leverera inte|skicka inte)\b";
        "\b(jag vill|jag behöver|kan du).*\b(avbryta|stoppa).*\b(beställning|leverans)\b"])]);
   ("query_products",
    [
     ("en",
       ["\b(do you have|do you sell|is available|is in stock|have available)\b";
        "\b(what products|which products|what items|tell me about).*\b(do you have|are available)\b";
        "\b(product info|product information|tell me about).*\b(product|item)\b";
        "\b(is|are).*\b(available|in stock|you have)\b";
        "\b(what|which).*\b(products|items).*\b(do you|are available|can i get)\b"]);
     ("fi",
       ["\b(onko teillä|myyttekö|on saatavilla|on varastossa)\b";
        "\b(mitä tuotteita|mitkä tuotteet|kerro).*\b(onko|myyttekö|on saatavilla)\b";
        "\b(tuotetiedot|tuotteen tiedot|kerro).*\b(tuotteesta|tuotteesta)\b";
        "\b(onko|ovatko).*\b(saatavilla|varastossa|teillä)\b"]);
     ("sv",
       ["\b(har ni|säljer ni|finns|är tillgänglig|är i lager)\b";
        "\b(vilka produkter|vilka varor|berätta).*\b(har ni|finns|är tillgängliga)\b";
        "\b(produktinfo|produktinformation|berätta).*\b(om produkt|om varan)\b";
        "\b(finns|är).*\b(tillgänglig|i lager|har ni)\b"])])
  ].

(** The semantic classifier, when there is one:
    [classify(text, language, top_k)] gives a ranked list of
    (intent, similarity). *)
Definition SemanticClassifier : Type := string -> string -> nat -> list (string * Q).

(** The keys of [INTENT_EXAMPLES] that [SemanticIntentClassifier] keeps
    vectors for (every key but ['unknown']). *)
Definition EXAMPLE_INTENTS : list string :=
  ["confirm_substitution"; "reject_substitution"; "request_callback";
   "report_issue"; "confirm_delivery"; "query_order_status";
   "query_substitution"; "thank_you"; "change_delivery"; "cancel_order";
   "query_products"; "provide_feedback"; "greeting"].

(** What [SemanticIntentClassifier.classify] guarantees of its result:
    the intents are keys of [intent_vectors], and every similarity went
    through [max(0.0, min(1.0, _))]. *)
Definition semantic_ok (sem : SemanticClassifier) : Prop :=
  forall text language top_k intent score,
    In (intent, score) (sem text language top_k) ->
    In intent EXAMPLE_INTENTS /\ (0 <= score)%Q /\ (score <= 1)%Q.

Section Classifier.

Context {R : Regex}.

Local Open Scope Q_scope.

(** [_has_negation(text, language)]: plain containment of a negation
    word of the language, English when the language has no list. *)
Definition negation_words : Py.dict (list string) :=
  [("en", ["no"; "not"; "don't"; "doesn't"; "didn't"; "won't"; "can't";
           "couldn't"; "shouldn't"; "wouldn't"; "isn't"; "aren't"; "wasn't";
           "weren't"; "never"; "nothing"; "nobody"]);
   ("fi", ["ei"; "en"; "et"; "emme"; "ette"; "eivät"; "ei ole"; "ei ollut";
           "ei koskaan"]);
   ("sv", ["inte"; "ej"; "aldrig"; "ingenting"; "ingen"; "är inte"; "var inte"])].

Definition _has_negation (text language : string) : bool :=
  let words := Py.get_or negation_words language (Py.get_or negation_words "en" []) in
  PyStr.any_in words text.

(** One round of the loop over the patterns of an intent. *)
Definition score_pattern (text_lower : string) (score : Q) (pattern : string) : Q :=
  let matches := re_findall true pattern text_lower in
  match matches with
  | [] => score
  | _ :: _ =>
      let score := score + Py.of_nat (List.length matches) * 0.3 in
      if re_search true pattern text_lower then score + 0.5 else score
  end.

(** [lang_patterns.get(language, lang_patterns.get('en', []))] *)
Definition patterns_for (lang_patterns : Py.dict (list string)) (language : string)
  : list string :=
  Py.get_or lang_patterns language (Py.get_or lang_patterns "en" []).

(** The score of an intent after the loop over its patterns, before any
    adjustment. *)
Definition pattern_score (lang_patterns : Py.dict (list string))
           (language text_lower : string) : Q :=
  fold_left (score_pattern text_lower) (patterns_for lang_patterns language) 0.

(** The two negation adjustments. *)
Definition negation_adjust (intent : string) (has_negation : bool) (score : Q) : Q :=
  let score :=
    if String.eqb intent "confirm_substitution" && has_negation then score * 0.1 else score in
  if String.eqb intent "reject_substitution" && has_negation then score * 1.5 else score.

Definition callback_phrases : list string :=
  ["speak to"; "talk to"; "need to speak"; "want to speak"; "someone"; "human";
   "person"; "agent"].

Definition discrepancy_phrases : list string :=
  ["only"; "not"; "should be"; "expected"; "but got"; "but received";
   "instead of"; "quantity"; "amount"; "number"].

Definition issue_phrases : list string :=
  ["there is no"; "there's no"; "there are no"; "not in my order";
   "missing from my order"; "in my order there is no"].

Definition time_words : list string :=
  ["tomorrow"; "today"; "monday"; "tuesday"; "wednesday"; "thursday"; "friday";
   "saturday"; "sunday"; "next week"].

Definition need_words : list string :=
  ["need"; "want"; "have to"; "must"; "should"; "get"; "receive"].

(** The phrase adjustments that follow, in the order of the source. *)
Definition phrase_adjust (intent text_lower : string) (score : Q) : Q :=
  let score :=
    if String.eqb intent "request_callback" && PyStr.any_in callback_phrases text_lower
    then score * 1.5 else score in
  let score :=
    if String.eqb intent "report_issue" && PyStr.any_in callback_phrases text_lower
    then score * 0.3 else score in
  let score :=
    if String.eqb intent "report_issue" then
      let score :=
        if PyStr.any_in discrepancy_phrases text_lower
           && (2 <=? List.length (re_findall false "\b\d+\b" text_lower))%nat
        then score * 1.5 else score in
      if PyStr.any_in issue_phrases text_lower then score * 2.0 else score
    else score in
  let score :=
    if String.eqb intent "reject_substitution"
       && (PyStr.contains "in my order" text_lower
           || PyStr.contains "from my order" text_lower)
    then score * 0.3 else score in
  if PyStr.in_list intent ["change_delivery"; "query_order_status"]
     && PyStr.any_in time_words text_lower && PyStr.any_in need_words text_lower
  then score * 1.4 else score.

(** The body of the loop over the intents. *)
Definition intent_score (language text_lower : string) (has_negation : bool)
           (intent : string) (lang_patterns : Py.dict (list string)) : Q :=
  phrase_adjust intent text_lower
    (negation_adjust intent has_negation
       (pattern_score lang_patterns language text_lower)).

Definition rule_scores (language text_lower : string) (has_negation : bool) : Py.dict Q :=
  fold_left
    (fun intent_scores entry =>
       let score := intent_score language text_lower has_negation (fst entry) (snd entry) in
       if Py.ltb 0 score then Py.set intent_scores (fst entry) score else intent_scores)
    INTENT_PATTERNS [].

Definition issue_indicators : list string :=
  ["didn't receive"; "did not receive"; "not receive"; "missing"; "didn't get";
   "there is no"; "there's no"; "not in my order"; "missing from my order"].

(** The adjustments by conversation stage. *)
Definition stage_adjust (conversation_stage : option string) (context : Py.context)
           (text_lower : string) (intent_scores : Py.dict Q) : Py.dict Q :=
  if Py.is_str conversation_stage "pre_order_substitution" then
    let intent_scores := Py.scale "confirm_substitution" 1.8 intent_scores in
    let intent_scores := Py.scale "reject_substitution" 1.8 intent_scores in
    let intent_scores := Py.scale "query_substitution" 1.5 intent_scores in
    let intent_scores :=
      if PyStr.in_list (PyStr.strip text_lower) ["yes"; "yeah"; "yep"; "ok"; "okay"; "sure"]
         && negb (Py.mem "confirm_substitution" intent_scores)
      then Py.set intent_scores "confirm_substitution" 0.7 else intent_scores in
    if PyStr.in_list (PyStr.strip text_lower) ["no"; "nope"; "nah"]
       && negb (Py.mem "reject_substitution" intent_scores)
    then Py.set intent_scores "reject_substitution" 0.7 else intent_scores
  else if Py.is_str conversation_stage "post_delivery_investigation" then
    let intent_scores := Py.scale "report_issue" 1.8 intent_scores in
    let intent_scores := Py.scale "confirm_delivery" 1.5 intent_scores in
    let intent_scores := Py.scale "query_order_status" 1.5 intent_scores in
    let intent_scores :=
      if Py.truthy context && Py.nonempty (Py.cget context "proposed_solution")
      then Py.scale "reject_substitution" 1.5
             (Py.scale "confirm_substitution" 1.5 intent_scores)
      else intent_scores in
    if PyStr.any_in issue_indicators text_lower
    then if negb (Py.mem "report_issue" intent_scores)
         then Py.set intent_scores "report_issue" 0.7
         else Py.scale "report_issue" 1.5 intent_scores
    else intent_scores
  else intent_scores.

(** The adjustment kept for contexts without a conversation stage. *)
Definition legacy_adjust (conversation_stage : option string) (context : Py.context)
           (intent_scores : Py.dict Q) : Py.dict Q :=
  if Py.truthy context && negb (Py.nonempty conversation_stage)
  then
    if PyStr.contains "substitution" (PyStr.lower (Py.str context))
       || PyStr.contains "replacement" (PyStr.lower (Py.str context))
    then Py.scale "reject_substitution" 1.5
           (Py.scale "confirm_substitution" 1.5 intent_scores)
    else intent_scores
  else intent_scores.

(** [max(d.items(), key=lambda x: x[1])]: the first entry with the
    greatest value. *)
Fixpoint best_of (best : string * Q) (items : list (string * Q)) : string * Q :=
  match items with
  | [] => best
  | x :: items' => best_of (if Py.ltb (snd best) (snd x) then x else best) items'
  end.

(** The rule-based verdict: intent, confidence, and the normalised scores. *)
Definition rule_based (text : string) (intent_scores : Py.dict Q)
  : string * Q * Py.dict Q :=
  match intent_scores with
  | [] => ("unknown", 0.3, [])
  | first :: others =>
      let max_score := Py.max_of (Py.values intent_scores) in
      let total_score := Py.sum (Py.values intent_scores) in
      let normalise := fun kv : string * Q => (fst kv, snd kv / Py.max max_score 1.0) in
      let best_intent := best_of (normalise first) (map normalise others) in
      let base_confidence := snd best_intent in
      let num_matching_intents := List.length intent_scores in
      let dominance_ratio :=
        if Py.ltb 0 total_score
        then base_confidence / Py.max (total_score / max_score) 1.0
        else base_confidence in
      let text_words := List.length (PyStr.split text) in
      let vague_penalty := if (text_words <=? 4)%nat then 0.85 else 1.0 in
      let vague_penalty :=
        if (1 <? num_matching_intents)%nat then vague_penalty * 0.9 else vague_penalty in
      let confidence := Py.min (base_confidence * dominance_ratio * vague_penalty) 0.95 in
      let confidence := Py.max confidence 0.5 in
      (fst best_intent, confidence, map normalise intent_scores)
  end.

(** The hybrid step: the semantic classifier as a fallback. *)
Definition hybrid (cfg : Config) (sem : option SemanticClassifier)
           (text language : string) (rule : string * Q * Py.dict Q) : string * Q :=
  let '(rule_based_intent, rule_based_confidence, rule_based_scores) := rule in
  let fallthrough := (rule_based_intent, rule_based_confidence) in
  match sem with
  | Some semantic_classifier =>
      if use_semantic_fallback cfg then
        if Py.ltb rule_based_confidence (semantic_threshold cfg)
           || String.eqb rule_based_intent "unknown"
        then
          match semantic_classifier text language 3%nat with
          | [] => fallthrough
          | (semantic_intent, semantic_score) :: _ =>
              let weighted_semantic_score := semantic_score * semantic_weight cfg in
              if negb (String.eqb rule_based_intent "")
                 && negb (String.eqb rule_based_intent "unknown")
                 && Py.mem rule_based_intent rule_based_scores
              then
                let rule_score := Py.get_or rule_based_scores rule_based_intent 0.0 in
                let combined_score := Py.max rule_score weighted_semantic_score in
                if Py.ltb (rule_score * 1.2) weighted_semantic_score
                then (semantic_intent, Py.min weighted_semantic_score 0.95)
                else (rule_based_intent, Py.min combined_score 0.95)
              else (semantic_intent, Py.min weighted_semantic_score 0.95)
          end
        else fallthrough
      else fallthrough
  | None => fallthrough
  end.

(** [context.get('conversation_stage') if context else None] *)
Definition conversation_stage_of (context : Py.context) : option string :=
  if Py.truthy context then Py.cget context "conversation_stage" else None.

(** [IntentClassifier.classify(text, language, context)].  [sem] is
    [self.semantic_classifier]. *)
Definition classify (cfg : Config) (sem : option SemanticClassifier)
           (text language : string) (context : Py.context) : string * Q :=
  match text with
  | EmptyString => ("unknown", 0.0)
  | String _ _ =>
      let text_lower := PyStr.lower text in
      let conversation_stage := conversation_stage_of context in
      let has_negation := _has_negation text_lower language in
      let intent_scores := rule_scores language text_lower has_negation in
      let intent_scores := stage_adjust conversation_stage context text_lower intent_scores in
      let intent_scores := legacy_adjust conversation_stage context intent_scores in
      hybrid cfg sem text language (rule_based text intent_scores)
  end.

End Classifier.

End IntentClassifier.

(* ================================================================== *)
(** ** [language_detector.py] *)
(* ================================================================== *)

Module LanguageDetector.

(** The tables of the class, byte for byte as the source file has them. *)
Definition LANGUAGE_INDICATORS : Py.dict (list string) :=
 [
  ("en",
    [
     "\b(yes|no|ok|okay|accept|reject|confirm|decline|hello|hi|thanks|thank you|please|sorry|problem|issue|delivery|order|status|feedback)\b";
     "\b(that|this|would|could|should|will|can|want|need|like)\b"]);
  ("fi",
    [
     "\b(kyllГӨ|ei|okei|hyvГӨksy|hylkГӨГӨ|vahvista|kiitos|hei|moi|anteeksi|ongelma|toimitus|tilaus|tila|palautetta)\b";
     "\b(se|tГӨmГӨ|tuo|voisi|voisit|haluan|tarvitsen|pitГӨisi)\b"]);
  ("sv",
    [
     "\b(ja|nej|okej|acceptera|avvisa|bekrГӨfta|tack|hej|hejdГҘ|ursГӨkta|problem|leverans|bestГӨllning|status|feedback)\b";
     "\b(det|den|skulle|kunde|vill|behГ¶ver|gillar)\b"])
 ].

Definition FINNISH_CHARS : string := "[ГӨГ¶ГҘГ„Г–Г…]".

Definition SWEDISH_CHARS : string := "[ГҘГӨГ¶Г…Г„Г–]".

Section Detector.

Context {R : Regex}.

Local Open Scope Q_scope.

(** [scores[lang] += x] *)
Definition bump (lang : string) (x : Q) (scores : Py.dict Q) : Py.dict Q :=
  Py.set scores lang (Py.get_or scores lang 0 + x).

(** The scores after the character checks and the indicator loop. *)
Definition raw_scores (text : string) : Py.dict Q :=
  let text_lower := PyStr.lower text in
  let scores : Py.dict Q := [("en", 0.0); ("fi", 0.0); ("sv", 0.0)] in
  let scores := if re_search false FINNISH_CHARS text then bump "fi" 2.0 scores else scores in
  let scores := if re_search false SWEDISH_CHARS text then bump "sv" 2.0 scores else scores in
  fold_left
    (fun scores entry =>
       fold_left
         (fun scores pattern =>
            let matches := List.length (re_findall true pattern text_lower) in
            bump (fst entry) (Py.of_nat matches * 0.5) scores)
         (snd entry) scores)
    LANGUAGE_INDICATORS scores.

(** The scores after the division by the number of words. *)
Definition normalized_scores (text : string) : Py.dict Q :=
  let scores := raw_scores text in
  let text_length := List.length (PyStr.split text) in
  if (0 <? text_length)%nat
  then map (fun kv => (fst kv, snd kv / Py.of_nat (Nat.max text_length 1))) scores
  else scores.

(** [max(scores.items(), key=lambda x: x[1])]: the first entry with the
    greatest score. *)
Definition arg_max (scores : Py.dict Q) : string * Q :=
  match scores with
  | [] => ("en", 0)
  | x :: xs => IntentClassifier.best_of x xs
  end.

Definition LOW_SIGNAL : Q := 0.1.

(** [LanguageDetector.detect(text)] *)
Definition detect (text : string) : string :=
  match text with
  | EmptyString => "en"
  | String _ _ =>
      let scores := normalized_scores text in
      let detected_lang := fst (arg_max scores) in
      if Py.ltb (Py.get_or scores detected_lang 0) LOW_SIGNAL then "en" else detected_lang
  end.

End Detector.

End LanguageDetector.

(* ================================================================== *)
(** ** [text_normalizer.py] *)
(* ================================================================== *)

Module TextNormalizer.

Definition FILLER_WORDS : Py.dict (list string) :=
 [
  ("en",
    ["um"; "uh"; "er"; "ah"; "like"; "you know"; "actually"; "basically";
     "literally"; "so"; "well"; "hmm"]);
  ("fi",
    ["öö"; "ää"; "tuota"; "niin"; "siis"; "no"; "no niin"]);
  ("sv",
    ["öhm"; "eh"; "alltså"; "liksom"; "typ"; "va"])
 ].

Definition TRANSCRIPTION_FIXES : Py.dict (list (string * string)) :=
 [
  ("en",
    [("\bto\b", "two");
     ("\bfor\b", "four");
     ("\bhash\b", "#");
     ("\bnumber sign\b", "#");
     ("\bpound sign\b", "#")])
 ].

(** The table of [_normalize_contractions]. *)
Definition contractions : list (string * string) :=
  [("don't", "do not");
   ("doesn't", "does not");
   ("didn't", "did not");
   ("won't", "will not");
   ("can't", "cannot");
   ("couldn't", "could not");
   ("shouldn't", "should not");
   ("wouldn't", "would not");
   ("isn't", "is not");
   ("aren't", "are not");
   ("wasn't", "was not");
   ("weren't", "were not");
   ("haven't", "have not");
   ("hasn't", "has not");
   ("hadn't", "had not");
   ("i'm", "i am");
   ("you're", "you are");
   ("we're", "we are");
   ("they're", "they are");
   ("it's", "it is");
   ("that's", "that is");
   ("what's", "what is");
   ("i'll", "i will");
   ("you'll", "you will");
   ("we'll", "we will");
   ("i'd", "i would");
   ("you'd", "you would");
   ("i've", "i have");
   ("you've", "you have")].

Section Normalizer.

Context {R : Regex}.

(** The pattern that [_remove_filler_words] builds for a filler. *)
Definition filler_pattern (filler : string) : string :=
  ("\b" ++ re_escape filler ++ "\b")%string.

Definition _remove_filler_words (text language : string) : string :=
  let fillers := Py.get_or FILLER_WORDS language (Py.get_or FILLER_WORDS "en" []) in
  fold_left (fun text filler => re_sub true (filler_pattern filler) "" text) fillers text.

Definition _normalize_contractions (text language : string) : string :=
  if negb (String.eqb language "en") then text
  else fold_left (fun text ce => re_sub true (fst ce) (snd ce) text) contractions text.

Definition _fix_transcription_errors (text language : string) : string :=
  match Py.get TRANSCRIPTION_FIXES language with
  | None => text
  | Some fixes => fold_left (fun text pr => re_sub true (fst pr) (snd pr) text) fixes text
  end.

(** [TextNormalizer.normalize(text, language)] *)
Definition normalize (text language : string) : string :=
  match text with
  | EmptyString => text
  | String _ _ =>
      let text := re_sub false "\s+" " " (PyStr.strip text) in
      let text := _remove_filler_words text language in
      let text := _normalize_contractions text language in
      let text := _fix_transcription_errors text language in
      let text := re_sub false "\s+" " " text in
      PyStr.strip text
  end.

End Normalizer.

End TextNormalizer.

(* ================================================================== *)
(** ** [entity_extractor.py]: products and sentiment *)
(* ================================================================== *)

Module EntityExtractor.

(** A product of the normalised catalog ([ProductCatalog.get_catalog]). *)
Record CatalogProduct : Type := {
  c_gtin : option string;
  c_name : string;
  c_name_variants : list string
}.

(** A product entity.  [gtin] is [None] when the catalog has none. *)
Record Product : Type := {
  name : string;
  gtin : option string;
  confidence : Q
}.

(** The sentiment entity. *)
Record Sentiment : Type := {
  polarity : string;
  s_confidence : Q;
  method : string
}.

(** [rapidfuzz], when it is installed: the result of
    [_fuzzy_match_products(text_lower, catalog)]. *)
Definition FuzzyMatcher : Type := string -> list CatalogProduct -> list Product.

(** [TextBlob], when it is installed: [TextBlob(text).sentiment.polarity]. *)
Definition PolarityAnalyzer : Type := string -> Q.

(** [self.negation_patterns] *)
Definition negation_patterns : Py.dict (list string) :=
 [
  ("en",
    [
     "\b(no|not|don\'?t|doesn\'?t|didn\'?t|won\'?t|can\'?t|couldn\'?t|shouldn\'?t|wouldn\'?t|isn\'?t|aren\'?t|wasn\'?t|weren\'?t)\b";
     "\b(never|nothing|nobody|nowhere|neither|nor)\b"]);
  ("fi",
    ["\b(ei|en|et|emme|ette|eivät|ei ole|ei ollut)\b";
     "\b(ei koskaan|ei mitään|ei kukaan)\b"]);
  ("sv",
    ["\b(inte|ej|aldrig|ingenting|ingen)\b"; "\b(är inte|var inte|skulle inte)\b"])
 ].

(** The word and phrase tables of [_extract_sentiment_patterns]. *)
Definition positive_words : Py.dict (list string) :=
 [
  ("en",
    ["yes"; "yeah"; "yep"; "good"; "great"; "excellent"; "perfect"; "wonderful";
     "amazing"; "thanks"; "thank you"; "thank"; "appreciate"; "agree"; "agreed";
     "accept"; "accepted"; "fine"; "ok"; "okay"; "sure"; "love"; "liked"; "happy";
     "pleased"; "satisfied"; "received"; "everything"; "all good"; "works";
     "sounds good"; "please send"; "please do"; "go ahead"; "proceed"; "that works";
     "sounds good"; "i'll take"; "i will take"; "i want"; "i'd like"; "i would like";
     "send it"; "send me"; "give me"]);
  ("fi",
    ["kyllä"; "joo"; "hyvä"; "erinomainen"; "kiitos"; "sopii"; "okei"; "hyväksyn"]);
  ("sv",
    ["ja"; "bra"; "utmärkt"; "tack"; "okej"; "acceptera"; "godkänd"])
 ].

Definition negative_words : Py.dict (list string) :=
 [
  ("en",
    ["no"; "nope"; "nah"; "bad"; "terrible"; "awful"; "horrible"; "wrong"; "missing";
     "problem"; "issue"; "complaint"; "reject"; "refuse"; "decline"; "don't";
     "won't"; "can't"; "disappointed"; "angry"; "upset"; "frustrated"; "unhappy";
     "not interested"; "not good"]);
  ("fi",
    ["ei"; "huono"; "ongelma"; "valitus"; "hylkään"; "kieltäydyn"]);
  ("sv",
    ["nej"; "dålig"; "problem"; "klagomål"; "avvisa"])
 ].

Definition positive_phrases : Py.dict (list string) :=
 [
  ("en",
    ["i accept"; "i agree"; "that works"; "sounds good"; "go ahead"; "all good";
     "thank you"; "please send"; "please do"; "send it"; "send me"; "give me";
     "yes please"; "yes i'll"; "yes i will"; "i'll take"; "i will take"; "i want";
     "i'd like"; "i would like"]);
  ("fi",
    ["sama käy"; "sopii mulle"; "lähetä"; "ota se"]);
  ("sv",
    ["det fungerar"; "det låter bra"; "skicka"; "ge mig"; "jag tar"])
 ].

Definition negative_phrases : Py.dict (list string) :=
 [
  ("en",
    ["don't want"; "don't need"; "don't like"; "don't accept"; "no thanks";
     "not interested"]);
  ("fi",
    ["en halua"; "ei kiitos"]);
  ("sv",
    ["vill inte"; "inte intresserad"])
 ].

Definition question_starts : list string :=
  ["do you"; "can you"; "will you"; "are you"; "is it"; "is there"; "what";
   "when"; "where"; "how"; "why"; "which"].

Definition cancel_words : list string :=
  ["cancel"; "stop"; "remove"; "delete"; "refund"; "return"; "reject"; "decline";
   "refuse"].

Definition informational_intents : list string :=
  ["request_callback"; "query_order_status"; "query_products"; "query_substitution"].

(** [self.urgency_patterns] *)
Definition urgency_patterns : Py.dict (list string) :=
 [
  ("en",
    ["\b(urgent|asap|as soon as possible|immediately|right away|now|today|quickly|fast|rush)\b";
     "\b(need|needed).*\b(urgent|immediately|now|today)\b"]);
  ("fi",
    ["\b(kiireellinen|heti|nyt|tänään|pikaisesti|nopeasti|kiire)\b";
     "\b(tarvitsen|tarvitaan).*\b(heti|nyt|tänään|kiireellisesti)\b"]);
  ("sv",
    ["\b(brådskande|snabbt|nu|idag|omedelbart|skyndsamt|bråttom)\b";
     "\b(behöver|behövs).*\b(nu|idag|omedelbart|brådskande)\b"])
 ].

(** The keyword table of [_extract_reasons]: language, then reason
    type, then keywords. *)
Definition reason_patterns : Py.dict (Py.dict (list string)) :=
 [
  ("en",
    [
     ("damaged",
       ["damaged"; "broken"; "cracked"; "smashed"; "torn"; "ripped"; "bent";
        "dented"]);
     ("missing",
       ["missing"; "not received"; "did not get"; "absent"; "gone"; "lost"]);
     ("wrong",
       ["wrong"; "incorrect"; "not what i ordered"; "different"; "not right";
        "mistake"]);
     ("expired",
       ["expired"; "out of date"; "past due"; "old"; "stale"]);
     ("defective",
       ["defective"; "faulty"; "not working"; "broken"; "malfunctioning"]);
     ("incorrect_quantity",
       ["wrong amount"; "wrong quantity"; "too many"; "too few"; "not enough";
        "too much"])
    ]);
  ("fi",
    [
     ("damaged",
       ["vahingoittunut"; "rikki"; "särkynyt"; "repeytynyt"; "taivutettu"]);
     ("missing",
       ["puuttuu"; "ei tullut"; "ei saapunut"; "kadonnut"]);
     ("wrong",
       ["väärä"; "virheellinen"; "ei oikea"; "eri"; "virhe"]);
     ("expired",
       ["vanhentunut"; "päättynyt"; "vanha"]);
     ("defective",
       ["viallinen"; "rikki"; "ei toimi"]);
     ("incorrect_quantity",
       ["väärä määrä"; "liikaa"; "liian vähän"])
    ]);
  ("sv",
    [
     ("damaged",
       ["skadad"; "trasig"; "söndrig"; "bucklad"]);
     ("missing",
       ["saknas"; "fick inte"; "mottog inte"; "försvunnen"]);
     ("wrong",
       ["fel"; "inkorrekt"; "inte rätt"; "annorlunda"]);
     ("expired",
       ["utgången"; "gammal"; "för gammal"]);
     ("defective",
       ["defekt"; "trasig"; "fungerar inte"]);
     ("incorrect_quantity",
       ["fel mängd"; "för mycket"; "för lite"])
    ])
 ].

(** The phrase table of [_extract_reasons]: phrase and reason type. *)
Definition reason_phrases : Py.dict (list (string * string)) :=
 [
  ("en",
    [("not working", "defective");
     ("did not arrive", "missing");
     ("never received", "missing");
     ("wrong item", "wrong");
     ("wrong product", "wrong")]);
  ("fi",
    [("ei toimi", "defective");
     ("ei tullut", "missing");
     ("väärä tuote", "wrong")]);
  ("sv",
    [("fungerar inte", "defective");
     ("kom inte", "missing");
     ("fel produkt", "wrong")])
 ].

(** The urgency entity. *)
Record Urgency : Type := {
  level : string;
  u_confidence : Q
}.

(** A reason entity. *)
Record Reason : Type := {
  r_type : string;
  r_value : string;
  r_confidence : Q
}.

Section Extractor.

Context {R : Regex}.

Local Open Scope Q_scope.

(** *** Sentiment *)

(** [_has_negation(text, language)] *)
Definition _has_negation (text language : string) : bool :=
  let text_lower := PyStr.lower text in
  let patterns := Py.get_or negation_patterns language (Py.get_or negation_patterns "en" []) in
  existsb (fun pattern => re_search true pattern text_lower) patterns.

Definition for_language (table : Py.dict (list string)) (language : string) : list string :=
  Py.get_or table language (Py.get_or table "en" []).

(** The number of words of [words] found in the text between word
    boundaries. *)
Definition count_words (words : list string) (text_lower : string) : nat :=
  fold_left
    (fun count word =>
       if re_search false ("\b" ++ re_escape word ++ "\b")%string text_lower
       then (count + 1)%nat else count)
    words 0%nat.

(** Two for every phrase of [phrases] that the text contains. *)
Definition count_phrases (phrases : list string) (text_lower : string) (count : nat) : nat :=
  fold_left
    (fun count phrase =>
       if PyStr.contains phrase text_lower then (count + 2)%nat else count)
    phrases count.

Definition is_question (text_lower : string) : bool :=
  PyStr.endswith (PyStr.strip text_lower) "?"
  || PyStr.any_startswith text_lower question_starts.

Definition has_cancel (text_lower : string) : bool :=
  PyStr.any_in cancel_words text_lower.

(** The counts before the precedence rules. *)
Definition lexicon_counts (text_lower language : string) : nat * nat :=
  let positive_count := count_words (for_language positive_words language) text_lower in
  let negative_count := count_words (for_language negative_words language) text_lower in
  let positive_count :=
    count_phrases (for_language positive_phrases language) text_lower positive_count in
  let negative_count :=
    count_phrases (for_language negative_phrases language) text_lower negative_count in
  (positive_count, negative_count).

(** The counts after negation and cancel words had their say. *)
Definition adjusted_counts (text language : string) : nat * nat :=
  let text_lower := PyStr.lower text in
  let has_negation := _has_negation text language in
  let '(positive_count, negative_count) := lexicon_counts text_lower language in
  let '(positive_count, negative_count) :=
    if has_negation then
      if (0 <? positive_count)%nat then (0%nat, (negative_count + positive_count)%nat)
      else if (negative_count =? 0)%nat then (positive_count, 1%nat)
      else (positive_count, negative_count)
    else (positive_count, negative_count) in
  if has_cancel text_lower && (0 <? positive_count)%nat
  then (0%nat, (negative_count + positive_count)%nat)
  else (positive_count, negative_count).

(** [_extract_sentiment_patterns(text, language, detected_intent)] *)
Definition _extract_sentiment_patterns (text language : string)
           (detected_intent : option string) : Sentiment :=
  let text_lower := PyStr.lower text in
  let '(positive_count, negative_count) := adjusted_counts text language in
  if is_question text_lower
     && negb ((2 <? negative_count)%nat || (2 <? positive_count)%nat)
  then {| polarity := "neutral"; s_confidence := 0.5; method := "pattern" |}
  else if match detected_intent with
          | Some intent => PyStr.in_list intent informational_intents
          | None => false
          end
          && (negative_count <=? 1)%nat && (positive_count <=? 1)%nat
  then {| polarity := "neutral"; s_confidence := 0.5; method := "pattern+context" |}
  else if Py.is_str detected_intent "report_issue"
  then {| polarity := "negative";
          s_confidence := Py.max 0.6 (Py.min (0.4 + Py.of_nat negative_count * 0.15) 0.95);
          method := "pattern+context" |}
  else if (positive_count <? negative_count)%nat && (0 <? negative_count)%nat
  then {| polarity := "negative";
          s_confidence := Py.min (0.4 + Py.of_nat negative_count * 0.15) 0.95;
          method := "pattern" |}
  else if (negative_count <? positive_count)%nat && (0 <? positive_count)%nat
  then {| polarity := "positive";
          s_confidence := Py.min (0.4 + Py.of_nat positive_count * 0.15) 0.95;
          method := "pattern" |}
  else {| polarity := "neutral"; s_confidence := 0.5; method := "pattern" |}.

(** The polarity score of [TextBlob] after the three overrides. *)
Definition textblob_adjusted (score : Q) (text_lower : string)
           (detected_intent : option string) : Q :=
  let score := if is_question text_lower then 0.0 else score in
  let score := if has_cancel text_lower && Py.ltb 0 score then -0.3 else score in
  if Py.is_str detected_intent "report_issue" && Py.ltb (-0.2) score
  then -0.4 else score.

Definition Qabs_py (x : Q) : Q := if Py.ltb x 0 then - x else x.

(** [_extract_sentiment(text, language, detected_intent)].  [textblob]
    is [None] when the package is missing. *)
Definition _extract_sentiment (textblob : option PolarityAnalyzer)
           (text language : string) (detected_intent : option string) : Sentiment :=
  let text_lower := PyStr.lower text in
  let has_negation := _has_negation text language in
  let textblob_score :=
    match textblob with
    | Some analyzer =>
        if String.eqb language "en"
        then Some (textblob_adjusted (analyzer text) text_lower detected_intent)
        else None
    | None => None
    end in
  let pattern_result := _extract_sentiment_patterns text language detected_intent in
  match textblob_score with
  | Some textblob_score =>
      let '(textblob_polarity, textblob_confidence) :=
        if Py.ltb 0.05 textblob_score
        then ("positive", Py.min (Qabs_py textblob_score) 1.0)
        else if Py.ltb textblob_score (-0.05)
        then ("negative", Py.min (Qabs_py textblob_score) 1.0)
        else ("neutral", 0.3) in
      let '(textblob_polarity, textblob_confidence) :=
        if has_negation && String.eqb textblob_polarity "positive"
        then ("negative", Py.min (textblob_confidence + 0.2) 1.0)
        else (textblob_polarity, textblob_confidence) in
      if String.eqb (polarity pattern_result) textblob_polarity
      then {| polarity := textblob_polarity;
              s_confidence :=
                Py.min ((textblob_confidence * 0.6 + s_confidence pattern_result * 0.4) * 1.2) 1.0;
              method := "textblob+pattern" |}
      else if Py.ltb 0.6 (s_confidence pattern_result)
      then {| polarity := polarity pattern_result;
              s_confidence := s_confidence pattern_result;
              method := "textblob+pattern" |}
      else {| polarity := textblob_polarity;
              s_confidence := textblob_confidence;
              method := "textblob+pattern" |}
  | None => pattern_result
  end.

(** *** Products *)

(** What the loop over the catalog appends for one product. *)
Definition match_product (text_lower : string) (product : CatalogProduct) : list Product :=
  let product_name := PyStr.lower (c_name product) in
  let entity := fun c => {| name := c_name product; gtin := c_gtin product; confidence := c |} in
  if negb (String.eqb product_name "") && PyStr.contains product_name text_lower
  then [entity 0.8]
  else
    let by_variant :=
      if existsb (fun variant => PyStr.contains (PyStr.lower variant) text_lower)
                 (c_name_variants product)
      then [entity 0.7] else [] in
    let product_words := PyStr.split product_name in
    let by_words :=
      if (1 <? List.length product_words)%nat then
        let matched_words :=
          List.length (filter (fun word => PyStr.contains word text_lower) product_words) in
        if Py.leb (Py.of_nat (List.length product_words) * 0.6) (Py.of_nat matched_words)
        then [entity 0.5] else []
      else [] in
    by_variant ++ by_words.

(** The fallback without a catalog: up to three capitalised word
    sequences of the text. *)
Definition products_without_catalog (text : string) : list Product :=
  let product_words :=
    re_findall false "\b([A-Z][a-z]+(?:\s+[A-Z][a-z]+)*)\b" text in
  map (fun word => {| name := word; gtin := None; confidence := 0.3 |})
      (filter (fun word => (List.length (PyStr.split word) <=? 4)%nat)
              (firstn 3 product_words)).

(** Equality of two product dictionaries. *)
Definition product_eqb (p q : Product) : bool :=
  String.eqb (name p) (name q)
  && match gtin p, gtin q with
     | Some a, Some b => String.eqb a b
     | None, None => true
     | _, _ => false
     end
  && Qeq_bool (confidence p) (confidence q).

(** [xs.remove(x)]: without the first element equal to [x]. *)
Fixpoint remove_first (x : Product) (xs : list Product) : list Product :=
  match xs with
  | [] => []
  | y :: xs' => if product_eqb y x then xs' else y :: remove_first x xs'
  end.

Definition matches_proposed (proposed_lower : string) (product : Product) : bool :=
  String.eqb (PyStr.lower (name product)) proposed_lower
  || PyStr.contains proposed_lower (PyStr.lower (name product)).

(** The first product that matches the proposed substitute, with its
    confidence raised in place; [before] are the products in front of
    it. *)
Fixpoint boost_in_place (proposed_lower : string) (products : list Product)
  : option (Product * list Product) :=
  match products with
  | [] => None
  | product :: rest =>
      if matches_proposed proposed_lower product
      then
        let boosted :=
          {| name := name product; gtin := gtin product;
             confidence := Py.min 1.0 (confidence product * 1.3) |} in
        Some (boosted, boosted :: rest)
      else
        match boost_in_place proposed_lower rest with
        | Some (boosted, rest') => Some (boosted, product :: rest')
        | None => None
        end
  end.

(** The boost of the proposed substitute: raise it, remove it from the
    list, insert it in front. *)
Definition boost_proposed (proposed_substitute : option string) (products : list Product)
  : list Product :=
  match proposed_substitute with
  | Some (String _ _ as proposed) =>
      match boost_in_place (PyStr.lower proposed) products with
      | Some (boosted, products') => boosted :: remove_first boosted products'
      | None => products
      end
  | _ => products
  end.

(** The key of the duplicate removal. *)
Definition key (p : Product) : option string * string := (gtin p, name p).

Definition key_eqb (a b : option string * string) : bool :=
  match fst a, fst b with
  | Some x, Some y => String.eqb x y
  | None, None => true
  | _, _ => false
  end && String.eqb (snd a) (snd b).

(** The loop that keeps the first product of every key; [seen] is the
    set of keys met so far. *)
Fixpoint unique (seen : list (option string * string)) (products : list Product)
  : list Product :=
  match products with
  | [] => []
  | product :: rest =>
      if existsb (key_eqb (key product)) seen
      then unique seen rest
      else product :: unique (key product :: seen) rest
  end.

(** The fuzzy matches whose name is not among the names found so far. *)
Definition add_fuzzy (fuzzy_products products : list Product) : list Product :=
  let existing_names := map (fun p => PyStr.lower (name p)) products in
  products ++
  filter (fun fp => negb (PyStr.in_list (PyStr.lower (name fp)) existing_names))
         fuzzy_products.

(** [_extract_products(text, language, context)].  [fuzzy] is [None]
    when [rapidfuzz] is missing, [catalog] is
    [self.product_catalog.get_catalog()]. *)
Definition _extract_products (fuzzy : option FuzzyMatcher) (catalog : list CatalogProduct)
           (text language : string) (context : Py.context) : list Product :=
  let text_lower := PyStr.lower text in
  let proposed_substitute :=
    if Py.truthy context then Py.cget context "proposed_substitute" else None in
  match catalog with
  | [] => products_without_catalog text
  | _ :: _ =>
      let products := flat_map (match_product text_lower) catalog in
      let products :=
        match fuzzy with
        | Some matcher =>
            if (List.length products <? 3)%nat
            then add_fuzzy (matcher text_lower catalog) products
            else products
        | None => products
        end in
      let products := boost_proposed proposed_substitute products in
      firstn max_fuzzy_results (unique [] products)
  end.

(** *** [extract]: the two entities above and the priority boost *)

Record Entities : Type := {
  products : list Product;
  sentiment : Sentiment
}.

Definition boost (c : Q) : Q := Py.min 1.0 (c * 1.2).

(** One round of the loop over [priority_entities]. *)
Definition prioritise (entities : Entities) (entity_type : string) : Entities :=
  if String.eqb entity_type "products" then
    {| products :=
         map (fun p => {| name := name p; gtin := gtin p; confidence := boost (confidence p) |})
             (products entities);
       sentiment := sentiment entities |}
  else if String.eqb entity_type "sentiment" then
    {| products := products entities;
       sentiment :=
         {| polarity := polarity (sentiment entities);
            s_confidence := boost (s_confidence (sentiment entities));
            method := method (sentiment entities) |} |}
  else entities.

(** [EntityExtractor.extract], restricted to the products and the
    sentiment.  [priority_entities] is [[]] when the caller gives none. *)
Definition extract (fuzzy : option FuzzyMatcher) (textblob : option PolarityAnalyzer)
           (catalog : list CatalogProduct) (text language : string)
           (context : Py.context) (priority_entities : list string)
           (detected_intent : option string) : Entities :=
  let entities :=
    {| products := _extract_products fuzzy catalog text language context;
       sentiment := _extract_sentiment textblob text language detected_intent |} in
  fold_left prioritise priority_entities entities.

(** *** Urgency and reasons *)

(** [_extract_urgency(text, language)] *)
Definition _extract_urgency (text language : string) : Urgency :=
  let text_lower := PyStr.lower text in
  let patterns := for_language urgency_patterns language in
  let urgency_score :=
    fold_left
      (fun urgency_score pattern =>
         let matches := List.length (re_findall true pattern text_lower) in
         urgency_score + Py.of_nat matches * 0.4)
      patterns 0.0 in
  if Py.ltb 0.3 urgency_score
  then {| level := "high"; u_confidence := Py.min urgency_score 1.0 |}
  else if Py.ltb 0.1 urgency_score
  then {| level := "medium"; u_confidence := Py.min urgency_score 0.7 |}
  else {| level := "low"; u_confidence := 0.3 |}.

(** The first keyword of a reason type that the text has between word
    boundaries, as a reason. *)
Definition reason_by_keyword (text_lower : string) (entry : string * list string)
  : list Reason :=
  match find (fun keyword =>
                re_search true ("\b" ++ re_escape keyword ++ "\b")%string text_lower)
             (snd entry) with
  | Some keyword => [{| r_type := fst entry; r_value := keyword; r_confidence := 0.7 |}]
  | None => []
  end.

(** One round of the loop over the phrases. *)
Definition reason_by_phrase (text_lower : string) (reasons : list Reason)
           (entry : string * string) : list Reason :=
  if PyStr.contains (fst entry) text_lower
     && negb (existsb (fun r => String.eqb (r_type r) (snd entry)) reasons)
  then reasons ++ [{| r_type := snd entry; r_value := fst entry; r_confidence := 0.8 |}]
  else reasons.

(** [_extract_reasons(text, language)] *)
Definition _extract_reasons (text language : string) : list Reason :=
  let text_lower := PyStr.lower text in
  let lang_reasons :=
    Py.get_or reason_patterns language (Py.get_or reason_patterns "en" []) in
  let reasons := flat_map (reason_by_keyword text_lower) lang_reasons in
  let phrases := Py.get_or reason_phrases language (Py.get_or reason_phrases "en" []) in
  let reasons := fold_left (reason_by_phrase text_lower) phrases reasons in
  firstn 5 reasons.

End Extractor.

End EntityExtractor.

(* ================================================================== *)
(** ** [product_catalog.py]: lookups *)
(* ================================================================== *)

Module ProductCatalog.

Import EntityExtractor.

(** [str(gtin)] for a gtin that is a string or [None]. *)
Definition str_gtin (gtin : option string) : string :=
  match gtin with
  | Some g => g
  | None => "None"
  end.

(** The test of the loop of [find_product]. *)
Definition named (name_lower : string) (product : CatalogProduct) : bool :=
  String.eqb (PyStr.lower (c_name product)) name_lower
  || existsb (fun variant => String.eqb (PyStr.lower variant) name_lower)
             (c_name_variants product).

(** [find_product(name)] on the catalog. *)
Definition find_product (catalog : list CatalogProduct) (name : string)
  : option CatalogProduct :=
  find (named (PyStr.lower name)) catalog.

(** [find_product_by_gtin(gtin)] on the catalog. *)
Definition find_product_by_gtin (catalog : list CatalogProduct) (gtin : string)
  : option CatalogProduct :=
  find (fun product => String.eqb (str_gtin (c_gtin product)) gtin) catalog.

End ProductCatalog.

(* ================================================================== *)
(** ** [semantic_intent_classifier.py] *)
(* ================================================================== *)

Module SemanticIntentClassifier.

(** [intent_examples.INTENT_EXAMPLES] *)
Definition INTENT_EXAMPLES : Py.dict (Py.dict (list string)) :=
 [
  ("confirm_substitution",
    [
     ("en",
       ["Yes, I accept the replacement"; "I will take the substitute";
        "That works for me"; "Go ahead with the replacement";
        "I agree to the substitute"; "Yes, please send the replacement";
        "I will accept it"; "Sounds good, I will take it";
        "Okay, I will take the substitute"; "I want the replacement"]);
     ("fi",
       ["Kyllä, hyväksyn korvauksen"; "Otan korvauksen"; "Sopii minulle";
        "Hyväksyn vaihtoehdon"; "Joo, lähetä korvaus"; "Otan sen"; "Sama käy"]);
     ("sv",
       ["Ja, jag accepterar ersättningen"; "Jag tar ersättningen"; "Det fungerar";
        "Gå vidare med ersättningen"; "Jag accepterar det";
        "Okej, skicka ersättningen"])
    ]);
  ("reject_substitution",
    [
     ("en",
       ["No, I do not want a substitute"; "I decline the replacement";
        "I do not want it"; "No thanks, skip it"; "I do not need a replacement";
        "Leave it out"; "Do not send a substitute"; "I do not want the replacement";
        "No, skip the replacement"; "Cancel that item"]);
     ("fi",
       ["Ei, en halua korvausta"; "Hylkään korvauksen"; "En halua sitä";
        "Ei kiitos, ohita se"; "Jätä pois"; "Älä lähetä korvausta"]);
     ("sv",
       ["Nej, jag vill inte ha ersättning"; "Jag avvisar ersättningen";
        "Jag vill inte ha den"; "Nej tack, hoppa över"; "Skicka inte ersättning"])
    ]);
  ("request_callback",
    [
     ("en",
       ["I need to speak to someone"; "Can I talk to a human";
        "I want to speak to customer service"; "Please call me back";
        "I need to talk to an agent"; "Connect me to a person";
        "I want to speak to someone about my order"; "Can you call me";
        "I need human assistance"; "Let me speak to a representative"]);
     ("fi",
       ["Haluan puhua jonkun kanssa"; "Voinko puhua ihmisen kanssa";
        "Tarvitsen asiakaspalvelun"; "Soita minulle takaisin";
        "Yhdistä minut henkilöön"]);
     ("sv",
       ["Jag behöver prata med någon"; "Kan jag prata med en människa";
        "Jag vill prata med kundtjänst"; "Ring mig tillbaka";
        "Koppla mig till en person"])
    ]);
  ("report_issue",
    [
     ("en",
       ["I did not receive my order"; "My delivery is missing items";
        "I see only 2 boxes, not 3"; "The package arrived damaged";
        "I did not get what I ordered"; "Something is wrong with my delivery";
        "My order is incomplete"; "I received the wrong product";
        "The items are damaged"; "I see that there is only 2 boxes of milk, not 3";
        "I have a problem with my order"; "My delivery has issues"]);
     ("fi",
       ["En saanut tilaukseni"; "Toimituksesta puuttuu tuotteita";
        "Näen vain 2 laatikkoa, ei 3"; "Paketti saapui vahingoittuneena";
        "Sain väärän tuotteen"; "Tilaukseni on epätäydellinen"]);
     ("sv",
       ["Jag fick inte min beställning"; "Min leverans saknar varor";
        "Jag ser bara 2 lådor, inte 3"; "Paketet anlände skadat";
        "Jag fick fel produkt"; "Min beställning är ofullständig"])
    ]);
  ("confirm_delivery",
    [
     ("en",
       ["I received everything"; "All items arrived"; "Delivery is complete";
        "Everything is here"; "All good, received all items";
        "Perfect, got everything"; "Delivery successful"; "All items received";
        "Everything arrived safely"]);
     ("fi",
       ["Sain kaiken"; "Kaikki tuotteet saapuivat"; "Toimitus valmis";
        "Kaikki on täällä"; "Kaikki hyvin"]);
     ("sv",
       ["Jag mottog allt"; "Alla varor anlände"; "Leverans klar"; "Allt är här";
        "Allt bra"])
    ]);
  ("query_order_status",
    [
     ("en",
       ["Where is my order"; "When will my delivery arrive";
        "What is the status of my order"; "I need to get it tomorrow";
        "When is my order coming"; "Track my order"; "Check order status";
        "Where is my package"; "When will it be delivered";
        "I have to get it tomorrow"]);
     ("fi",
       ["Missä on tilaukseni"; "Milloin toimitus saapuu"; "Mikä on tilaukseni tila";
        "Tarvitsen sen huomenna"; "Milloin tilaus tulee"]);
     ("sv",
       ["Var är min beställning"; "När kommer min leverans";
        "Vad är status på min beställning"; "Jag behöver den imorgon";
        "När kommer den"])
    ]);
  ("query_substitution",
    [
     ("en",
       ["What replacement did you suggest"; "Tell me about the substitute";
        "What is the replacement product"; "Which substitute are you offering";
        "What did you recommend"; "Show me the replacement option";
        "What is the alternative"]);
     ("fi",
       ["Mikä korvaus ehdotettiin"; "Kerro korvauksesta"; "Mikä on korvaava tuote";
        "Mitä suosititte"]);
     ("sv",
       ["Vad för ersättning föreslog ni"; "Berätta om ersättningen";
        "Vilken ersättning erbjuder ni"; "Vad rekommenderade ni"])
    ]);
  ("thank_you",
    [
     ("en",
       ["Thank you very much"; "Thanks a lot"; "I appreciate it";
        "Thank you for your help"; "Much appreciated"; "Thanks"; "Thank you so much"]);
     ("fi",
       ["Kiitos paljon"; "Kiitoksia"; "Arvostan sitä"; "Kiitos avusta"]);
     ("sv",
       ["Tack så mycket"; "Tusen tack"; "Jag uppskattar det"; "Tack för hjälpen"])
    ]);
  ("change_delivery",
    [
     ("en",
       ["I need to get it tomorrow"; "Can you deliver on Monday instead";
        "Change delivery time to next week"; "I want to reschedule the delivery";
        "Can we change the delivery date"; "Move delivery to tomorrow";
        "I have to get it tomorrow"; "Change delivery address";
        "Deliver at a different time"; "Reschedule for next week"]);
     ("fi",
       ["Tarvitsen sen huomenna"; "Voitteko toimittaa maanantaina";
        "Muuta toimitusaikaa"; "Haluan siirtää toimituksen"; "Vaihda toimituspäivää"]);
     ("sv",
       ["Jag behöver den imorgon"; "Kan ni leverera på måndag"; "Ändra leveranstid";
        "Jag vill omplanera leveransen"; "Flytta leverans till imorgon"])
    ]);
  ("cancel_order",
    [
     ("en",
       ["I want to cancel my order"; "Cancel the order"; "Stop the delivery";
        "Do not deliver"; "Cancel order number 12345"; "I need to cancel";
        "Please cancel my order"; "I want to cancel"]);
     ("fi",
       ["Haluan peruuttaa tilaukseni"; "Peruuta tilaus"; "Lopeta toimitus";
        "Älä toimita"; "Peruuta tilaus numero"]);
     ("sv",
       ["Jag vill avbryta min beställning"; "Avbryt beställningen";
        "Stoppa leveransen"; "Leverera inte"; "Avbryt beställning nummer"])
    ]);
  ("query_products",
    [
     ("en",
       ["Do you have milk available"; "Is milk in stock";
        "What products do you have"; "Tell me about your products";
        "What items are available"; "Do you sell milk"; "What products can I get";
        "Is product X available"]);
     ("fi",
       ["Onko maitoa saatavilla"; "Onko maito varastossa";
        "Mitä tuotteita teillä on"; "Kerro tuotteistanne";
        "Mitkä tuotteet ovat saatavilla"]);
     ("sv",
       ["Har ni mjölk tillgänglig"; "Finns mjölk i lager"; "Vilka produkter har ni";
        "Berätta om era produkter"; "Vilka varor finns tillgängliga"])
    ]);
  ("provide_feedback",
    [
     ("en",
       ["I want to give feedback"; "I would like to leave feedback";
        "Let me provide some feedback"; "I have feedback about the service";
        "I want to share my experience"; "Can I give feedback"]);
     ("fi",
       ["Haluan antaa palautetta"; "Haluan jättää palautetta";
        "Anna minun antaa palautetta"; "Minulla on palautetta palvelusta"]);
     ("sv",
       ["Jag vill ge feedback"; "Jag skulle vilja lämna feedback";
        "Låt mig ge feedback"; "Jag har feedback om tjänsten"])
    ]);
  ("greeting",
    [
     ("en",
       ["Hello"; "Hi there"; "Good morning"; "Hey"; "Greetings"]);
     ("fi",
       ["Hei"; "Moi"; "Hyvää päivää"; "Terve"]);
     ("sv",
       ["Hej"; "Hallå"; "God morgon"; "Hejsan"])
    ]);
  ("unknown",
    [
     ("en",
       []);
     ("fi",
       []);
     ("sv",
       [])
    ])
 ].

Section Classifier.

(** What comes from [scikit-learn]: the type of a TF-IDF matrix,
    [vectorizer.transform(texts)] ([None] when it raises), and
    [cosine_similarity(vectorizer.transform([text]), vectors)[0]] ([None]
    when it raises). *)
Variable Matrix : Type.
Variable transform : list string -> option Matrix.
Variable cosine_similarity : string -> Matrix -> option (list Q).

Local Open Scope Q_scope.

(** [intent_text_map] of [_precompute_vectors]: the examples of every
    intent but ['unknown'], all languages together. *)
Definition intent_text_map : Py.dict (list string) :=
  fold_left
    (fun text_map (entry : string * Py.dict (list string)) =>
       if String.eqb (fst entry) "unknown" then text_map
       else
         fold_left
           (fun text_map (lang_examples : string * list string) =>
              fold_left
                (fun text_map example =>
                   Py.set text_map (fst entry)
                          (Py.get_or text_map (fst entry) [] ++ [example]))
                (snd lang_examples) text_map)
           (snd entry) text_map)
    INTENT_EXAMPLES [].

(** [self.intent_vectors] after [_precompute_vectors]. *)
Definition intent_vectors : Py.dict (option Matrix) :=
  flat_map
    (fun entry : string * list string =>
       match snd entry with
       | [] => []
       | texts => [(fst entry, transform texts)]
       end)
    intent_text_map.

(** [max(0.0, min(1.0, x))] *)
Definition clamp (x : Q) : Q := Py.max 0.0 (Py.min 1.0 x).

(** The loop of [classify] over the intents; [None] when a similarity
    computation raises. *)
Fixpoint score_intents (text : string) (vectors : Py.dict (option Matrix))
         (intent_scores : Py.dict Q) : option (Py.dict Q) :=
  match vectors with
  | [] => Some intent_scores
  | (intent, v) :: rest =>
      match v with
      | None => score_intents text rest intent_scores
      | Some matrix =>
          if String.eqb intent "unknown" then score_intents text rest intent_scores
          else
            match cosine_similarity text matrix with
            | None => None
            | Some [] => score_intents text rest intent_scores
            | Some (s :: similarities) =>
                let max_similarity := Py.max_of (s :: similarities) in
                score_intents text rest (Py.set intent_scores intent (clamp max_similarity))
            end
      end
  end.

(** [sorted(items, key=lambda x: x[1], reverse=True)]: by falling score,
    entries of equal score in their first order. *)
Fixpoint insert_desc (x : string * Q) (items : list (string * Q)) : list (string * Q) :=
  match items with
  | [] => [x]
  | y :: items' =>
      if Py.ltb (snd y) (snd x) then x :: y :: items' else y :: insert_desc x items'
  end.

Definition sorted_desc (items : list (string * Q)) : list (string * Q) :=
  fold_left (fun acc x => insert_desc x acc) items [].

(** [SemanticIntentClassifier.classify(text, language, top_k)].
    [available] says that the vectorizer was fitted. *)
Definition classify (available : bool) (text language : string) (top_k : nat)
  : list (string * Q) :=
  if negb available then []
  else if String.eqb text "" || String.eqb (PyStr.strip text) "" then []
  else
    match score_intents text intent_vectors [] with
    | None => []
    | Some intent_scores => firstn top_k (sorted_desc intent_scores)
    end.

End Classifier.

End SemanticIntentClassifier.

(* ================================================================== *)
(** ** [app.py]: the confidence filter and the parse functions *)
(* ================================================================== *)

Module App.

Import EntityExtractor.

(** The ['confidence'] section of the configuration. *)
Record ConfidenceConfig : Type := {
  min_intent_confidence : Q;
  min_entity_confidence : Q;
  uncertain_threshold : Q
}.

Definition DEFAULT_CONFIDENCE : ConfidenceConfig :=
  {| min_intent_confidence := 0.3%Q;
     min_entity_confidence := 0.4%Q;
     uncertain_threshold := 0.6%Q |}.

Record Filtered : Type := {
  f_entities : Entities;
  uncertain : bool;
  confidence_below_threshold : bool
}.

(** The fields of a parse response that come from the pipeline. *)
Record Response : Type := {
  r_intent : string;
  r_confidence : Q;
  r_entities : Entities;
  r_language : string;
  r_uncertain : bool;
  r_below_threshold : bool
}.

Section Parse.

Context {R : Regex}.

(** [apply_confidence_filters(intent, confidence, entities)], for the
    entities modelled here. *)
Definition apply_confidence_filters (ccfg : ConfidenceConfig) (intent : string)
           (confidence : Q) (entities : Entities) : Filtered :=
  let entities :=
    {| products :=
         filter (fun p => Py.leb (min_entity_confidence ccfg) (EntityExtractor.confidence p))
                (products entities);
       sentiment := sentiment entities |} in
  {| f_entities := entities;
     uncertain := Py.ltb confidence (uncertain_threshold ccfg);
     confidence_below_threshold := Py.ltb confidence (min_intent_confidence ccfg) |}.

(** The pipeline that the three parse functions share: language, then
    normal form, then intent, then entities, then the filter.  No session
    is given. *)
Definition pipeline (cfg : Config) (ccfg : ConfidenceConfig)
           (sem : option IntentClassifier.SemanticClassifier)
           (fuzzy : option FuzzyMatcher) (textblob : option PolarityAnalyzer)
           (catalog : list CatalogProduct) (text : string) (context : Py.context)
           (priority_entities : list string) : Response :=
  let detected_language := LanguageDetector.detect text in
  let normalized_text := TextNormalizer.normalize text detected_language in
  let text := normalized_text in
  let '(intent, intent_confidence) :=
    IntentClassifier.classify cfg sem text detected_language context in
  let entities :=
    extract fuzzy textblob catalog text detected_language context priority_entities
            (Some intent) in
  let filtered := apply_confidence_filters ccfg intent intent_confidence entities in
  {| r_intent := intent;
     r_confidence := intent_confidence;
     r_entities := f_entities filtered;
     r_language := detected_language;
     r_uncertain := uncertain filtered;
     r_below_threshold := confidence_below_threshold filtered |}.

(** [parse_single_text(text, context)] *)
Definition parse_single_text (cfg : Config) (ccfg : ConfidenceConfig)
           (sem : option IntentClassifier.SemanticClassifier)
           (fuzzy : option FuzzyMatcher) (textblob : option PolarityAnalyzer)
           (catalog : list CatalogProduct) (text : string) (context : Py.context)
  : Response :=
  pipeline cfg ccfg sem fuzzy textblob catalog text context [].

(** The context of a stage: a copy of the caller's with the stage set. *)
Definition with_stage (context : Py.context) (stage : string) : Py.context :=
  Some (Py.set (match context with Some d => d | None => [] end)
               "conversation_stage" stage).

(** [parse_pre_order(text, context)] *)
Definition parse_pre_order (cfg : Config) (ccfg : ConfidenceConfig)
           (sem : option IntentClassifier.SemanticClassifier)
           (fuzzy : option FuzzyMatcher) (textblob : option PolarityAnalyzer)
           (catalog : list CatalogProduct) (text : string) (context : Py.context)
  : Response :=
  parse_single_text cfg ccfg sem fuzzy textblob catalog text
                    (with_stage context "pre_order_substitution").

(** [parse_post_delivery(text, context)] *)
Definition parse_post_delivery (cfg : Config) (ccfg : ConfidenceConfig)
           (sem : option IntentClassifier.SemanticClassifier)
           (fuzzy : option FuzzyMatcher) (textblob : option PolarityAnalyzer)
           (catalog : list CatalogProduct) (text : string) (context : Py.context)
  : Response :=
  pipeline cfg ccfg sem fuzzy textblob catalog text
           (with_stage context "post_delivery_investigation")
           ["order_numbers"; "dates"; "reasons"; "products"].

End Parse.

End App.

(* ================================================================== *)
(** ** [session_manager.py] *)
(* ================================================================== *)

(** The session store is passed from call to call; the lock is not
    modelled (one call at a time).  [time.time()] reads a clock: the
    state counts the readings, and the n-th reading is [clock n]. *)
Module SessionManager.

(** The ['session'] section of the configuration. *)
Record SessionConfig : Type := {
  enabled : bool;
  max_history : nat;
  ttl_seconds : Q
}.

Definition DEFAULT_SESSION : SessionConfig :=
  {| enabled := true; max_history := 10; ttl_seconds := 3600%Q |}.

Section Manager.

(** The entities stored with a turn. *)
Variable Payload : Type.
Variable clock : nat -> Q.

Record Turn : Type := {
  timestamp : Q;
  intent : string;
  text : string;
  entities : Payload
}.

Record Session : Type := {
  session_id : string;
  created_at : Q;
  last_activity : Q;
  history : list Turn;
  context : Py.dict string
}.

Record State : Type := {
  sessions : Py.dict Session;
  reads : nat
}.

(** What [get_context] builds from a session. *)
Record Context : Type := {
  previous_intents : list string;
  last_intent : option string;
  interaction_count : nat;
  session_context : Py.dict string
}.

Local Open Scope Q_scope.

(** [time.time()] *)
Definition time_time (st : State) : Q * State :=
  (clock (reads st), {| sessions := sessions st; reads := S (reads st) |}).

(** [del d[k]] *)
Definition del {V : Type} (d : Py.dict V) (k : string) : Py.dict V :=
  filter (fun kv => negb (String.eqb (fst kv) k)) d.

(** [deque(maxlen=n).append(x)]: the oldest entries give way. *)
Definition deque_append {A : Type} (maxlen : nat) (d : list A) (x : A) : list A :=
  skipn (List.length (d ++ [x]) - maxlen) (d ++ [x]).

(** [xs[-n:]] *)
Definition last_n {A : Type} (n : nat) (xs : list A) : list A :=
  skipn (List.length xs - n) xs.

Definition with_sessions (st : State) (d : Py.dict Session) : State :=
  {| sessions := d; reads := reads st |}.

(** [get_session(session_id)] *)
Definition get_session (cfg : SessionConfig) (id : option string) (st : State)
  : option Session * State :=
  if negb (enabled cfg) || negb (Py.nonempty id) then (None, st)
  else
    match id with
    | None => (None, st)
    | Some sid =>
        match Py.get (sessions st) sid with
        | Some session =>
            let '(now, st) := time_time st in
            if Py.ltb (ttl_seconds cfg) (now - created_at session)
            then (None, with_sessions st (del (sessions st) sid))
            else (Some session, st)
        | None => (None, st)
        end
    end.

(** [create_session(session_id)]; [None] stands for the empty
    dictionary that a disabled manager answers. *)
Definition create_session (cfg : SessionConfig) (sid : string) (st : State)
  : option Session * State :=
  if negb (enabled cfg) then (None, st)
  else
    let '(created, st) := time_time st in
    let '(active, st) := time_time st in
    let session :=
      {| session_id := sid; created_at := created; last_activity := active;
         history := []; context := [] |} in
    (Some session, with_sessions st (Py.set (sessions st) sid session)).

(** [get_or_create_session(session_id)] *)
Definition get_or_create_session (cfg : SessionConfig) (id : option string) (st : State)
  : option Session * State :=
  if negb (Py.nonempty id) then (None, st)
  else
    match id with
    | None => (None, st)
    | Some sid =>
        let '(found, st) := get_session cfg id st in
        match found with
        | None => create_session cfg sid st
        | Some session =>
            let '(now, st) := time_time st in
            let session :=
              {| session_id := session_id session; created_at := created_at session;
                 last_activity := now; history := history session;
                 context := context session |} in
            (Some session, with_sessions st (Py.set (sessions st) sid session))
        end
    end.

(** [add_to_history(session_id, intent, text, entities)] *)
Definition add_to_history (cfg : SessionConfig) (sid intent0 text0 : string)
           (entities0 : Payload) (st : State) : State :=
  if negb (enabled cfg) || String.eqb sid "" then st
  else
    let '(found, st) := get_or_create_session cfg (Some sid) st in
    match found with
    | None => st
    | Some session =>
        let '(stamp, st) := time_time st in
        let turn :=
          {| timestamp := stamp; intent := intent0; text := substring 0 100 text0;
             entities := entities0 |} in
        let '(active, st) := time_time st in
        let session :=
          {| session_id := session_id session; created_at := created_at session;
             last_activity := active;
             history := deque_append (max_history cfg) (history session) turn;
             context := context session |} in
        with_sessions st (Py.set (sessions st) sid session)
    end.

(** [get_context(session_id)]; [None] stands for the empty dictionary. *)
Definition get_context (cfg : SessionConfig) (id : option string) (st : State)
  : option Context * State :=
  if negb (enabled cfg) || negb (Py.nonempty id) then (None, st)
  else
    let '(found, st) := get_session cfg id st in
    match found with
    | None => (None, st)
    | Some session =>
        let turns := history session in
        (Some {| previous_intents := map intent (last_n 3 turns);
                 last_intent := option_map intent (List.last (map Some turns) None);
                 interaction_count := List.length turns;
                 session_context := context session |}, st)
    end.

(** [cleanup_expired()] *)
Definition cleanup_expired (cfg : SessionConfig) (st : State) : State :=
  if negb (enabled cfg) then st
  else
    let '(current_time, st) := time_time st in
    with_sessions st
      (filter (fun kv => negb (Py.ltb (ttl_seconds cfg)
                                      (current_time - created_at (snd kv))))
              (sessions st)).

End Manager.

End SessionManager.

(* ================================================================== *)
(** ** Input validation ([NLU/validators.py], [NLU/errors.py]) *)

Module Validators.

(** A value of a request body, as far as the validators tell values
    apart: a [str], or something else, of which only the truth value
    matters. *)
Inductive value : Type :=
| Str (s : string)
| Other (truth : bool).

(** The ['texts'] field of a batch request: a list or not. *)
Inductive batch : Type :=
| NotList
| Items (texts : list value).

(** [errors.ValidationError] *)
Record ValidationError : Type := {
  message : string;
  error_code : string
}.

(** [errors.ERROR_CODES] *)
Definition ERROR_CODES : Py.dict string :=
  [("MISSING_TEXT", "Text field is required");
   ("INVALID_TYPE", "Invalid data type");
   ("TEXT_TOO_SHORT", "Text is too short");
   ("TEXT_TOO_LONG", "Text is too long");
   ("INVALID_CONTEXT", "Invalid context format");
   ("INVALID_SESSION_ID", "Invalid session ID");
   ("PARSE_ERROR", "Error parsing input");
   ("INTERNAL_ERROR", "Internal server error");
   ("BATCH_TOO_LARGE", "Batch size exceeds limit");
   ("EMPTY_BATCH", "Batch request is empty");
   ("INVALID_BATCH_FORMAT", "Invalid batch request format");
   ("INVALID_BATCH_ITEM", "Invalid item in batch")].

(** The ['validation'] section of the configuration; the environment
    can set any integer. *)
Record ValidationConfig : Type := {
  min_text_length : Z;
  max_text_length : Z;
  max_batch_size : Z
}.

Definition DEFAULT_VALIDATION : ValidationConfig :=
  {| min_text_length := 1; max_text_length := 5000; max_batch_size := 100 |}.

(** [str(n)] of an [int] *)
Definition str_int (n : Z) : string := DecimalString.NilZero.string_of_int (Z.to_int n).

(** [len(x)] as an [int] *)
Definition len (s : string) : Z := Z.of_nat (String.length s).

Section Validate.

Context {R : Regex}.

(** [validate_text(text)] *)
Definition validate_text (cfg : ValidationConfig) (text : value)
  : string * option ValidationError :=
  match text with
  | Other false | Str EmptyString =>
      ("", Some {| message := "Text field is required"; error_code := "MISSING_TEXT" |})
  | Other true =>
      ("", Some {| message := "Text must be a string"; error_code := "INVALID_TYPE" |})
  | Str text =>
      let text := PyStr.strip text in
      let min_length := min_text_length cfg in
      let max_length := max_text_length cfg in
      if (len text <? min_length)%Z then
        ("", Some {| message := "Text must be at least " ++ str_int min_length ++ " characters";
                     error_code := "TEXT_TOO_SHORT" |})
      else if (max_length <? len text)%Z then
        ("", Some {| message := "Text must be at most " ++ str_int max_length ++ " characters";
                     error_code := "TEXT_TOO_LONG" |})
      else
        let text := re_sub false "[\x00-\x08\x0B-\x0C\x0E-\x1F\x7F]" "" text in
        let text := re_sub false " +" " " text in
        (text, None)
  end.

(** The loop of [validate_batch_request] from item [i] on. *)
Fixpoint validate_items (cfg : ValidationConfig) (i : nat) (texts : list value)
         (validated_texts : list string) : list string * option ValidationError :=
  match texts with
  | [] => (validated_texts, None)
  | text :: rest =>
      match text with
      | Other _ =>
          ([], Some {| message := "Item " ++ str_int (Z.of_nat i) ++ " in batch is not a string";
                       error_code := "INVALID_BATCH_ITEM" |})
      | Str _ =>
          let '(validated, error) := validate_text cfg text in
          match error with
          | Some error =>
              ([], Some {| message := "Item " ++ str_int (Z.of_nat i) ++ " in batch: "
                                      ++ message error;
                           error_code := error_code error |})
          | None => validate_items cfg (S i) rest (validated_texts ++ [validated])
          end
      end
  end.

(** [validate_batch_request(texts)] *)
Definition validate_batch_request (cfg : ValidationConfig) (texts : batch)
  : list string * option ValidationError :=
  match texts with
  | NotList =>
      ([], Some {| message := "Batch request must be a list";
                   error_code := "INVALID_BATCH_FORMAT" |})
  | Items texts =>
      let max_batch_size := max_batch_size cfg in
      if (max_batch_size <? Z.of_nat (List.length texts))%Z then
        ([], Some {| message := "Batch size exceeds maximum of " ++ str_int max_batch_size;
                     error_code := "BATCH_TOO_LARGE" |})
      else if (List.length texts =? 0)%nat then
        ([], Some {| message := "Batch request cannot be empty"; error_code := "EMPTY_BATCH" |})
      else validate_items cfg 0 texts []
  end.

End Validate.

End Validators.

(** * Properties *)
(* ================================================================== *)

(** ** The matcher satisfies the laws of the interface *)

Module PyReFacts.

Import PyStr PyRe.

Lemma findall_aux_search r : forall s skip st pw,
  findall_aux r skip st pw s <> [] -> search_aux r st pw s = true.
Proof.
  induction s as [|c s IH]; intros skip st pw H.
  - destruct skip; simpl in *; [|congruence].
    destruct (match_here r st pw ""); [reflexivity | congruence].
  - destruct skip as [|k]; simpl in *.
    + destruct (match_here r st pw (String c s)); [reflexivity|].
      apply (IH 0); exact H.
    + destruct (match_here r st pw (String c s)); [reflexivity|].
      apply (IH k); exact H.
Qed.

Lemma sub_aux_nomatch r repl : forall s st pw,
  search_aux r st pw s = false -> sub_aux r repl 0 st pw s = s.
Proof.
  induction s as [|c s IH]; intros st pw H; simpl in *.
  - destruct (match_here r st pw ""); [discriminate | reflexivity].
  - destruct (match_here r st pw (String c s)); [discriminate|].
    rewrite IH; [reflexivity | exact H].
Qed.

(** The pattern [\s+]. *)
Definition blanks : re := Cat (Cat (Sym is_space) (Star (Sym is_space))) Eps.

Lemma compile_blanks : compile false "\s+" = Some blanks.
Proof. reflexivity. Qed.

Lemma lstrip_length s : String.length (lstrip s) <= String.length s.
Proof.
  induction s as [|c s IH]; simpl; [lia|].
  destruct (is_space c); simpl; lia.
Qed.

(** Number of blanks at the head of [s]. *)
Definition leading (s : string) : nat := String.length s - String.length (lstrip s).

Lemma star_blanks : forall n st pw s,
  String.length s <= n ->
  star_loop (m (Sym is_space)) (fun _ _ rest => Some rest) n st pw s = Some (lstrip s).
Proof.
  induction n as [|n IH]; intros st pw s Hn.
  - destruct s; simpl in *; [reflexivity | lia].
  - destruct s as [|c s]; [reflexivity|].
    cbn [star_loop m lstrip]. destruct (is_space c) eqn:Hc; [|reflexivity].
    replace (String.length s <? String.length (String c s)) with true
      by (symmetry; apply Nat.ltb_lt; simpl; lia).
    rewrite IH by (simpl in Hn; lia). reflexivity.
Qed.

Lemma match_here_blanks st pw s :
  match_here blanks st pw s =
  match s with
  | EmptyString => None
  | String c s' => if is_space c then Some (S (leading s')) else None
  end.
Proof.
  unfold match_here, blanks. destruct s as [|c s]; [reflexivity|].
  cbn [m]. destruct (is_space c) eqn:Hc; [|reflexivity].
  rewrite star_blanks by lia. f_equal. unfold leading.
  pose proof (lstrip_length s). cbn [String.length]. lia.
Qed.

Lemma sub_aux_blanks : forall s,
  (forall st pw, sub_aux blanks " " 0 st pw s = collapse_aux false s) /\
  (forall st pw, sub_aux blanks " " (leading s) st pw s = collapse_aux true s).
Proof.
  induction s as [|c s [IH0 IH1]].
  - split; intros; reflexivity.
  - assert (H0 : forall st pw,
               sub_aux blanks " " 0 st pw (String c s) = collapse_aux false (String c s)).
    { intros st pw. cbn [sub_aux collapse_aux]. rewrite match_here_blanks.
      destruct (is_space c) eqn:Hc.
      - rewrite IH1. reflexivity.
      - rewrite IH0. reflexivity. }
    split; [exact H0|].
    intros st pw. unfold leading. cbn [lstrip collapse_aux].
    destruct (is_space c) eqn:Hc.
    + pose proof (lstrip_length s).
      replace (String.length (String c s) - String.length (lstrip s))
        with (S (leading s)) by (unfold leading; cbn [String.length]; lia).
      cbn [sub_aux]. apply IH1.
    + replace (String.length (String c s) - String.length (String c s)) with 0 by lia.
      rewrite H0. cbn [collapse_aux]. rewrite Hc. reflexivity.
Qed.

End PyReFacts.

#[export] Instance py_re : Regex.
Proof.
  refine {| re_findall := PyRe.findall;
            re_search := PyRe.search;
            re_sub := PyRe.sub |}.
  - intros ic p s. unfold PyRe.findall, PyRe.search.
    destruct (PyRe.compile ic p); [apply PyReFacts.findall_aux_search | congruence].
  - intros ic p r s. unfold PyRe.search, PyRe.sub.
    destruct (PyRe.compile ic p); [apply PyReFacts.sub_aux_nomatch | reflexivity].
  - intros s. unfold PyRe.sub. rewrite PyReFacts.compile_blanks.
    apply PyReFacts.sub_aux_blanks.
Defined.


(* ================================================================== *)
(** ** Floats and dictionaries *)
(* ================================================================== *)

Module PyFacts.

Local Open Scope Q_scope.

Lemma ltb_spec x y : BoolSpec (x < y) (y <= x) (Py.ltb x y).
Proof.
  unfold Py.ltb. destruct (Qle_bool y x) eqn:E; constructor.
  - apply Qle_bool_iff; exact E.
  - apply Qnot_le_lt. intro H. apply Qle_bool_iff in H. congruence.
Qed.

Lemma leb_spec x y : BoolSpec (x <= y) (y < x) (Py.leb x y).
Proof.
  unfold Py.leb. destruct (Qle_bool x y) eqn:E; constructor.
  - apply Qle_bool_iff; exact E.
  - apply Qnot_le_lt. intro H. apply Qle_bool_iff in H. congruence.
Qed.

Lemma max_l a b : a <= Py.max a b.
Proof. unfold Py.max. destruct (ltb_spec a b); lra. Qed.

Lemma max_r a b : b <= Py.max a b.
Proof. unfold Py.max. destruct (ltb_spec a b); lra. Qed.

Lemma max_lub a b c : a <= c -> b <= c -> Py.max a b <= c.
Proof. unfold Py.max. destruct (ltb_spec a b); lra. Qed.

Lemma min_l a b : Py.min a b <= a.
Proof. unfold Py.min. destruct (ltb_spec b a); lra. Qed.

Lemma min_r a b : Py.min a b <= b.
Proof. unfold Py.min. destruct (ltb_spec b a); lra. Qed.

Lemma min_glb a b c : c <= a -> c <= b -> c <= Py.min a b.
Proof. unfold Py.min. destruct (ltb_spec b a); lra. Qed.

Lemma of_nat_nonneg n : 0 <= Py.of_nat n.
Proof.
  unfold Py.of_nat. change 0 with (inject_Z 0). rewrite <- Zle_Qle. lia.
Qed.

Lemma of_nat_S n : Py.of_nat (S n) == Py.of_nat n + 1.
Proof.
  unfold Py.of_nat. rewrite Nat2Z.inj_succ. unfold Z.succ.
  rewrite inject_Z_plus. reflexivity.
Qed.

Lemma of_nat_add n k : Py.of_nat (n + k) == Py.of_nat n + Py.of_nat k.
Proof.
  unfold Py.of_nat. rewrite Nat2Z.inj_add, inject_Z_plus. reflexivity.
Qed.

(** Keys of a dictionary. *)
Definition keys {V : Type} (d : Py.dict V) : list string := map fst d.

Lemma keys_set_present {V : Type} (d : Py.dict V) k v :
  In k (keys d) -> keys (Py.set d k v) = keys d.
Proof.
  induction d as [|[k' v'] d IH]; simpl; [tauto|].
  intros [H|H].
  - subst. rewrite String.eqb_refl. reflexivity.
  - destruct (String.eqb k k') eqn:E; [reflexivity|].
    simpl. f_equal. apply IH, H.
Qed.

Lemma keys_set_incl {V : Type} (d : Py.dict V) k v x :
  In x (keys (Py.set d k v)) -> x = k \/ In x (keys d).
Proof.
  induction d as [|[k' v'] d IH]; simpl.
  - intros [H|[]]. left. congruence.
  - destruct (String.eqb k k') eqn:E; simpl.
    + tauto.
    + intros [H|H]; [tauto|]. destruct (IH H); tauto.
Qed.

Lemma get_in_keys {V : Type} (d : Py.dict V) k v :
  Py.get d k = Some v -> In k (keys d).
Proof.
  induction d as [|[k' v'] d IH]; simpl; [discriminate|].
  destruct (String.eqb k k') eqn:E.
  - apply String.eqb_eq in E. subst. tauto.
  - intros H. right. apply IH, H.
Qed.

Lemma get_nodup {V : Type} (d : Py.dict V) k v :
  NoDup (keys d) -> In (k, v) d -> Py.get d k = Some v.
Proof.
  induction d as [|[k' v'] d IH]; simpl; [tauto|].
  intros Hnd [H|H].
  - inversion H; subst. rewrite String.eqb_refl. reflexivity.
  - inversion Hnd as [|? ? Hni Hnd']; subst.
    destruct (String.eqb k k') eqn:E.
    + apply String.eqb_eq in E. subst. exfalso. apply Hni.
      change k' with (fst (k', v)). apply in_map, H.
    + apply IH; assumption.
Qed.

Lemma keys_scale k f (d : Py.dict Q) : keys (Py.scale k f d) = keys d.
Proof.
  unfold Py.scale. destruct (Py.get d k) eqn:E; [|reflexivity].
  apply keys_set_present. eapply get_in_keys, E.
Qed.

Lemma keys_map_values {V W : Type} (g : string * V -> W) (d : Py.dict V) :
  keys (map (fun kv => (fst kv, g kv)) d) = keys d.
Proof.
  unfold keys. rewrite map_map. reflexivity.
Qed.

(** [best_of] picks one of the entries. *)
Lemma best_of_in : forall items best,
  In (IntentClassifier.best_of best items) (best :: items).
Proof.
  induction items as [|x items IH]; intros best; simpl; [tauto|].
  destruct (IH (if Py.ltb (snd best) (snd x) then x else best)) as [H|H].
  - destruct (Py.ltb (snd best) (snd x)); rewrite <- H; tauto.
  - tauto.
Qed.

End PyFacts.

(* ================================================================== *)
(** ** Language detection *)
(* ================================================================== *)

Module LanguageDetectorFacts.

Import LanguageDetector PyFacts.

Section Facts.

Context {R : Regex}.

Lemma keys_bump lang x scores :
  In lang (keys scores) -> keys (bump lang x scores) = keys scores.
Proof. intros H. unfold bump. apply keys_set_present, H. Qed.

Lemma keys_raw_scores text : keys (raw_scores text) = ["en"; "fi"; "sv"].
Proof.
  unfold raw_scores.
  set (s0 := [("en", 0.0%Q); ("fi", 0.0%Q); ("sv", 0.0%Q)]).
  assert (H0 : keys s0 = ["en"; "fi"; "sv"]) by reflexivity.
  set (s1 := if re_search false FINNISH_CHARS text then bump "fi" 2.0 s0 else s0).
  assert (H1 : keys s1 = ["en"; "fi"; "sv"]).
  { unfold s1. destruct (re_search false FINNISH_CHARS text); [|exact H0].
    rewrite keys_bump; rewrite H0; simpl; tauto. }
  set (s2 := if re_search false SWEDISH_CHARS text then bump "sv" 2.0 s1 else s1).
  assert (H2 : keys s2 = ["en"; "fi"; "sv"]).
  { unfold s2. destruct (re_search false SWEDISH_CHARS text); [|exact H1].
    rewrite keys_bump; rewrite H1; simpl; tauto. }
  clearbody s2. clear s0 s1 H0 H1.
  assert (Hall : Forall (fun entry : string * list string =>
                           In (fst entry) ["en"; "fi"; "sv"]) LANGUAGE_INDICATORS).
  { repeat constructor; simpl; tauto. }
  revert s2 H2. induction Hall as [|entry entries Hin _ IH]; intros s Hs; [exact Hs|].
  cbn [fold_left]. apply IH.
  generalize (snd entry). intros patterns. revert s Hs.
  induction patterns as [|p ps IHp]; intros s Hs; [exact Hs|].
  cbn [fold_left]. apply IHp. rewrite keys_bump; rewrite Hs; tauto.
Qed.

Lemma keys_normalized_scores text : keys (normalized_scores text) = ["en"; "fi"; "sv"].
Proof.
  unfold normalized_scores. destruct (0 <? List.length (PyStr.split text)).
  - rewrite (keys_map_values (fun kv => (snd kv / _)%Q)). apply keys_raw_scores.
  - apply keys_raw_scores.
Qed.

Lemma arg_max_in scores : scores <> [] -> In (arg_max scores) scores.
Proof.
  destruct scores as [|x xs]; [congruence|]. intros _. apply best_of_in.
Qed.

Lemma normalized_scores_nonempty text : normalized_scores text <> [].
Proof.
  intros H. pose proof (keys_normalized_scores text) as K. rewrite H in K. discriminate.
Qed.

(** The score that [detect] reads back is the score of the arg-max. *)
Lemma score_of_arg_max text :
  Py.get_or (normalized_scores text) (fst (arg_max (normalized_scores text))) 0%Q
  = snd (arg_max (normalized_scores text)).
Proof.
  pose proof (arg_max_in _ (normalized_scores_nonempty text)) as Hin.
  pose proof (keys_normalized_scores text) as K.
  destruct (arg_max (normalized_scores text)) as [k v]. simpl.
  unfold Py.get_or. rewrite (get_nodup _ k v); [reflexivity | | exact Hin].
  rewrite K. repeat constructor; simpl; intuition discriminate.
Qed.

End Facts.

(** C8: [detect] answers ['en'], ['fi'] or ['sv']; it answers ['en'] on
    the empty text, and whenever the normalised score of the arg-max
    language is below the low-signal threshold.  The answer depends on
    the text alone: [detect] has no other argument and no state. *)
Theorem detect_contract (R : Regex) (text : string) :
  In (detect text) ["en"; "fi"; "sv"]
  /\ detect "" = "en"
  /\ (Py.ltb (snd (arg_max (normalized_scores text))) LOW_SIGNAL = true ->
      detect text = "en").
Proof.
  split; [|split].
  - destruct text as [|c text]; [simpl; tauto|].
    unfold detect.
    destruct (Py.ltb _ LOW_SIGNAL); [simpl; tauto|].
    rewrite <- (keys_normalized_scores (String c text)).
    apply in_map, arg_max_in, normalized_scores_nonempty.
  - reflexivity.
  - intros H. destruct text as [|c text]; [reflexivity|].
    unfold detect. rewrite score_of_arg_max, H. reflexivity.
Qed.

(** The text ["zzz"] carries no indicator of any language. *)
Lemma detect_contract_witness : detect (R := py_re) "zzz" = "en".
Proof.
  apply (proj2 (proj2 (detect_contract py_re "zzz"))).
  vm_compute. reflexivity.
Defined.

End LanguageDetectorFacts.

(* ================================================================== *)
(** ** Intent classification *)
(* ================================================================== *)

Module IntentClassifierFacts.

Import IntentClassifier PyFacts.

Local Open Scope Q_scope.

(** *** Negation *)

Section Negation.

Context {R : Regex}.

(** C10: negation detection is containment, not word matching.  If the
    lower-cased English text contains "no" or "not" anywhere, also inside
    a longer word, [_has_negation] is true, and the loop of [classify]
    multiplies the pattern score of [confirm_substitution] by 0.1 and that
    of [reject_substitution] by 1.5 before the phrase adjustments. *)
Theorem negation_is_containment (text : string) (lang_patterns : Py.dict (list string)) :
  PyStr.contains "no" (PyStr.lower text) = true
  \/ PyStr.contains "not" (PyStr.lower text) = true ->
  let text_lower := PyStr.lower text in
  let has_negation := _has_negation text_lower "en" in
  has_negation = true
  /\ intent_score "en" text_lower has_negation "confirm_substitution" lang_patterns
     = phrase_adjust "confirm_substitution" text_lower
         (pattern_score lang_patterns "en" text_lower * 0.1)
  /\ intent_score "en" text_lower has_negation "reject_substitution" lang_patterns
     = phrase_adjust "reject_substitution" text_lower
         (pattern_score lang_patterns "en" text_lower * 1.5).
Proof.
  intros H text_lower has_negation.
  assert (Hneg : has_negation = true).
  { unfold has_negation, _has_negation. fold text_lower.
    change (Py.get_or negation_words "en" (Py.get_or negation_words "en" []))
      with ("no" :: "not" :: skipn 2 (Py.get_or negation_words "en" [])).
    unfold PyStr.any_in. cbn [existsb].
    destruct H as [H|H]; unfold text_lower; rewrite H; [reflexivity|].
    apply orb_true_r. }
  split; [exact Hneg|].
  unfold intent_score. rewrite Hneg. split; reflexivity.
Qed.

End Negation.

(** "I know" has no negation word, yet it contains "no". *)
Lemma negation_is_containment_witness :
  PyStr.contains "no" (PyStr.lower "I know") = true
  /\ _has_negation (PyStr.lower "I know") "en" = true.
Proof.
  split; [reflexivity|].
  apply (negation_is_containment (R := py_re) "I know" []).
  left. reflexivity.
Defined.

(** *** The pattern score *)

Section PatternScore.

Context {R : Regex}.

(** The number of match occurrences of the patterns in the text. *)
Definition occurrences (patterns : list string) (text_lower : string) : nat :=
  list_sum (map (fun p => List.length (re_findall true p text_lower)) patterns).

(** The number of patterns that match the text at all. *)
Definition matching (patterns : list string) (text_lower : string) : nat :=
  List.length
    (filter (fun p => match re_findall true p text_lower with [] => false | _ => true end)
            patterns).

(** The score as the specification words it: 0.3 for every occurrence
    and one bonus of 0.5 if any pattern matches. *)
Definition single_bonus_score (lang_patterns : Py.dict (list string))
           (language text_lower : string) : Q :=
  let patterns := patterns_for lang_patterns language in
  Py.of_nat (occurrences patterns text_lower) * 0.3
  + (if (0 <? matching patterns text_lower)%nat then 0.5 else 0).

Lemma occurrences_cons p ps text_lower :
  occurrences (p :: ps) text_lower
  = (List.length (re_findall true p text_lower) + occurrences ps text_lower)%nat.
Proof. reflexivity. Qed.

Lemma matching_cons p ps text_lower :
  matching (p :: ps) text_lower
  = ((match re_findall true p text_lower with [] => 0 | _ => 1 end)
     + matching ps text_lower)%nat.
Proof.
  unfold matching. cbn [filter].
  destruct (re_findall true p text_lower); reflexivity.
Qed.

Lemma fold_score_pattern text_lower : forall patterns score,
  fold_left (score_pattern text_lower) patterns score
  == score + Py.of_nat (occurrences patterns text_lower) * 0.3
     + Py.of_nat (matching patterns text_lower) * 0.5.
Proof.
  induction patterns as [|p ps IH]; intros score.
  - unfold occurrences, matching. simpl. change (Py.of_nat 0) with 0. lra.
  - cbn [fold_left]. rewrite IH, occurrences_cons, matching_cons.
    unfold score_pattern.
    destruct (re_findall true p text_lower) as [|x xs] eqn:E.
    + cbn [List.length Nat.add]. lra.
    + assert (Hs : re_search true p text_lower = true)
        by (apply findall_search; rewrite E; discriminate).
      rewrite Hs, !of_nat_add. change (Py.of_nat 1) with 1. lra.
Qed.

(** C5, amended: the score of an intent before the adjustments is 0.3
    for every match occurrence plus 0.5 for every pattern of the intent
    that matches; the patterns are those of the language, and the English
    ones when the intent has none for the language. *)
Theorem pattern_score_formula (lang_patterns : Py.dict (list string))
        (language text_lower : string) :
  let patterns := patterns_for lang_patterns language in
  pattern_score lang_patterns language text_lower
  == Py.of_nat (occurrences patterns text_lower) * 0.3
     + Py.of_nat (matching patterns text_lower) * 0.5
  /\ (Py.get lang_patterns language = None ->
      patterns = Py.get_or lang_patterns "en" []).
Proof.
  intros patterns. split.
  - unfold pattern_score. fold patterns. rewrite fold_score_pattern. lra.
  - intros H. unfold patterns, patterns_for, Py.get_or. rewrite H. reflexivity.
Qed.

End PatternScore.

(** The first two English patterns of [confirm_substitution] both match
    "i accept": two occurrences, two bonuses. *)
Lemma single_bonus_refuted :
  let lang_patterns := Py.get_or INTENT_PATTERNS "confirm_substitution" [] in
  ~ (pattern_score (R := py_re) lang_patterns "en" "i accept"
     == single_bonus_score (R := py_re) lang_patterns "en" "i accept").
Proof.
  intros lang_patterns H. unfold Qeq in H. vm_compute in H. discriminate H.
Qed.

(** *** Texts that match no pattern *)

Section NoMatch.

Context {R : Regex}.

(** No pattern of any intent matches the text. *)
Definition no_pattern_matches (language text_lower : string) : bool :=
  forallb
    (fun entry : string * Py.dict (list string) =>
       forallb (fun p => match re_findall true p text_lower with [] => true | _ => false end)
               (patterns_for (snd entry) language))
    INTENT_PATTERNS.

(** The conversation stage gives an intent a score of its own. *)
Definition stage_seeds (conversation_stage : option string) (text_lower : string) : bool :=
  (Py.is_str conversation_stage "pre_order_substitution"
   && (PyStr.in_list (PyStr.strip text_lower) ["yes"; "yeah"; "yep"; "ok"; "okay"; "sure"]
       || PyStr.in_list (PyStr.strip text_lower) ["no"; "nope"; "nah"]))
  || (Py.is_str conversation_stage "post_delivery_investigation"
      && PyStr.any_in issue_indicators text_lower).

Lemma fold_score_pattern_nomatch text_lower : forall patterns score,
  forallb (fun p => match re_findall true p text_lower with [] => true | _ => false end)
          patterns = true ->
  fold_left (score_pattern text_lower) patterns score = score.
Proof.
  induction patterns as [|p ps IH]; intros score H; [reflexivity|].
  cbn [forallb fold_left] in *. apply andb_true_iff in H as [Hp Hps].
  unfold score_pattern at 2. destruct (re_findall true p text_lower); [|discriminate].
  apply IH, Hps.
Qed.

Lemma adjust_zero intent text_lower has_negation score :
  score == 0 ->
  phrase_adjust intent text_lower (negation_adjust intent has_negation score) == 0.
Proof.
  intros H. unfold phrase_adjust, negation_adjust.
  repeat match goal with
         | |- context [if ?b then _ else _] => destruct b
         end; lra.
Qed.

Lemma rule_scores_nomatch language text_lower has_negation :
  no_pattern_matches language text_lower = true ->
  rule_scores language text_lower has_negation = [].
Proof.
  unfold no_pattern_matches, rule_scores.
  generalize INTENT_PATTERNS. induction l as [|entry entries IH]; intros H; [reflexivity|].
  cbn [forallb fold_left] in *. apply andb_true_iff in H as [He Hes].
  match goal with
  | |- context [Py.ltb 0 ?s] =>
      assert (Hz : s == 0);
      [ unfold intent_score; apply adjust_zero; unfold pattern_score;
        rewrite (fold_score_pattern_nomatch _ _ _ He); reflexivity
      | destruct (ltb_spec 0 s); [lra|] ]
  end.
  apply IH, Hes.
Qed.

Lemma stage_adjust_nil conversation_stage context text_lower :
  stage_seeds conversation_stage text_lower = false ->
  stage_adjust conversation_stage context text_lower [] = [].
Proof.
  unfold stage_seeds, stage_adjust. intros H.
  destruct (Py.is_str conversation_stage "pre_order_substitution").
  - cbn [andb orb] in H. apply orb_false_iff in H as [H1 H2].
    apply orb_false_iff in H1 as [H1 H3]. rewrite H1, H3. reflexivity.
  - cbn [andb orb] in H.
    destruct (Py.is_str conversation_stage "post_delivery_investigation"); [|reflexivity].
    cbn [andb] in H. rewrite H.
    destruct (Py.truthy context && Py.nonempty (Py.cget context "proposed_solution"));
      reflexivity.
Qed.

Lemma legacy_adjust_nil conversation_stage context :
  legacy_adjust conversation_stage context [] = [].
Proof.
  unfold legacy_adjust.
  repeat match goal with
         | |- context [if ?b then _ else _] => destruct b
         end; reflexivity.
Qed.

(** C4, amended: the empty text gives [('unknown', 0.0)]; a text that no
    pattern matches gives [('unknown', 0.3)] when the semantic classifier
    is unavailable and the conversation stage seeds no intent. *)
Theorem unknown_policy :
  (forall cfg sem language context,
      classify cfg sem "" language context = ("unknown", 0.0))
  /\ (forall cfg text language context,
         text <> "" ->
         no_pattern_matches language (PyStr.lower text) = true ->
         stage_seeds (conversation_stage_of context) (PyStr.lower text) = false ->
         classify cfg None text language context = ("unknown", 0.3)).
Proof.
  split; [reflexivity|].
  intros cfg text language context Ht Hn Hs.
  destruct text as [|c text]; [congruence|].
  unfold classify.
  rewrite rule_scores_nomatch by exact Hn.
  rewrite stage_adjust_nil by exact Hs.
  rewrite legacy_adjust_nil. reflexivity.
Qed.

End NoMatch.

Definition pre_order : Py.context :=
  Some [("conversation_stage", "pre_order_substitution")].

Definition post_delivery : Py.context :=
  Some [("conversation_stage", "post_delivery_investigation")].

(** "zzz" matches nothing and no stage is given. *)
Lemma unknown_policy_witness :
  classify (R := py_re) DEFAULT_CONFIG None "zzz" "en" None = ("unknown", 0.3).
Proof.
  apply (proj2 (unknown_policy (R := py_re))).
  - discriminate.
  - vm_compute. reflexivity.
  - reflexivity.
Defined.

(** No English pattern matches "not receive it", the semantic classifier
    is unavailable, and still the answer is not [('unknown', 0.3)]: the
    stage [post_delivery_investigation] seeds [report_issue]. *)
Lemma unknown_policy_refuted :
  ~ (no_pattern_matches (R := py_re) "en" (PyStr.lower "not receive it") = true ->
     classify (R := py_re) DEFAULT_CONFIG None "not receive it" "en" post_delivery
     = ("unknown", 0.3)).
Proof.
  intros H.
  assert (Hn : no_pattern_matches (R := py_re) "en" (PyStr.lower "not receive it") = true)
    by (vm_compute; reflexivity).
  specialize (H Hn). vm_compute in H. discriminate H.
Qed.

(** *** Bare answers in the pre-order stage *)

(** C6: in the stage [pre_order_substitution] the bare "yes" is a
    [confirm_substitution] and the bare "no" a [reject_substitution],
    each with a confidence of at least 0.5, whatever the semantic
    classifier is. *)
Theorem bare_yes_no (sem : option SemanticClassifier) :
  let yes := classify (R := py_re) DEFAULT_CONFIG sem "yes" "en" pre_order in
  let no := classify (R := py_re) DEFAULT_CONFIG sem "no" "en" pre_order in
  fst yes = "confirm_substitution" /\ 0.5 <= snd yes
  /\ fst no = "reject_substitution" /\ 0.5 <= snd no.
Proof.
  intros yes no. unfold yes, no.
  destruct sem as [f|]; vm_compute;
    (repeat split; try reflexivity; intros H; discriminate H).
Qed.

(** *** The answer of [classify] *)

Section Vocabulary.

Context {R : Regex}.

(** All keys of the dictionary are intent names of the vocabulary. *)
Definition known_keys (d : Py.dict Q) : Prop := incl (keys d) VOCABULARY.

Lemma in_list_In x xs : PyStr.in_list x xs = true -> In x xs.
Proof.
  unfold PyStr.in_list. intros H. apply existsb_exists in H as (y & Hy & E).
  apply String.eqb_eq in E. subst. exact Hy.
Qed.

Lemma known_keys_set d k v :
  In k VOCABULARY -> known_keys d -> known_keys (Py.set d k v).
Proof.
  intros Hk Hd x Hx. apply keys_set_incl in Hx as [Hx|Hx]; [subst; exact Hk|].
  apply Hd, Hx.
Qed.

Lemma known_keys_scale d k f : known_keys d -> known_keys (Py.scale k f d).
Proof. unfold known_keys. rewrite keys_scale. tauto. Qed.

Lemma known_keys_rule_scores language text_lower has_negation :
  known_keys (rule_scores language text_lower has_negation).
Proof.
  unfold rule_scores.
  assert (Hall : Forall (fun entry : string * Py.dict (list string) =>
                           In (fst entry) VOCABULARY) INTENT_PATTERNS).
  { apply Forall_forall. intros entry He. apply in_list_In.
    assert (Hb : forallb (fun entry : string * Py.dict (list string) =>
                            PyStr.in_list (fst entry) VOCABULARY) INTENT_PATTERNS = true)
      by (vm_compute; reflexivity).
    rewrite forallb_forall in Hb. apply Hb, He. }
  assert (H0 : known_keys []) by (intros x []).
  revert H0. generalize (@nil (string * Q)).
  induction Hall as [|entry entries Hin _ IH]; intros d Hd; [exact Hd|].
  cbn [fold_left]. apply IH.
  match goal with |- context [if ?b then _ else _] => destruct b end;
    [apply known_keys_set; assumption | exact Hd].
Qed.

Lemma known_keys_stage_adjust conversation_stage context text_lower d :
  known_keys d -> known_keys (stage_adjust conversation_stage context text_lower d).
Proof.
  intros Hd. unfold stage_adjust.
  repeat match goal with
         | |- context [if ?b then _ else _] => destruct b
         end;
    repeat first [ exact Hd
                 | apply known_keys_scale
                 | apply known_keys_set; [apply in_list_In; reflexivity|] ].
Qed.

Lemma known_keys_legacy_adjust conversation_stage context d :
  known_keys d -> known_keys (legacy_adjust conversation_stage context d).
Proof.
  intros Hd. unfold legacy_adjust.
  repeat match goal with
         | |- context [if ?b then _ else _] => destruct b
         end;
    repeat first [ exact Hd | apply known_keys_scale ].
Qed.

(** The rule-based verdict names a known intent, with a confidence
    between 0.3 and 0.95. *)
Lemma rule_based_bounds text d :
  known_keys d ->
  In (fst (fst (rule_based text d))) VOCABULARY
  /\ 0.3 <= snd (fst (rule_based text d)) /\ snd (fst (rule_based text d)) <= 0.95.
Proof.
  intros Hd. destruct d as [|first others].
  - unfold rule_based. cbn [fst snd].
    split; [apply in_list_In; reflexivity | split; lra].
  - unfold rule_based. cbv zeta. cbn [fst snd]. split.
    + apply Hd.
      match goal with
      | |- In (fst (best_of _ (map ?n others))) _ =>
          set (normalise := n); change (In (fst (best_of (normalise first) (map normalise others)))
                                           (keys (first :: others)))
      end.
      assert (Hk : keys (map normalise (first :: others)) = keys (first :: others))
        by (unfold keys, normalise; rewrite map_map; reflexivity).
      rewrite <- Hk. apply in_map. cbn [map]. apply best_of_in.
    + split.
      * eapply Qle_trans; [|apply max_r]. lra.
      * apply max_lub; [apply min_r | lra].
Qed.

(** C1: whatever the text, the language code and the context are,
    [classify] answers an intent of the fourteen-name vocabulary with a
    confidence between 0 and 1.  The semantic weight of the configuration
    is not negative (it is 0.8 unless the environment changes it), and
    the semantic classifier, if there is one, keeps its own contract. *)
Theorem classify_in_vocabulary (cfg : Config) (sem : option SemanticClassifier)
        (text language : string) (context : Py.context) :
  0 <= semantic_weight cfg ->
  (forall f, sem = Some f -> semantic_ok f) ->
  In (fst (classify cfg sem text language context)) VOCABULARY
  /\ 0 <= snd (classify cfg sem text language context)
  /\ snd (classify cfg sem text language context) <= 1.
Proof.
  intros Hw Hsem. destruct text as [|c text].
  - unfold classify. cbn [fst snd].
    split; [apply in_list_In; reflexivity | split; lra].
  - unfold classify.
    set (d := legacy_adjust _ _ _).
    assert (Hd : known_keys d).
    { apply known_keys_legacy_adjust, known_keys_stage_adjust, known_keys_rule_scores. }
    pose proof (rule_based_bounds (String c text) d Hd) as (Hi & Hlo & Hhi).
    destruct (rule_based (String c text) d) as [[intent confidence] scores].
    cbn [fst snd] in Hi, Hlo, Hhi. unfold hybrid.
    assert (Hfall : In intent VOCABULARY /\ 0 <= confidence /\ confidence <= 1)
      by (split; [exact Hi | split; lra]).
    destruct sem as [f|]; [|exact Hfall].
    destruct (use_semantic_fallback cfg); [|exact Hfall].
    destruct (Py.ltb confidence (semantic_threshold cfg) || String.eqb intent "unknown");
      [|exact Hfall].
    destruct (f (String c text) language 3%nat) as [|[semantic_intent semantic_score] rest] eqn:Ef;
      [exact Hfall|].
    destruct (Hsem f eq_refl (String c text) language 3%nat semantic_intent semantic_score)
      as (Hin & Hs0 & Hs1); [rewrite Ef; left; reflexivity|].
    assert (Hv : In semantic_intent VOCABULARY).
    { assert (Hb : forallb (fun i => PyStr.in_list i VOCABULARY) EXAMPLE_INTENTS = true)
        by (vm_compute; reflexivity).
      rewrite forallb_forall in Hb. apply in_list_In, Hb, Hin. }
    assert (Hws : 0 <= semantic_score * semantic_weight cfg)
      by (apply Qmult_le_0_compat; assumption).
    assert (Hsemantic : In semantic_intent VOCABULARY
                        /\ 0 <= Py.min (semantic_score * semantic_weight cfg) 0.95
                        /\ Py.min (semantic_score * semantic_weight cfg) 0.95 <= 1).
    { split; [exact Hv|]. split.
      - apply min_glb; [exact Hws | lra].
      - eapply Qle_trans; [apply min_r | lra]. }
    destruct (negb (String.eqb intent "") && negb (String.eqb intent "unknown")
              && Py.mem intent scores); [|exact Hsemantic].
    destruct (Py.ltb _ (semantic_score * semantic_weight cfg)); [exact Hsemantic|].
    cbn [fst snd]. split; [exact Hi|]. split.
    + apply min_glb; [|lra].
      eapply Qle_trans; [exact Hws | apply max_r].
    + eapply Qle_trans; [apply min_r | lra].
Qed.

End Vocabulary.

(** A semantic classifier that always answers [greeting]. *)
Definition always_greeting : SemanticClassifier := fun _ _ _ => [("greeting", 1)].

Lemma classify_in_vocabulary_witness :
  let r := classify (R := py_re) DEFAULT_CONFIG (Some always_greeting) "zzz" "en" None in
  In (fst r) VOCABULARY /\ 0 <= snd r /\ snd r <= 1.
Proof.
  apply (classify_in_vocabulary (R := py_re)).
  - unfold Qle. simpl. lia.
  - intros f Hf. inversion Hf; subst f.
    intros text language top_k intent score Hin.
    simpl in Hin. destruct Hin as [Hin|[]]. inversion Hin; subst.
    split; [apply in_list_In; reflexivity|]. split; unfold Qle; simpl; lia.
Defined.

End IntentClassifierFacts.

(* ================================================================== *)
(** ** Blanks *)
(* ================================================================== *)

Module PyStrFacts.

Import PyStr.

Fixpoint all_space (s : string) : bool :=
  match s with
  | EmptyString => true
  | String c s' => is_space c && all_space s'
  end.

(** [rstrip] one character at a time. *)
Definition rcons (c : ascii) (r : string) : string :=
  match r with
  | EmptyString => if is_space c then EmptyString else String c EmptyString
  | _ => String c r
  end.

Lemma rstrip_cons c s : rstrip (String c s) = rcons c (rstrip s).
Proof. cbn [rstrip]. unfold rcons. destruct (rstrip s); reflexivity. Qed.

Lemma rcons_nonempty c r : r <> EmptyString -> rcons c r = String c r.
Proof. destruct r; [congruence | reflexivity]. Qed.

Lemma lstrip_all_space s : all_space s = true -> lstrip s = EmptyString.
Proof.
  induction s as [|c s IH]; simpl; [reflexivity|].
  destruct (is_space c); [exact IH | discriminate].
Qed.

Lemma rstrip_all_space s : all_space s = true -> rstrip s = EmptyString.
Proof.
  induction s as [|c s IH]; [reflexivity|]. cbn [all_space]. intros H.
  apply andb_true_iff in H as [Hc Hs]. rewrite rstrip_cons, (IH Hs).
  unfold rcons. rewrite Hc. reflexivity.
Qed.

Lemma rstrip_empty s : rstrip s = EmptyString -> all_space s = true.
Proof.
  induction s as [|c s IH]; [reflexivity|]. rewrite rstrip_cons. unfold rcons.
  destruct (rstrip s) eqn:E; [|discriminate].
  cbn [all_space]. destruct (is_space c); [intros _; apply IH; reflexivity | discriminate].
Qed.

Lemma lstrip_idem s : lstrip (lstrip s) = lstrip s.
Proof.
  induction s as [|c s IH]; [reflexivity|]. simpl.
  destruct (is_space c) eqn:E; [exact IH|]. simpl. rewrite E. reflexivity.
Qed.

Lemma rstrip_idem s : rstrip (rstrip s) = rstrip s.
Proof.
  induction s as [|c s IH]; [reflexivity|]. rewrite rstrip_cons. unfold rcons.
  destruct (rstrip s) as [|a r] eqn:E.
  - destruct (is_space c) eqn:Hc; [reflexivity|].
    rewrite rstrip_cons. unfold rcons. simpl. rewrite Hc. reflexivity.
  - rewrite rstrip_cons, IH. reflexivity.
Qed.

Lemma lstrip_rstrip s : lstrip (rstrip s) = rstrip (lstrip s).
Proof.
  induction s as [|c s IH]; [reflexivity|]. rewrite rstrip_cons.
  cbn [lstrip]. destruct (is_space c) eqn:Hc.
  - unfold rcons. destruct (rstrip s) as [|a r] eqn:E.
    + rewrite Hc. rewrite (lstrip_all_space s) by (apply rstrip_empty, E). reflexivity.
    + cbn [lstrip]. rewrite Hc. exact IH.
  - rewrite rstrip_cons. unfold rcons. destruct (rstrip s); rewrite ?Hc; simpl; rewrite Hc;
      reflexivity.
Qed.

Lemma strip_idem s : strip (strip s) = strip s.
Proof.
  unfold strip. rewrite <- lstrip_rstrip, rstrip_idem, lstrip_rstrip, lstrip_idem.
  reflexivity.
Qed.

Lemma space_is_space : is_space " " = true.
Proof. reflexivity. Qed.

Lemma lstrip_collapse_flag s :
  lstrip (collapse_aux true s) = lstrip (collapse_aux false s).
Proof.
  destruct s as [|c s]; [reflexivity|]. cbn [collapse_aux].
  destruct (is_space c); [|reflexivity]. cbn [lstrip]. rewrite space_is_space. reflexivity.
Qed.

Lemma collapse_lstrip s :
  collapse_aux false (lstrip s) = lstrip (collapse_aux false s).
Proof.
  induction s as [|c s IH]; [reflexivity|]. cbn [lstrip collapse_aux].
  destruct (is_space c) eqn:Hc.
  - cbn [lstrip]. rewrite space_is_space, lstrip_collapse_flag. exact IH.
  - cbn [collapse_aux lstrip]. rewrite Hc. reflexivity.
Qed.

Lemma collapse_empty b s : collapse_aux b s = EmptyString -> all_space s = true.
Proof.
  revert b. induction s as [|c s IH]; intros b; [reflexivity|]. cbn [collapse_aux all_space].
  destruct (is_space c); [|discriminate].
  destruct b; [apply IH | discriminate].
Qed.

Lemma collapse_true_all_space s :
  all_space s = true -> collapse_aux true s = EmptyString.
Proof.
  induction s as [|c s IH]; [reflexivity|]. cbn [collapse_aux all_space].
  destruct (is_space c); [exact IH | discriminate].
Qed.

Lemma rstrip_not_all_space s : rstrip s <> EmptyString -> all_space (rstrip s) = false.
Proof.
  intros H. destruct (all_space (rstrip s)) eqn:E; [|reflexivity].
  exfalso. apply H. rewrite <- rstrip_idem. apply rstrip_all_space, E.
Qed.

Lemma collapse_rstrip : forall s b,
  rstrip (collapse_aux b s) = collapse_aux b (rstrip s).
Proof.
  induction s as [|c s IH]; intros b; [reflexivity|].
  rewrite rstrip_cons. unfold rcons. destruct (rstrip s) as [|a r] eqn:E.
  - (* only blanks behind [c] *)
    pose proof (rstrip_empty _ E) as Hs.
    cbn [collapse_aux]. destruct (is_space c) eqn:Hc.
    + destruct b.
      * rewrite collapse_true_all_space by exact Hs. reflexivity.
      * rewrite collapse_true_all_space by exact Hs. reflexivity.
    + rewrite rstrip_cons, IH. cbn [collapse_aux]. rewrite Hc. unfold rcons. rewrite Hc.
      destruct b; reflexivity.
  - assert (Hne : forall b', collapse_aux b' (String a r) <> EmptyString).
    { intros b' H. apply collapse_empty in H.
      rewrite <- E in H. rewrite rstrip_not_all_space in H; [discriminate|].
      rewrite E. discriminate. }
    remember (String a r) as t eqn:Et.
    cbn [collapse_aux]. destruct (is_space c) eqn:Hc.
    + destruct b; [apply IH|].
      rewrite rstrip_cons, IH. apply rcons_nonempty, Hne.
    + rewrite rstrip_cons, IH. apply rcons_nonempty, Hne.
Qed.

Lemma collapse_strip s : collapse_ws (strip s) = strip (collapse_ws s).
Proof.
  unfold collapse_ws, strip. rewrite <- collapse_rstrip, collapse_lstrip. reflexivity.
Qed.

Lemma collapse_true_head s :
  collapse_aux true (collapse_aux true s) = collapse_aux false (collapse_aux true s).
Proof.
  induction s as [|c s IH]; [reflexivity|]. cbn [collapse_aux].
  destruct (is_space c) eqn:Hc; [exact IH|].
  cbn [collapse_aux]. rewrite Hc. reflexivity.
Qed.

Lemma collapse_idem_flag : forall s b,
  collapse_aux false (collapse_aux b s) = collapse_aux b s.
Proof.
  induction s as [|c s IH]; intros b; [reflexivity|]. cbn [collapse_aux].
  destruct (is_space c) eqn:Hc.
  - destruct b; [apply IH|].
    cbn [collapse_aux]. rewrite space_is_space, collapse_true_head, IH. reflexivity.
  - cbn [collapse_aux]. rewrite Hc, IH. reflexivity.
Qed.

Lemma collapse_idem s : collapse_ws (collapse_ws s) = collapse_ws s.
Proof. apply collapse_idem_flag. Qed.

(** A text that went through [strip] and the collapse of blanks is left
    alone by both. *)
Lemma tidy_fixpoint s :
  let n := strip (collapse_ws s) in
  collapse_ws (strip n) = n /\ strip (collapse_ws n) = n.
Proof.
  intros n. unfold n. split.
  - rewrite strip_idem, collapse_strip, collapse_idem. reflexivity.
  - rewrite collapse_strip, collapse_idem, strip_idem. reflexivity.
Qed.

End PyStrFacts.

(* ================================================================== *)
(** ** Text normalisation *)
(* ================================================================== *)

Module TextNormalizerFacts.

Import TextNormalizer.

Section Facts.

Context {R : Regex}.

(** A second pass finds nothing to rewrite in the text: no filler word
    of the language, and for English no contraction and no
    transcription error. *)
Definition quiet (language text : string) : bool :=
  forallb (fun filler => negb (re_search true (filler_pattern filler) text))
          (Py.get_or FILLER_WORDS language (Py.get_or FILLER_WORDS "en" []))
  && (if negb (String.eqb language "en") then true
      else forallb (fun ce : string * string => negb (re_search true (fst ce) text))
                   contractions)
  && match Py.get TRANSCRIPTION_FIXES language with
     | None => true
     | Some fixes =>
         forallb (fun pr : string * string => negb (re_search true (fst pr) text)) fixes
     end.

Lemma fold_sub_nomatch {A : Type} (pat repl : A -> string) (text : string) : forall xs,
  forallb (fun x => negb (re_search true (pat x) text)) xs = true ->
  fold_left (fun text x => re_sub true (pat x) (repl x) text) xs text = text.
Proof.
  induction xs as [|x xs IH]; intros H; [reflexivity|].
  cbn [forallb fold_left] in *. apply andb_true_iff in H as [Hx Hxs].
  rewrite sub_nomatch by (apply negb_true_iff, Hx). apply IH, Hxs.
Qed.

Lemma quiet_steps language text :
  quiet language text = true ->
  _fix_transcription_errors
    (_normalize_contractions (_remove_filler_words text language) language) language
  = text.
Proof.
  unfold quiet. intros H. apply andb_true_iff in H as [H Hf].
  apply andb_true_iff in H as [Hw Hc].
  unfold _remove_filler_words.
  rewrite (fold_sub_nomatch filler_pattern (fun _ => EmptyString)) by exact Hw.
  unfold _normalize_contractions.
  destruct (negb (String.eqb language "en")).
  - unfold _fix_transcription_errors.
    destruct (Py.get TRANSCRIPTION_FIXES language); [|reflexivity].
    apply (fold_sub_nomatch fst snd), Hf.
  - rewrite (fold_sub_nomatch fst snd) by exact Hc.
    unfold _fix_transcription_errors.
    destruct (Py.get TRANSCRIPTION_FIXES language); [|reflexivity].
    apply (fold_sub_nomatch fst snd), Hf.
Qed.

(** C2, amended: normalising twice equals normalising once whenever the
    second pass finds no filler word, contraction or transcription error
    in the result of the first; the two passes over the blanks never
    undo each other. *)
Theorem normalize_idempotent_when_quiet (text language : string) :
  quiet language (normalize text language) = true ->
  normalize (normalize text language) language = normalize text language.
Proof.
  intros Hq. destruct text as [|c text]; [reflexivity|].
  remember (normalize (String c text) language) as n eqn:Hn.
  assert (Htidy : PyStr.collapse_ws (PyStr.strip n) = n
                  /\ PyStr.strip (PyStr.collapse_ws n) = n).
  { subst n. unfold normalize. rewrite !sub_blanks. apply PyStrFacts.tidy_fixpoint. }
  destruct Htidy as [H1 H6].
  destruct n as [|a n]; [reflexivity|].
  unfold normalize. rewrite !sub_blanks, H1, (quiet_steps _ _ Hq). exact H6.
Qed.

End Facts.

Lemma normalize_idempotent_when_quiet_witness :
  normalize (R := py_re) (normalize (R := py_re) "  Hello   world " "en") "en"
  = normalize (R := py_re) "  Hello   world " "en".
Proof.
  apply (normalize_idempotent_when_quiet (R := py_re)).
  vm_compute. reflexivity.
Defined.

(** The first pass removes "um" and leaves "you know"; the second pass
    removes that filler too. *)
Lemma normalize_not_idempotent :
  normalize (R := py_re) (normalize (R := py_re) "you um know" "en") "en"
  <> normalize (R := py_re) "you um know" "en".
Proof. vm_compute. discriminate. Qed.

End TextNormalizerFacts.

(* ================================================================== *)
(** ** Entity extraction *)
(* ================================================================== *)

Module EntityExtractorFacts.

Import EntityExtractor PyFacts.

Local Open Scope Q_scope.

(** *** The priority boost *)

Lemma prioritise_keys entities entity_type :
  map key (products (prioritise entities entity_type)) = map key (products entities).
Proof.
  unfold prioritise. destruct (String.eqb entity_type "products").
  - cbn [products]. rewrite map_map. reflexivity.
  - destruct (String.eqb entity_type "sentiment"); reflexivity.
Qed.

Lemma prioritise_polarity entities entity_type :
  polarity (sentiment (prioritise entities entity_type)) = polarity (sentiment entities).
Proof.
  unfold prioritise. destruct (String.eqb entity_type "products"); [reflexivity|].
  destruct (String.eqb entity_type "sentiment"); reflexivity.
Qed.

Lemma boost_floor lb c : 0 <= lb -> lb <= 1 -> lb <= c -> lb <= boost c.
Proof.
  intros H0 H1 Hc. unfold boost. apply min_glb; [lra|]. nra.
Qed.

Lemma prioritise_floor lb entities entity_type :
  0 <= lb -> lb <= 1 ->
  lb <= s_confidence (sentiment entities) ->
  lb <= s_confidence (sentiment (prioritise entities entity_type)).
Proof.
  intros H0 H1 Hc. unfold prioritise.
  destruct (String.eqb entity_type "products"); [exact Hc|].
  destruct (String.eqb entity_type "sentiment"); [|exact Hc].
  cbn [sentiment s_confidence]. apply boost_floor; assumption.
Qed.

Lemma fold_prioritise_keys : forall priority_entities entities,
  map key (products (fold_left prioritise priority_entities entities))
  = map key (products entities).
Proof.
  induction priority_entities as [|t ts IH]; intros entities; [reflexivity|].
  cbn [fold_left]. rewrite IH. apply prioritise_keys.
Qed.

Lemma fold_prioritise_polarity : forall priority_entities entities,
  polarity (sentiment (fold_left prioritise priority_entities entities))
  = polarity (sentiment entities).
Proof.
  induction priority_entities as [|t ts IH]; intros entities; [reflexivity|].
  cbn [fold_left]. rewrite IH. apply prioritise_polarity.
Qed.

Lemma fold_prioritise_floor lb : forall priority_entities entities,
  0 <= lb -> lb <= 1 ->
  lb <= s_confidence (sentiment entities) ->
  lb <= s_confidence (sentiment (fold_left prioritise priority_entities entities)).
Proof.
  induction priority_entities as [|t ts IH]; intros entities H0 H1 Hc; [exact Hc|].
  cbn [fold_left]. apply IH; try assumption. apply prioritise_floor; assumption.
Qed.

(** *** Products *)

Lemma key_eqb_eq a b : key_eqb a b = true <-> a = b.
Proof.
  destruct a as [ga na], b as [gb nb]. unfold key_eqb. cbn [fst snd]. split.
  - intros H. apply andb_true_iff in H as [Hg Hn]. apply String.eqb_eq in Hn. subst.
    destruct ga, gb; try discriminate; [|reflexivity].
    apply String.eqb_eq in Hg. subst. reflexivity.
  - intros H. inversion H; subst. rewrite String.eqb_refl.
    destruct gb; [rewrite String.eqb_refl|]; reflexivity.
Qed.

Lemma seen_spec k seen : existsb (key_eqb k) seen = true <-> In k seen.
Proof.
  rewrite existsb_exists. split.
  - intros (x & Hx & E). apply key_eqb_eq in E. subst. exact Hx.
  - intros H. exists k. split; [exact H | apply key_eqb_eq; reflexivity].
Qed.

(** The loop keeps one product of every key, and none of a key seen
    before. *)
Lemma unique_nodup : forall found seen,
  NoDup (map key (unique seen found))
  /\ (forall k, In k (map key (unique seen found)) -> ~ In k seen).
Proof.
  induction found as [|p ps IH]; intros seen.
  - split; [constructor | intros k []].
  - cbn [unique]. destruct (existsb (key_eqb (key p)) seen) eqn:E.
    + apply IH.
    + destruct (IH (key p :: seen)) as [Hnd Hout]. cbn [map]. split.
      * constructor; [|exact Hnd]. intros Hin. apply (Hout _ Hin). left. reflexivity.
      * intros k [Hk|Hk].
        -- subst k. intros Hin. apply seen_spec in Hin. congruence.
        -- intros Hin. apply (Hout _ Hk). right. exact Hin.
Qed.

Lemma NoDup_firstn {A : Type} (n : nat) : forall l : list A, NoDup l -> NoDup (firstn n l).
Proof.
  induction n as [|n IH]; intros l H; [constructor|].
  destruct l as [|x l]; [constructor|]. cbn [firstn].
  inversion H as [|? ? Hx Hl]; subst. constructor; [|apply IH, Hl].
  intros Hin. apply Hx. revert Hin. clear.
  revert l. induction n as [|n IHn]; intros l; [intros []|].
  destruct l as [|y l]; [intros []|]. cbn [firstn]. intros [H|H]; [left; exact H|].
  right. apply IHn, H.
Qed.

Section Products.

Context {R : Regex}.

(** C9, amended: the product list of an extraction holds at most five
    entries, whatever the catalog is, and with a catalog that has
    products no two entries with the same (gtin, name) pair. *)
Theorem products_unique (fuzzy : option FuzzyMatcher) (textblob : option PolarityAnalyzer)
        (catalog : list CatalogProduct) (text language : string) (context : Py.context)
        (priority_entities : list string) (detected_intent : option string) :
  let found :=
    products (extract fuzzy textblob catalog text language context priority_entities
                      detected_intent) in
  (List.length found <= 5)%nat /\ (catalog <> [] -> NoDup (map key found)).
Proof.
  intros found.
  assert (Hk : map key found
               = map key (_extract_products fuzzy catalog text language context)).
  { unfold found, extract. rewrite fold_prioritise_keys. reflexivity. }
  assert (Hl : List.length found = List.length (map key found))
    by (rewrite length_map; reflexivity).
  rewrite Hl, Hk. clear Hl Hk found.
  unfold _extract_products. destruct catalog as [|product catalog].
  - split; [|congruence]. unfold products_without_catalog. rewrite !length_map.
    eapply Nat.le_trans; [apply filter_length_le|].
    eapply Nat.le_trans; [apply firstn_le_length | lia].
  - set (all := boost_proposed _ _). split.
    + rewrite length_map. apply firstn_le_length.
    + intros _. rewrite <- firstn_map. apply NoDup_firstn, unique_nodup.
Qed.

End Products.

(** A catalog whose product is found twice in "oat and milk": through a
    name variant and through the words of its name. *)
Definition oat_milk : CatalogProduct :=
  {| c_gtin := Some "640"; c_name := "Oat Milk"; c_name_variants := ["milk"] |}.

Lemma products_unique_witness :
  let found := products (extract (R := py_re) None None [oat_milk] "oat and milk" "en"
                                 None [] None) in
  (List.length found <= 5)%nat /\ NoDup (map key found).
Proof.
  pose proof (products_unique (R := py_re) None None [oat_milk] "oat and milk" "en"
                              None [] None) as [Hlen Hnd].
  split; [exact Hlen | apply Hnd; discriminate].
Defined.

(** Without a catalog the capitalised words of the text are the
    products, each as often as the text has it. *)
Lemma products_repeat_without_catalog :
  ~ NoDup (map key (products (extract (R := py_re) None None [] "Milk and Milk" "en"
                                      None [] None))).
Proof.
  intros H. vm_compute in H. inversion H as [|? ? Hin _]; subst.
  apply Hin. left. reflexivity.
Qed.

(** *** Sentiment *)

Section SentimentFacts.

Context {R : Regex}.

(** The text is a question and neither count is above two. *)
Definition weak_question (text language : string) : bool :=
  let '(positive_count, negative_count) := adjusted_counts text language in
  is_question (PyStr.lower text)
  && negb ((2 <? negative_count)%nat || (2 <? positive_count)%nat).

(** The polarity score of [TextBlob] takes part in the result. *)
Definition statistical (textblob : option PolarityAnalyzer) (language : string) : bool :=
  match textblob with
  | Some _ => String.eqb language "en"
  | None => false
  end.

Lemma patterns_report_issue text language :
  weak_question text language = false ->
  let s := _extract_sentiment_patterns text language (Some "report_issue") in
  polarity s = "negative" /\ 0.6 <= s_confidence s /\ s_confidence s <= 0.95.
Proof.
  unfold weak_question, _extract_sentiment_patterns.
  destruct (adjusted_counts text language) as [positive_count negative_count].
  intros H. rewrite H.
  change (PyStr.in_list "report_issue" informational_intents) with false.
  change (Py.is_str (Some "report_issue") "report_issue") with true.
  cbn [andb polarity s_confidence]. split; [reflexivity|]. split.
  - apply max_l.
  - apply max_lub; [lra | apply min_r].
Qed.

Lemma patterns_weak_question text language detected_intent :
  weak_question text language = true ->
  _extract_sentiment_patterns text language detected_intent
  = {| polarity := "neutral"; s_confidence := 0.5; method := "pattern" |}.
Proof.
  unfold weak_question, _extract_sentiment_patterns.
  destruct (adjusted_counts text language) as [positive_count negative_count].
  intros H. rewrite H. reflexivity.
Qed.

Lemma weak_question_is_question text language :
  weak_question text language = true -> is_question (PyStr.lower text) = true.
Proof.
  unfold weak_question. destruct (adjusted_counts text language).
  intros H. apply andb_true_iff in H. tauto.
Qed.

Lemma adjusted_report_issue score text_lower :
  textblob_adjusted score text_lower (Some "report_issue") <= -0.2.
Proof.
  unfold textblob_adjusted.
  change (Py.is_str (Some "report_issue") "report_issue") with true. cbn [andb].
  match goal with |- context [Py.ltb (-0.2) ?s] => destruct (ltb_spec (-0.2) s) end; lra.
Qed.

Lemma sentiment_report_issue textblob text language :
  weak_question text language = false ->
  let s := _extract_sentiment textblob text language (Some "report_issue") in
  polarity s = "negative"
  /\ (statistical textblob language = false -> 0.6 <= s_confidence s)
  /\ 0.432 <= s_confidence s.
Proof.
  intros Hw. pose proof (patterns_report_issue text language Hw) as (Hp & Hlo & Hhi).
  unfold _extract_sentiment.
  set (pattern_result := _extract_sentiment_patterns text language (Some "report_issue")) in *.
  destruct textblob as [analyzer|]; cbn [statistical].
  2:{ split; [exact Hp|]. split; [intros _; exact Hlo | lra]. }
  destruct (String.eqb language "en").
  2:{ split; [exact Hp|]. split; [intros _; exact Hlo | lra]. }
  pose proof (adjusted_report_issue (analyzer text) (PyStr.lower text)) as Hs.
  set (score := textblob_adjusted _ _ _) in *.
  destruct (ltb_spec 0.05 score); [lra|].
  destruct (ltb_spec score (-0.05)); [|lra].
  change (String.eqb "negative" "positive") with false.
  rewrite andb_false_r. rewrite Hp.
  change (String.eqb "negative" "negative") with true.
  cbn [polarity s_confidence]. split; [reflexivity|]. split; [discriminate|].
  apply min_glb; [|lra].
  assert (Ha : 0.2 <= Py.min (Qabs_py score) 1.0).
  { apply min_glb; [|lra]. unfold Qabs_py. destruct (ltb_spec score 0); lra. }
  lra.
Qed.

Lemma sentiment_weak_question textblob text language detected_intent :
  weak_question text language = true ->
  Py.is_str detected_intent "report_issue" && statistical textblob language = false ->
  polarity (_extract_sentiment textblob text language detected_intent) = "neutral".
Proof.
  intros Hw Hc. unfold _extract_sentiment.
  rewrite (patterns_weak_question _ _ _ Hw).
  destruct textblob as [analyzer|]; [|reflexivity].
  cbn [statistical] in Hc. destruct (String.eqb language "en"); [|reflexivity].
  rewrite andb_true_r in Hc.
  unfold textblob_adjusted. rewrite (weak_question_is_question _ _ Hw), Hc.
  change (Py.ltb 0 0.0) with false. rewrite andb_false_r. cbn [andb].
  change (Py.ltb 0.05 0.0) with false. change (Py.ltb 0.0 (-0.05)) with false.
  cbn iota. change (String.eqb "neutral" "positive") with false.
  rewrite andb_false_r. reflexivity.
Qed.

(** With the statistical score a weak question is negative for
    [report_issue]: the score of the question is set to 0.0, then to
    -0.4 for the intent, and the neutral lexicon result, of confidence
    0.5, gives way to it. *)
Lemma sentiment_report_issue_question textblob text language :
  weak_question text language = true ->
  statistical textblob language = true ->
  let s := _extract_sentiment textblob text language (Some "report_issue") in
  polarity s = "negative" /\ 0.4 <= s_confidence s.
Proof.
  intros Hw Hs. unfold _extract_sentiment.
  rewrite (patterns_weak_question _ _ _ Hw).
  destruct textblob as [analyzer|]; [|discriminate Hs].
  cbn [statistical] in Hs. rewrite Hs.
  unfold textblob_adjusted. rewrite (weak_question_is_question _ _ Hw).
  change (Py.ltb 0 0.0) with false. rewrite andb_false_r.
  change (Py.is_str (Some "report_issue") "report_issue") with true.
  change (Py.ltb (-0.2) 0.0) with true. cbn [andb].
  change (Py.ltb 0.05 (-0.4)) with false. change (Py.ltb (-0.4) (-0.05)) with true.
  cbn iota. change (String.eqb "negative" "positive") with false.
  rewrite andb_false_r. cbn [polarity s_confidence].
  change (String.eqb "neutral" "negative") with false.
  change (Py.ltb 0.6 0.5) with false. cbn [polarity s_confidence].
  split; [reflexivity|]. vm_compute. discriminate.
Qed.

(** C3, amended: when the detected intent is [report_issue], the
    sentiment of the extraction is negative, with a confidence of at
    least 0.6 when no statistical polarity score takes part, of at least
    0.432 for a text that is not a question with weak counts, and of at
    least 0.4 in any case.  The statement does not speak of a question
    with weak counts when no statistical score takes part. *)
Theorem report_issue_is_negative (fuzzy : option FuzzyMatcher)
        (textblob : option PolarityAnalyzer) (catalog : list CatalogProduct)
        (text language : string) (context : Py.context) (priority_entities : list string) :
  weak_question text language && negb (statistical textblob language) = false ->
  let s := sentiment (extract fuzzy textblob catalog text language context
                              priority_entities (Some "report_issue")) in
  polarity s = "negative"
  /\ 0.4 <= s_confidence s
  /\ (weak_question text language = false -> 0.432 <= s_confidence s)
  /\ (statistical textblob language = false -> 0.6 <= s_confidence s).
Proof.
  intros Hc s. unfold s, extract. rewrite fold_prioritise_polarity. cbn [sentiment].
  destruct (weak_question text language) eqn:Hw.
  - destruct (statistical textblob language) eqn:Hs; [|discriminate Hc].
    pose proof (sentiment_report_issue_question textblob text language Hw Hs) as (Hp & H4).
    split; [exact Hp|]. split; [|split; discriminate].
    apply fold_prioritise_floor; [lra | lra | exact H4].
  - pose proof (sentiment_report_issue textblob text language Hw) as (Hp & H6 & H4).
    split; [exact Hp|]. split; [|split].
    + apply fold_prioritise_floor; [lra | lra | cbn [sentiment]; lra].
    + intros _. apply fold_prioritise_floor; [lra | lra | exact H4].
    + intros Hs. apply fold_prioritise_floor; [lra | lra | exact (H6 Hs)].
Qed.

End SentimentFacts.

Lemma report_issue_is_negative_witness :
  let s := sentiment (extract (R := py_re) None None []
                              "My delivery is missing 2 items - the milk and bread" "en"
                              None [] (Some "report_issue")) in
  polarity s = "negative"
  /\ 0.4 <= s_confidence s
  /\ (weak_question (R := py_re) "My delivery is missing 2 items - the milk and bread" "en"
      = false -> 0.432 <= s_confidence s)
  /\ (statistical None "en" = false -> 0.6 <= s_confidence s).
Proof.
  apply (report_issue_is_negative (R := py_re)).
  vm_compute. reflexivity.
Defined.

(** A statement with the detected intent [report_issue] and [TextBlob]
    at hand: the lexicon confidence 0.6 and the statistical one 0.4 are
    blended to 0.576. *)
Lemma report_issue_refuted :
  let s := sentiment (extract (R := py_re) None (Some (fun _ => 0)) []
                              "The milk was not in the box" "en"
                              None [] (Some "report_issue")) in
  ~ (polarity s = "negative" /\ 0.6 <= s_confidence s).
Proof.
  intros s [_ H]. vm_compute in H. apply H. reflexivity.
Qed.

(** Without [TextBlob] a question with weak counts is answered by the
    question rule of [_extract_sentiment_patterns], which returns before
    the rule for [report_issue] is reached. *)
Lemma report_issue_question_without_textblob :
  polarity (sentiment (extract (R := py_re) None None [] "Where is my missing item?" "en"
                               None [] (Some "report_issue"))) = "neutral".
Proof. vm_compute. reflexivity. Qed.

(** C7, amended: a question with weak counts has a neutral sentiment
    when the detected intent is not [report_issue], and a negative one
    when it is [report_issue] and the statistical polarity score takes
    part; "Where is my order?" is neutral for every detected intent
    other than [report_issue]. *)
Theorem weak_question_is_neutral :
  (forall (R : Regex) fuzzy textblob catalog text language context priority_entities
          detected_intent,
      weak_question text language = true ->
      (Py.is_str detected_intent "report_issue" = false ->
       polarity (sentiment (extract fuzzy textblob catalog text language context
                                    priority_entities detected_intent)) = "neutral")
      /\ (Py.is_str detected_intent "report_issue" = true ->
          statistical textblob language = true ->
          polarity (sentiment (extract fuzzy textblob catalog text language context
                                       priority_entities detected_intent)) = "negative"))
  /\ (forall fuzzy textblob catalog context priority_entities detected_intent,
         Py.is_str detected_intent "report_issue" = false ->
         polarity (sentiment (extract (R := py_re) fuzzy textblob catalog
                                      "Where is my order?" "en" context
                                      priority_entities detected_intent)) = "neutral").
Proof.
  assert (H : forall (R : Regex) fuzzy textblob catalog text language context
                     priority_entities detected_intent,
             weak_question text language = true ->
             Py.is_str detected_intent "report_issue" = false ->
             polarity (sentiment (extract fuzzy textblob catalog text language context
                                          priority_entities detected_intent)) = "neutral").
  { intros R fuzzy textblob catalog text language context priority_entities detected_intent
           Hw Hc.
    unfold extract. rewrite fold_prioritise_polarity. cbn [sentiment].
    apply sentiment_weak_question; [exact Hw | rewrite Hc; reflexivity]. }
  split.
  - intros R fuzzy textblob catalog text language context priority_entities detected_intent Hw.
    split; [apply H, Hw|]. intros Hi Hs.
    destruct detected_intent as [intent|]; [|discriminate Hi].
    cbn [Py.is_str] in Hi. apply String.eqb_eq in Hi. subst intent.
    unfold extract. rewrite fold_prioritise_polarity. cbn [sentiment].
    apply sentiment_report_issue_question; assumption.
  - intros fuzzy textblob catalog context priority_entities detected_intent Hc.
    apply H; [vm_compute; reflexivity | exact Hc].
Qed.

Lemma weak_question_is_neutral_witness :
  polarity (sentiment (extract (R := py_re) None (Some (fun _ => 0)) [] "Is it here?" "en"
                               None [] (Some "query_order_status"))) = "neutral"
  /\ polarity (sentiment (extract (R := py_re) None (Some (fun _ => 0)) [] "Is it here?" "en"
                                  None [] (Some "report_issue"))) = "negative".
Proof.
  assert (Hw : weak_question (R := py_re) "Is it here?" "en" = true)
    by (vm_compute; reflexivity).
  split.
  - exact (proj1 (proj1 weak_question_is_neutral py_re None (Some (fun _ => 0)) []
                        "Is it here?" "en" None [] (Some "query_order_status") Hw)
                 eq_refl).
  - exact (proj2 (proj1 weak_question_is_neutral py_re None (Some (fun _ => 0)) []
                        "Is it here?" "en" None [] (Some "report_issue") Hw)
                 eq_refl eq_refl).
Defined.

(** "Where is my order?" with the detected intent [report_issue] and
    [TextBlob] at hand: the score of the question is set to 0.0, then to
    -0.4 for the intent, and the sentiment is negative. *)
Lemma weak_question_refuted :
  ~ (weak_question (R := py_re) "Where is my order?" "en" = true ->
     polarity (sentiment (extract (R := py_re) None (Some (fun _ => 0)) []
                                  "Where is my order?" "en" None []
                                  (Some "report_issue"))) = "neutral").
Proof.
  intros H.
  assert (Hw : weak_question (R := py_re) "Where is my order?" "en" = true)
    by (vm_compute; reflexivity).
  specialize (H Hw). vm_compute in H. discriminate H.
Qed.

End EntityExtractorFacts.

(* ================================================================== *)
(** ** Further properties: text normalisation *)
(* ================================================================== *)

Module TextNormalizerMore.

Import TextNormalizer.

Section Facts.

Context {R : Regex}.

(** The result of [normalize] has no blank at either end, and no blank
    other than single spaces between words: [strip] and the collapse of
    blanks leave it as it is. *)
Theorem normalize_tidy (text language : string) :
  PyStr.strip (normalize text language) = normalize text language
  /\ PyStr.collapse_ws (normalize text language) = normalize text language.
Proof.
  destruct text as [|c text]; [split; reflexivity|].
  unfold normalize. rewrite !sub_blanks.
  set (t := _fix_transcription_errors _ _).
  split.
  - apply PyStrFacts.strip_idem.
  - rewrite PyStrFacts.collapse_strip, PyStrFacts.collapse_idem. reflexivity.
Qed.

(** Languages other than English keep their contractions and
    transcription errors: for them [normalize] is the removal of the
    filler words between the two passes over the blanks.  A language
    without a filler list gets the English one. *)
Theorem normalize_other_language (text language : string) :
  language <> "en" ->
  text <> "" ->
  normalize text language
  = PyStr.strip
      (PyStr.collapse_ws
         (_remove_filler_words (PyStr.collapse_ws (PyStr.strip text)) language)).
Proof.
  intros Hl Ht. destruct text as [|c text]; [congruence|].
  unfold normalize. rewrite !sub_blanks.
  unfold _normalize_contractions, _fix_transcription_errors.
  apply String.eqb_neq in Hl. rewrite Hl. cbn [negb].
  assert (Hg : Py.get TRANSCRIPTION_FIXES language = None).
  { unfold TRANSCRIPTION_FIXES. cbn [Py.get]. rewrite Hl. reflexivity. }
  rewrite Hg. reflexivity.
Qed.

End Facts.

Lemma normalize_other_language_witness :
  normalize (R := py_re) "no niin,  I don't know" "fi" = ", I don't know".
Proof.
  rewrite (normalize_other_language (R := py_re)) by discriminate.
  vm_compute. reflexivity.
Defined.

End TextNormalizerMore.

(* ================================================================== *)
(** ** Further properties: language detection *)
(* ================================================================== *)

Module LanguageDetectorMore.

Import LanguageDetector PyFacts.

Local Open Scope Q_scope.

Section Facts.

Context {R : Regex}.

(** The normalised score of a language. *)
Definition score_of (text lang : string) : Q := Py.get_or (normalized_scores text) lang 0.

(** Ties go to the language listed first: Finnish is detected only with
    a score strictly above the English one and not below the Swedish
    one, Swedish only with a score strictly above both; either needs a
    score of at least 0.1. *)
Theorem detect_tie_break (text : string) :
  (detect text = "fi" ->
   score_of text "en" < score_of text "fi"
   /\ score_of text "sv" <= score_of text "fi"
   /\ 0.1 <= score_of text "fi")
  /\ (detect text = "sv" ->
      score_of text "en" < score_of text "sv"
      /\ score_of text "fi" < score_of text "sv"
      /\ 0.1 <= score_of text "sv").
Proof.
  destruct text as [|ch text]; [split; discriminate|].
  unfold detect, score_of.
  pose proof (LanguageDetectorFacts.keys_normalized_scores (String ch text)) as K.
  destruct (normalized_scores (String ch text)) as [|[k1 a] [|[k2 b] [|[k3 c] [|]]]];
    try discriminate K.
  inversion K; subst k1 k2 k3. clear K.
  unfold arg_max, LOW_SIGNAL. cbn [IntentClassifier.best_of fst snd].
  destruct (ltb_spec a b) as [Hab|Hab]; cbn [fst snd].
  - destruct (ltb_spec b c) as [Hbc|Hbc]; cbn [fst snd Py.get_or Py.get String.eqb Ascii.eqb Bool.eqb].
    + destruct (ltb_spec c 0.1) as [Hl|Hl]; split; intros E; try discriminate E;
        repeat split; lra.
    + destruct (ltb_spec b 0.1) as [Hl|Hl]; split; intros E; try discriminate E;
        repeat split; lra.
  - destruct (ltb_spec a c) as [Hac|Hac]; cbn [fst snd Py.get_or Py.get String.eqb Ascii.eqb Bool.eqb].
    + destruct (ltb_spec c 0.1) as [Hl|Hl]; split; intros E; try discriminate E;
        repeat split; lra.
    + destruct (ltb_spec a 0.1) as [Hl|Hl]; split; intros E; discriminate E.
Qed.

End Facts.

Lemma detect_tie_break_witness :
  score_of (R := py_re) "kiitos hei" "en" < score_of (R := py_re) "kiitos hei" "fi"
  /\ score_of (R := py_re) "kiitos hei" "sv" <= score_of (R := py_re) "kiitos hei" "fi"
  /\ 0.1 <= score_of (R := py_re) "kiitos hei" "fi".
Proof.
  apply (proj1 (detect_tie_break (R := py_re) "kiitos hei")).
  vm_compute. reflexivity.
Defined.

End LanguageDetectorMore.

(* ================================================================== *)
(** ** Further properties: intent classification *)
(* ================================================================== *)

Module IntentClassifierMore.

Import IntentClassifier PyFacts IntentClassifierFacts.

Local Open Scope Q_scope.

Section Facts.

Context {R : Regex}.

(** The thirteen intents that have patterns. *)
Definition INTENTS : list string := keys INTENT_PATTERNS.

(** All keys of the dictionary are intents with patterns. *)
Definition intent_keys (d : Py.dict Q) : Prop := incl (keys d) INTENTS.

Lemma intent_keys_set d k v :
  PyStr.in_list k INTENTS = true -> intent_keys d -> intent_keys (Py.set d k v).
Proof.
  intros Hk Hd x Hx. apply keys_set_incl in Hx as [Hx|Hx]; [|apply Hd, Hx].
  subst. apply in_list_In, Hk.
Qed.

Lemma intent_keys_scale d k f : intent_keys d -> intent_keys (Py.scale k f d).
Proof. unfold intent_keys. rewrite keys_scale. tauto. Qed.

Lemma fold_scores_keys language text_lower has_negation (allowed : list string) :
  forall (entries : Py.dict (Py.dict (list string))) (d : Py.dict Q),
    incl (keys entries) allowed ->
    incl (keys d) allowed ->
    incl (keys
            (fold_left
               (fun intent_scores (entry : string * Py.dict (list string)) =>
                  let score :=
                    intent_score language text_lower has_negation (fst entry) (snd entry) in
                  if Py.ltb 0 score then Py.set intent_scores (fst entry) score
                  else intent_scores)
               entries d))
         allowed.
Proof.
  induction entries as [|entry entries IH]; intros d He Hd; [exact Hd|].
  cbn [fold_left]. apply IH; [intros x Hx; apply He; right; exact Hx|].
  cbv zeta.
  match goal with |- context [if ?b then _ else _] => destruct b end; [|exact Hd].
  intros x Hx. apply keys_set_incl in Hx as [Hx|Hx]; [|apply Hd, Hx].
  subst x. apply He. left. reflexivity.
Qed.

Lemma intent_keys_rule_scores language text_lower has_negation :
  intent_keys (rule_scores language text_lower has_negation).
Proof.
  apply (fold_scores_keys language text_lower has_negation INTENTS INTENT_PATTERNS []).
  - apply incl_refl.
  - intros x [].
Qed.

Lemma intent_keys_stage_adjust conversation_stage context text_lower d :
  intent_keys d -> intent_keys (stage_adjust conversation_stage context text_lower d).
Proof.
  intros Hd. unfold stage_adjust.
  repeat match goal with
         | |- context [if ?b then _ else _] => destruct b
         end;
    repeat first [ exact Hd
                 | apply intent_keys_scale
                 | apply intent_keys_set; [vm_compute; reflexivity|] ].
Qed.

Lemma intent_keys_legacy_adjust conversation_stage context d :
  intent_keys d -> intent_keys (legacy_adjust conversation_stage context d).
Proof.
  intros Hd. unfold legacy_adjust.
  repeat match goal with
         | |- context [if ?b then _ else _] => destruct b
         end;
    repeat first [ exact Hd | apply intent_keys_scale ].
Qed.

(** The scores that the rule-based verdict is drawn from. *)
Definition adjusted_scores (text language : string) (context : Py.context) : Py.dict Q :=
  let text_lower := PyStr.lower text in
  let conversation_stage := conversation_stage_of context in
  legacy_adjust conversation_stage context
    (stage_adjust conversation_stage context text_lower
       (rule_scores language text_lower (_has_negation text_lower language))).

Lemma intent_keys_adjusted text language context :
  intent_keys (adjusted_scores text language context).
Proof.
  apply intent_keys_legacy_adjust, intent_keys_stage_adjust, intent_keys_rule_scores.
Qed.

Lemma classify_unfold cfg sem c text language context :
  classify cfg sem (String c text) language context
  = hybrid cfg sem (String c text) language
      (rule_based (String c text) (adjusted_scores (String c text) language context)).
Proof. reflexivity. Qed.

(** The verdict on a dictionary with scores: one of its intents, with a
    confidence between 0.5 and 0.95. *)
Lemma rule_based_scored text first others :
  In (fst (fst (rule_based text (first :: others)))) (keys (first :: others))
  /\ 0.5 <= snd (fst (rule_based text (first :: others)))
  /\ snd (fst (rule_based text (first :: others))) <= 0.95.
Proof.
  unfold rule_based. cbv zeta. cbn [fst snd]. split; [|split].
  - match goal with
    | |- In (fst (best_of _ (map ?n others))) _ =>
        set (normalise := n); change (In (fst (best_of (normalise first) (map normalise others)))
                                         (keys (first :: others)))
    end.
    assert (Hk : keys (map normalise (first :: others)) = keys (first :: others))
      by (unfold keys, normalise; rewrite map_map; reflexivity).
    rewrite <- Hk. apply in_map. cbn [map]. apply best_of_in.
  - apply max_r.
  - apply max_lub; [apply min_r | lra].
Qed.

Lemma not_unknown intent : In intent INTENTS -> String.eqb intent "unknown" = false.
Proof.
  intros H. apply String.eqb_neq. intros E. subst.
  assert (Hb : PyStr.in_list "unknown" INTENTS = false) by (vm_compute; reflexivity).
  apply not_true_iff_false in Hb. apply Hb.
  unfold PyStr.in_list. apply existsb_exists. exists "unknown".
  split; [exact H | apply String.eqb_refl].
Qed.

(** Without a semantic classifier, a text that is not empty gets either
    [('unknown', 0.3)] or one of the thirteen intents with a confidence
    between 0.5 and 0.95: no confidence lies between 0.3 and 0.5. *)
Theorem rule_based_band (cfg : Config) (text language : string) (context : Py.context) :
  text <> "" ->
  let r := classify cfg None text language context in
  r = ("unknown", 0.3)
  \/ (In (fst r) INTENTS /\ 0.5 <= snd r /\ snd r <= 0.95).
Proof.
  intros Ht r. unfold r. destruct text as [|c text]; [congruence|].
  rewrite classify_unfold.
  pose proof (intent_keys_adjusted (String c text) language context) as Hk.
  destruct (adjusted_scores (String c text) language context) as [|first others].
  - left. reflexivity.
  - right. pose proof (rule_based_scored (String c text) first others) as (Hi & Hlo & Hhi).
    destruct (rule_based (String c text) (first :: others)) as [[intent confidence] scores].
    cbn [hybrid fst snd] in *. split; [apply Hk, Hi | split; assumption].
Qed.

(** With a semantic threshold of at most 0.5 (the default), the semantic
    classifier is never asked about a text that the rules give an intent:
    the answer is the rule-based one, whatever the classifier is. *)
Theorem semantic_only_for_unknown (cfg : Config) (sem : option SemanticClassifier)
        (text language : string) (context : Py.context) :
  semantic_threshold cfg <= 0.5 ->
  fst (classify cfg None text language context) <> "unknown" ->
  classify cfg sem text language context = classify cfg None text language context.
Proof.
  intros Hthr Hrule. destruct text as [|c text]; [reflexivity|].
  rewrite !classify_unfold in *.
  pose proof (intent_keys_adjusted (String c text) language context) as Hk.
  destruct (adjusted_scores (String c text) language context) as [|first others].
  - exfalso. apply Hrule. reflexivity.
  - pose proof (rule_based_scored (String c text) first others) as (Hi & Hlo & Hhi).
    destruct (rule_based (String c text) (first :: others)) as [[intent confidence] scores].
    cbn [hybrid fst snd] in *. destruct sem as [f|]; [|reflexivity].
    destruct (use_semantic_fallback cfg); [|reflexivity].
    rewrite (not_unknown intent) by (apply Hk, Hi).
    destruct (ltb_spec confidence (semantic_threshold cfg)); [lra | reflexivity].
Qed.

(** When no pattern matches and the stage seeds nothing, the answer is
    the first semantic result with its weighted score, capped at 0.95; a
    classifier without a result leaves [('unknown', 0.3)]. *)
Theorem semantic_fallback (cfg : Config) (f : SemanticClassifier)
        (text language : string) (context : Py.context) :
  text <> "" ->
  use_semantic_fallback cfg = true ->
  no_pattern_matches language (PyStr.lower text) = true ->
  stage_seeds (conversation_stage_of context) (PyStr.lower text) = false ->
  classify cfg (Some f) text language context
  = match f text language 3%nat with
    | [] => ("unknown", 0.3)
    | (semantic_intent, semantic_score) :: _ =>
        (semantic_intent, Py.min (semantic_score * semantic_weight cfg) 0.95)
    end.
Proof.
  intros Ht Hu Hn Hs. destruct text as [|c text]; [congruence|].
  unfold classify.
  rewrite rule_scores_nomatch by exact Hn.
  rewrite stage_adjust_nil by exact Hs.
  rewrite legacy_adjust_nil. cbn [rule_based hybrid]. rewrite Hu.
  rewrite orb_true_r.
  destruct (f (String c text) language 3%nat) as [|[i s] rest]; reflexivity.
Qed.

End Facts.

Lemma rule_based_band_witness :
  let r := classify (R := py_re) DEFAULT_CONFIG None "Where is my order?" "en" None in
  r = ("unknown", 0.3)
  \/ (In (fst r) INTENTS /\ 0.5 <= snd r /\ snd r <= 0.95).
Proof.
  apply (rule_based_band (R := py_re)). discriminate.
Defined.

Lemma semantic_only_for_unknown_witness :
  classify (R := py_re) DEFAULT_CONFIG (Some always_greeting) "Where is my order?" "en" None
  = classify (R := py_re) DEFAULT_CONFIG None "Where is my order?" "en" None.
Proof.
  apply (semantic_only_for_unknown (R := py_re)).
  - unfold Qle. simpl. lia.
  - vm_compute. discriminate.
Defined.

Lemma semantic_fallback_witness :
  classify (R := py_re) DEFAULT_CONFIG (Some always_greeting) "zzz" "en" None
  = ("greeting", Py.min (1 * 0.8) 0.95).
Proof.
  apply (semantic_fallback (R := py_re) DEFAULT_CONFIG always_greeting "zzz" "en" None).
  - discriminate.
  - reflexivity.
  - vm_compute. reflexivity.
  - reflexivity.
Defined.

End IntentClassifierMore.

(* ================================================================== *)
(** ** Further properties: sentiment and products *)
(* ================================================================== *)

Module EntityExtractorMore.

Import EntityExtractor PyFacts EntityExtractorFacts.

Local Open Scope Q_scope.

Definition POLARITIES : list string := ["positive"; "negative"; "neutral"].

Section Sentiment.

Context {R : Regex}.

Lemma count_confidence n :
  0.4 <= Py.min (0.4 + Py.of_nat n * 0.15) 0.95
  /\ Py.min (0.4 + Py.of_nat n * 0.15) 0.95 <= 0.95.
Proof.
  pose proof (of_nat_nonneg n). split; [apply min_glb; nra | apply min_r].
Qed.

(** The lexicon result: one of the three polarities, with a confidence
    between 0.4 and 0.95. *)
Lemma patterns_well_formed text language detected_intent :
  let s := _extract_sentiment_patterns text language detected_intent in
  PyStr.in_list (polarity s) POLARITIES = true
  /\ 0.4 <= s_confidence s /\ s_confidence s <= 0.95.
Proof.
  unfold _extract_sentiment_patterns.
  destruct (adjusted_counts text language) as [positive_count negative_count].
  pose proof (count_confidence positive_count) as [Hp1 Hp2].
  pose proof (count_confidence negative_count) as [Hn1 Hn2].
  repeat match goal with
         | |- context [if ?b then _ else _] => destruct b
         end;
    cbn [polarity s_confidence]; (split; [reflexivity|]); split;
    try lra; try assumption.
  - eapply Qle_trans; [|apply max_l]. lra.
  - apply max_lub; [lra | assumption].
Qed.

Lemma Qabs_py_nonneg x : 0 <= Qabs_py x.
Proof. unfold Qabs_py. destruct (ltb_spec x 0); lra. Qed.

(** The sentiment of [_extract_sentiment]: one of the three polarities,
    with a confidence between 0.05 and 1, whatever score the polarity
    analyzer gives. *)
Lemma sentiment_bounds textblob text language detected_intent :
  let s := _extract_sentiment textblob text language detected_intent in
  PyStr.in_list (polarity s) POLARITIES = true
  /\ 0.05 <= s_confidence s /\ s_confidence s <= 1.
Proof.
  pose proof (patterns_well_formed text language detected_intent) as (Hp & Hlo & Hhi).
  unfold _extract_sentiment.
  set (pattern_result := _extract_sentiment_patterns text language detected_intent) in *.
  cbv zeta in Hp, Hlo, Hhi.
  assert (Hpat : PyStr.in_list (polarity pattern_result) POLARITIES = true
                 /\ 0.05 <= s_confidence pattern_result /\ s_confidence pattern_result <= 1)
    by (split; [exact Hp | split; lra]).
  destruct textblob as [analyzer|]; [|exact Hpat].
  destruct (String.eqb language "en"); [|exact Hpat].
  set (score := textblob_adjusted _ _ _).
  assert (Htb : exists tp tc,
             (if Py.ltb 0.05 score then ("positive", Py.min (Qabs_py score) 1.0)
              else if Py.ltb score (-0.05) then ("negative", Py.min (Qabs_py score) 1.0)
                   else ("neutral", 0.3)) = (tp, tc)
             /\ PyStr.in_list tp POLARITIES = true /\ 0.05 <= tc /\ tc <= 1).
  { destruct (ltb_spec 0.05 score) as [H1|H1].
    - eexists _, _. split; [reflexivity|]. split; [reflexivity|]. split.
      + apply min_glb; [|lra]. unfold Qabs_py. destruct (ltb_spec score 0); lra.
      + eapply Qle_trans; [apply min_r | lra].
    - destruct (ltb_spec score (-0.05)) as [H2|H2].
      + eexists _, _. split; [reflexivity|]. split; [reflexivity|]. split.
        * apply min_glb; [|lra]. unfold Qabs_py. destruct (ltb_spec score 0); lra.
        * eapply Qle_trans; [apply min_r | lra].
      + eexists _, _. split; [reflexivity|]. split; [reflexivity|]. split; lra. }
  destruct Htb as (tp & tc & -> & Htp & Htc0 & Htc1).
  assert (Hflip : exists tp' tc',
             (if _has_negation text language && String.eqb tp "positive"
              then ("negative", Py.min (tc + 0.2) 1.0) else (tp, tc)) = (tp', tc')
             /\ PyStr.in_list tp' POLARITIES = true /\ 0.05 <= tc' /\ tc' <= 1).
  { destruct (_has_negation text language && String.eqb tp "positive").
    - eexists _, _. split; [reflexivity|]. split; [reflexivity|]. split.
      + apply min_glb; lra.
      + eapply Qle_trans; [apply min_r | lra].
    - eexists _, _. split; [reflexivity|]. split; [exact Htp|]. split; assumption. }
  destruct Hflip as (tp' & tc' & -> & Htp' & Htc0' & Htc1').
  destruct (String.eqb (polarity pattern_result) tp').
  - cbn [polarity s_confidence]. split; [exact Htp'|]. split.
    + apply min_glb; lra.
    + eapply Qle_trans; [apply min_r | lra].
  - destruct (Py.ltb 0.6 (s_confidence pattern_result)); cbn [polarity s_confidence].
    + exact Hpat.
    + split; [exact Htp' | split; assumption].
Qed.

Lemma prioritise_ceiling entities entity_type :
  s_confidence (sentiment entities) <= 1 ->
  s_confidence (sentiment (prioritise entities entity_type)) <= 1.
Proof.
  intros Hc. unfold prioritise.
  destruct (String.eqb entity_type "products"); [exact Hc|].
  destruct (String.eqb entity_type "sentiment"); [|exact Hc].
  cbn [sentiment s_confidence]. unfold boost. eapply Qle_trans; [apply min_l | lra].
Qed.

Lemma fold_prioritise_ceiling : forall priority_entities entities,
  s_confidence (sentiment entities) <= 1 ->
  s_confidence (sentiment (fold_left prioritise priority_entities entities)) <= 1.
Proof.
  induction priority_entities as [|t ts IH]; intros entities Hc; [exact Hc|].
  cbn [fold_left]. apply IH, prioritise_ceiling, Hc.
Qed.

(** The sentiment of an extraction is always one of positive, negative
    and neutral, and its confidence lies between 0.05 and 1: also for a
    polarity score outside [-1, 1], and after any number of priority
    boosts. *)
Theorem sentiment_well_formed (fuzzy : option FuzzyMatcher)
        (textblob : option PolarityAnalyzer) (catalog : list CatalogProduct)
        (text language : string) (context : Py.context) (priority_entities : list string)
        (detected_intent : option string) :
  let s := sentiment (extract fuzzy textblob catalog text language context
                              priority_entities detected_intent) in
  In (polarity s) POLARITIES /\ 0.05 <= s_confidence s /\ s_confidence s <= 1.
Proof.
  intros s. unfold s, extract.
  pose proof (sentiment_bounds textblob text language detected_intent) as (Hp & Hlo & Hhi).
  split; [|split].
  - rewrite fold_prioritise_polarity. apply IntentClassifierFacts.in_list_In, Hp.
  - apply fold_prioritise_floor; [lra | lra | exact Hlo].
  - apply fold_prioritise_ceiling, Hhi.
Qed.

End Sentiment.

Section Products.

Context {R : Regex}.

(** The (gtin, name) pair of a catalog product. *)
Definition catalog_key (c : CatalogProduct) : option string * string := (c_gtin c, c_name c).

(** The products found before the boost of the proposed substitute. *)
Definition candidates (fuzzy : option FuzzyMatcher) (catalog : list CatalogProduct)
           (text_lower : string) : list Product :=
  let found := flat_map (match_product text_lower) catalog in
  match fuzzy with
  | Some matcher =>
      if (List.length found <? 3)%nat
      then add_fuzzy (matcher text_lower catalog) found
      else found
  | None => found
  end.

Lemma extract_products_unfold fuzzy c catalog text language context :
  _extract_products fuzzy (c :: catalog) text language context
  = firstn max_fuzzy_results
      (unique []
         (boost_proposed
            (if Py.truthy context then Py.cget context "proposed_substitute" else None)
            (candidates fuzzy (c :: catalog) (PyStr.lower text)))).
Proof. reflexivity. Qed.

Lemma firstn_incl {A : Type} (x : A) : forall n l, In x (firstn n l) -> In x l.
Proof.
  induction n as [|n IH]; intros l; [intros []|].
  destruct l as [|y l]; [intros []|]. cbn [firstn].
  intros [H|H]; [left; exact H | right; apply IH, H].
Qed.

Lemma match_product_keys text_lower c p :
  In p (match_product text_lower c) -> key p = catalog_key c.
Proof.
  unfold match_product.
  repeat match goal with
         | |- context [if ?b then _ else _] => destruct b
         end; cbn [app In]; intuition (subst; reflexivity).
Qed.

Lemma unique_incl : forall found seen p, In p (unique seen found) -> In p found.
Proof.
  induction found as [|q qs IH]; intros seen p; [intros []|]. cbn [unique].
  destruct (existsb (key_eqb (key q)) seen).
  - intros H. right. eapply IH, H.
  - intros [H|H]; [left; exact H | right; eapply IH, H].
Qed.

Lemma remove_first_incl x : forall xs p, In p (remove_first x xs) -> In p xs.
Proof.
  induction xs as [|y ys IH]; intros p; [intros []|]. cbn [remove_first].
  destruct (product_eqb y x); [intros H; right; exact H|].
  intros [H|H]; [left; exact H | right; apply IH, H].
Qed.

(** [boost_in_place] changes the confidence of one product and nothing
    else. *)
Lemma boost_in_place_keys proposed_lower : forall found boosted found',
  boost_in_place proposed_lower found = Some (boosted, found') ->
  map key found' = map key found
  /\ In boosted found'
  /\ matches_proposed proposed_lower boosted = true.
Proof.
  induction found as [|p ps IH]; intros boosted found'; [discriminate|].
  cbn [boost_in_place]. destruct (matches_proposed proposed_lower p) eqn:E.
  - intros H. inversion H; subst. split; [reflexivity|]. split; [left; reflexivity|].
    exact E.
  - destruct (boost_in_place proposed_lower ps) as [[b ps']|]; [|discriminate].
    intros H. inversion H; subst.
    destruct (IH boosted ps' eq_refl) as (Hk & Hin & Hm).
    split; [cbn [map]; rewrite Hk; reflexivity|]. split; [right; exact Hin | exact Hm].
Qed.

Lemma boost_in_place_some proposed_lower : forall found,
  existsb (matches_proposed proposed_lower) found = true ->
  exists boosted found', boost_in_place proposed_lower found = Some (boosted, found').
Proof.
  induction found as [|p ps IH]; [discriminate|]. cbn [existsb boost_in_place].
  destruct (matches_proposed proposed_lower p); [intros _; eexists _, _; reflexivity|].
  cbn [orb]. intros H. destruct (IH H) as (b & ps' & E). rewrite E.
  eexists _, _. reflexivity.
Qed.

Lemma boost_proposed_keys proposed_substitute found k :
  In k (map key (boost_proposed proposed_substitute found)) -> In k (map key found).
Proof.
  unfold boost_proposed. destruct proposed_substitute as [[|c proposed]|]; try tauto.
  destruct (boost_in_place _ found) as [[boosted found']|] eqn:E; [|tauto].
  apply boost_in_place_keys in E as (Hk & Hin & _). rewrite <- Hk.
  cbn [map]. intros [H|H].
  - subst k. apply in_map, Hin.
  - apply in_map_iff in H as (p & Hp & Hr). subst k.
    apply in_map. eapply remove_first_incl, Hr.
Qed.

(** No product is made up: every product of an extraction with a
    catalog carries the (gtin, name) pair of a catalog product or of a
    result of the fuzzy matcher. *)
Theorem products_from_catalog (fuzzy : option FuzzyMatcher)
        (textblob : option PolarityAnalyzer) (catalog : list CatalogProduct)
        (text language : string) (context : Py.context) (priority_entities : list string)
        (detected_intent : option string) (k : option string * string) :
  catalog <> [] ->
  In k (map key (products (extract fuzzy textblob catalog text language context
                                   priority_entities detected_intent))) ->
  In k (map catalog_key catalog)
  \/ (exists matcher, fuzzy = Some matcher
                      /\ In k (map key (matcher (PyStr.lower text) catalog))).
Proof.
  intros Hc. unfold extract. rewrite fold_prioritise_keys. cbn [products].
  destruct catalog as [|c catalog]; [congruence|]. rewrite extract_products_unfold.
  intros Hk. apply in_map_iff in Hk as (p & Hp & Hin). subst k.
  apply firstn_incl, unique_incl in Hin.
  apply (in_map key), boost_proposed_keys in Hin.
  apply in_map_iff in Hin as (q & Hq & Hin). rewrite <- Hq. clear p Hq.
  assert (Hfound : forall q, In q (flat_map (match_product (PyStr.lower text)) (c :: catalog)) ->
                             In (key q) (map catalog_key (c :: catalog))).
  { intros q0 H0. apply in_flat_map in H0 as (c0 & Hc0 & Hq0).
    rewrite (match_product_keys _ _ _ Hq0). apply in_map, Hc0. }
  unfold candidates in Hin. destruct fuzzy as [matcher|]; [|left; apply Hfound, Hin].
  destruct (List.length _ <? 3)%nat; [|left; apply Hfound, Hin].
  unfold add_fuzzy in Hin. apply in_app_iff in Hin as [Hin|Hin]; [left; apply Hfound, Hin|].
  right. exists matcher. split; [reflexivity|].
  apply filter_In in Hin as [Hin _]. apply in_map, Hin.
Qed.

(** A proposed substitute that is among the products found comes
    first in the result. *)
Theorem proposed_substitute_first (fuzzy : option FuzzyMatcher)
        (catalog : list CatalogProduct) (text language proposed : string)
        (context : Py.dict string) :
  catalog <> [] ->
  context <> [] ->
  proposed <> "" ->
  Py.get context "proposed_substitute" = Some proposed ->
  existsb (matches_proposed (PyStr.lower proposed))
          (candidates fuzzy catalog (PyStr.lower text)) = true ->
  exists first others,
    _extract_products fuzzy catalog text language (Some context) = first :: others
    /\ matches_proposed (PyStr.lower proposed) first = true.
Proof.
  intros Hc Hctx Hp Hget Hex.
  destruct catalog as [|c catalog]; [congruence|]. rewrite extract_products_unfold.
  destruct context as [|kv context]; [congruence|]. cbn [Py.truthy Py.cget]. rewrite Hget.
  destruct proposed as [|ch proposed]; [congruence|]. cbn [boost_proposed].
  destruct (boost_in_place_some _ _ Hex) as (boosted & found' & E). rewrite E.
  apply boost_in_place_keys in E as (_ & _ & Hm).
  cbn [unique existsb]. unfold max_fuzzy_results. cbn [firstn].
  eexists _, _. split; [reflexivity | exact Hm].
Qed.

End Products.

Lemma products_from_catalog_witness :
  In (Some "640", "Oat Milk") (map catalog_key [oat_milk])
  \/ (exists matcher : FuzzyMatcher,
         None = Some matcher
         /\ In (Some "640", "Oat Milk") (map key (matcher (PyStr.lower "oat and milk") [oat_milk]))).
Proof.
  apply (products_from_catalog (R := py_re) None None [oat_milk] "oat and milk" "en" None []
                               None (Some "640", "Oat Milk")).
  - discriminate.
  - vm_compute. left. reflexivity.
Defined.

(** Two products are found in "rye bread or oat milk"; the proposed
    substitute, the second one, comes first. *)
Definition rye_bread : CatalogProduct :=
  {| c_gtin := Some "641"; c_name := "Rye Bread"; c_name_variants := [] |}.

Lemma proposed_substitute_first_witness :
  exists first others,
    _extract_products (R := py_re) None [rye_bread; oat_milk] "rye bread or oat milk" "en"
                      (Some [("proposed_substitute", "Oat Milk")]) = first :: others
    /\ matches_proposed (PyStr.lower "Oat Milk") first = true.
Proof.
  apply (proposed_substitute_first (R := py_re)).
  - discriminate.
  - discriminate.
  - discriminate.
  - reflexivity.
  - vm_compute. reflexivity.
Defined.

End EntityExtractorMore.

(* ================================================================== *)
(** ** Further properties: urgency and reasons *)
(* ================================================================== *)

Module UrgencyReasonFacts.

Import EntityExtractor PyFacts.

Local Open Scope Q_scope.

Section Facts.

Context {R : Regex}.

(** The number of matches of the urgency patterns of the language. *)
Definition urgency_matches (text language : string) : nat :=
  list_sum (map (fun pattern => List.length (re_findall true pattern (PyStr.lower text)))
                (for_language urgency_patterns language)).

Lemma fold_urgency text_lower : forall patterns score,
  fold_left
    (fun urgency_score pattern =>
       urgency_score + Py.of_nat (List.length (re_findall true pattern text_lower)) * 0.4)
    patterns score
  == score
     + Py.of_nat (list_sum (map (fun pattern =>
                                   List.length (re_findall true pattern text_lower))
                                patterns)) * 0.4.
Proof.
  induction patterns as [|p ps IH]; intros score.
  - cbn [fold_left map list_sum fold_right]. change (Py.of_nat 0) with 0. lra.
  - cbn [fold_left map]. rewrite IH.
    change (list_sum (?x :: ?l)) with (x + list_sum l)%nat.
    rewrite of_nat_add. lra.
Qed.

(** The urgency is high as soon as one urgency pattern matches and low
    otherwise; the level ['medium'] is never given.  The confidence is
    0.3 for low and 0.4 per match, capped at 1, for high. *)
Theorem urgency_two_levels (text language : string) :
  let u := _extract_urgency text language in
  let n := urgency_matches text language in
  level u = (if (n =? 0)%nat then "low" else "high")
  /\ u_confidence u == (if (n =? 0)%nat then 0.3 else Py.min (Py.of_nat n * 0.4) 1.0)
  /\ 0.3 <= u_confidence u /\ u_confidence u <= 1.
Proof.
  intros u n. unfold u, _extract_urgency. cbv zeta.
  pose proof (fold_urgency (PyStr.lower text) (for_language urgency_patterns language) 0.0)
    as Hs.
  fold (urgency_matches text language) in Hs. fold n in Hs.
  set (score := fold_left _ _ _) in *.
  destruct n as [|n].
  - change (Py.of_nat 0) with 0 in Hs. cbn [Nat.eqb].
    destruct (ltb_spec 0.3 score); [lra|]. destruct (ltb_spec 0.1 score); [lra|].
    cbn [level u_confidence]. repeat split; lra.
  - pose proof (of_nat_S n) as HS. pose proof (of_nat_nonneg n) as Hn. cbn [Nat.eqb].
    destruct (ltb_spec 0.3 score); [|lra]. cbn [level u_confidence].
    split; [reflexivity|]. split; [|split].
    + unfold Py.min. destruct (ltb_spec 1.0 score); destruct (ltb_spec 1.0 (Py.of_nat (S n) * 0.4));
        lra.
    + apply min_glb; lra.
    + eapply Qle_trans; [apply min_r | lra].
Qed.

(** The six reason types. *)
Definition REASON_TYPES : list string :=
  ["damaged"; "missing"; "wrong"; "expired"; "defective"; "incorrect_quantity"].

Fixpoint nodupb (xs : list string) : bool :=
  match xs with
  | [] => true
  | x :: xs' => negb (PyStr.in_list x xs') && nodupb xs'
  end.

Lemma in_list_spec x xs : PyStr.in_list x xs = true <-> In x xs.
Proof.
  unfold PyStr.in_list. rewrite existsb_exists. split.
  - intros (y & Hy & E). apply String.eqb_eq in E. subst. exact Hy.
  - intros H. exists x. split; [exact H | apply String.eqb_refl].
Qed.

Lemma nodupb_NoDup xs : nodupb xs = true -> NoDup xs.
Proof.
  induction xs as [|x xs IH]; [constructor|]. cbn [nodupb]. intros H.
  apply andb_true_iff in H as [Hx Hxs]. constructor; [|apply IH, Hxs].
  intros Hin. apply in_list_spec in Hin. rewrite Hin in Hx. discriminate.
Qed.

(** A keyword table whose reason types are distinct and known. *)
Definition good_table (table : Py.dict (list string)) : bool :=
  nodupb (keys table) && forallb (fun k => PyStr.in_list k REASON_TYPES) (keys table).

Definition good_phrases (phrases : list (string * string)) : bool :=
  forallb (fun entry => PyStr.in_list (snd entry) REASON_TYPES) phrases.

Lemma reason_tables_good language :
  good_table (Py.get_or reason_patterns language (Py.get_or reason_patterns "en" [])) = true
  /\ good_phrases (Py.get_or reason_phrases language (Py.get_or reason_phrases "en" []))
     = true.
Proof.
  unfold Py.get_or, reason_patterns, reason_phrases. cbn [Py.get].
  destruct (String.eqb language "en"); [split; vm_compute; reflexivity|].
  destruct (String.eqb language "fi"); [split; vm_compute; reflexivity|].
  destruct (String.eqb language "sv"); split; vm_compute; reflexivity.
Qed.

Lemma by_keyword_types text_lower : forall table,
  map r_type (flat_map (reason_by_keyword text_lower) table)
  = map fst (filter (fun entry =>
                       match reason_by_keyword text_lower entry with
                       | [] => false
                       | _ => true
                       end) table).
Proof.
  induction table as [|entry table IH]; [reflexivity|].
  cbn [flat_map filter]. rewrite map_app, IH.
  unfold reason_by_keyword at 1 3. destruct (find _ (snd entry)); reflexivity.
Qed.

Lemma NoDup_map_filter {A B : Type} (g : A -> B) (f : A -> bool) : forall l,
  NoDup (map g l) -> NoDup (map g (filter f l)).
Proof.
  induction l as [|x l IH]; [intros; constructor|]. cbn [map filter]. intros H.
  inversion H as [|? ? Hx Hl]; subst. destruct (f x); [|apply IH, Hl].
  cbn [map]. constructor; [|apply IH, Hl].
  intros Hin. apply Hx. apply in_map_iff in Hin as (y & Hy & Hin).
  apply filter_In in Hin as [Hin _]. rewrite <- Hy. apply in_map, Hin.
Qed.

Lemma by_phrase_invariant text_lower : forall phrases reasons,
  good_phrases phrases = true ->
  NoDup (map r_type reasons) ->
  incl (map r_type reasons) REASON_TYPES ->
  NoDup (map r_type (fold_left (reason_by_phrase text_lower) phrases reasons))
  /\ incl (map r_type (fold_left (reason_by_phrase text_lower) phrases reasons))
          REASON_TYPES.
Proof.
  induction phrases as [|entry phrases IH]; intros reasons Hg Hnd Hin; [split; assumption|].
  cbn [fold_left]. cbn [good_phrases forallb] in Hg. apply andb_true_iff in Hg as [He Hg].
  apply IH; [exact Hg | |]; unfold reason_by_phrase;
    destruct (PyStr.contains (fst entry) text_lower); cbn [andb]; try assumption;
    destruct (existsb _ reasons) eqn:Eex; cbn [negb]; try assumption.
  - rewrite map_app. cbn [map r_type].
    apply NoDup_app; [exact Hnd | repeat constructor; intros [] |].
    intros x Hx [Hy|[]]. subst x.
    apply in_map_iff in Hx as (r & Hr & Hrin).
    assert (Ht : existsb (fun r0 => String.eqb (r_type r0) (snd entry)) reasons = true).
    { apply existsb_exists. exists r. split; [exact Hrin|]. rewrite Hr. apply String.eqb_refl. }
    congruence.
  - rewrite map_app. cbn [map r_type]. apply incl_app; [exact Hin|].
    intros x [Hx|[]]. subst x. apply in_list_spec, He.
Qed.

(** At most five reasons are given, no two of the same type, and every
    type is one of the six reason types: a keyword hit and a phrase hit
    of the same type give one reason. *)
Theorem reasons_one_per_type (text language : string) :
  let reasons := _extract_reasons text language in
  NoDup (map r_type reasons)
  /\ incl (map r_type reasons) REASON_TYPES
  /\ (List.length reasons <= 5)%nat.
Proof.
  intros reasons. unfold reasons, _extract_reasons. cbv zeta.
  destruct (reason_tables_good language) as [Ht Hp].
  apply andb_true_iff in Ht as [Hnd Hin].
  set (table := Py.get_or reason_patterns language _) in *.
  set (phrases := Py.get_or reason_phrases language _) in *.
  destruct (by_phrase_invariant (PyStr.lower text) phrases
              (flat_map (reason_by_keyword (PyStr.lower text)) table) Hp) as [H1 H2].
  - rewrite by_keyword_types. apply NoDup_map_filter, nodupb_NoDup, Hnd.
  - rewrite by_keyword_types. intros x Hx.
    apply in_map_iff in Hx as (e & He & Hein). apply filter_In in Hein as [Hein _].
    rewrite forallb_forall in Hin. apply in_list_spec, Hin. subst x. apply in_map, Hein.
  - split; [|split].
    + rewrite <- firstn_map. apply EntityExtractorFacts.NoDup_firstn, H1.
    + intros x Hx. apply H2. rewrite <- firstn_map in Hx.
      eapply EntityExtractorMore.firstn_incl, Hx.
    + apply firstn_le_length.
Qed.

End Facts.

End UrgencyReasonFacts.

(* ================================================================== *)
(** ** Further properties: the semantic classifier *)
(* ================================================================== *)

Module SemanticFacts.

Import SemanticIntentClassifier PyFacts.

Local Open Scope Q_scope.

Section Facts.

Variable Matrix : Type.
Variable transform : list string -> option Matrix.
Variable cosine_similarity : string -> Matrix -> option (list Q).

Lemma clamp_bounds x : 0 <= clamp x /\ clamp x <= 1.
Proof.
  unfold clamp. split.
  - eapply Qle_trans; [|apply max_l]. lra.
  - apply max_lub; [lra|]. eapply Qle_trans; [apply min_l | lra].
Qed.

(** Every entry has a known intent and a score between 0 and 1. *)
Definition entries_ok (allowed : list string) (d : list (string * Q)) : Prop :=
  forall intent score, In (intent, score) d ->
                       In intent allowed /\ 0 <= score /\ score <= 1.

Lemma set_in {V : Type} (d : Py.dict V) k v k' v' :
  In (k', v') (Py.set d k v) -> (k', v') = (k, v) \/ In (k', v') d.
Proof.
  induction d as [|[k0 v0] d IH]; cbn [Py.set].
  - intros [H|[]]. left. congruence.
  - destruct (String.eqb k k0) eqn:E.
    + apply String.eqb_eq in E. subst. intros [H|H]; [left; congruence | right; right; exact H].
    + intros [H|H]; [right; left; exact H|]. destruct (IH H); [left | right; right]; assumption.
Qed.

Lemma score_intents_ok text allowed : forall vectors intent_scores result,
  incl (keys vectors) allowed ->
  entries_ok allowed intent_scores ->
  score_intents Matrix cosine_similarity text vectors intent_scores = Some result ->
  entries_ok allowed result.
Proof.
  induction vectors as [|[intent v] vectors IH]; intros intent_scores result Hk Hok;
    cbn [score_intents].
  - intros H. inversion H; subst. exact Hok.
  - assert (Hk' : incl (keys vectors) allowed) by (intros x Hx; apply Hk; right; exact Hx).
    destruct v as [matrix|]; [|apply IH; assumption].
    destruct (String.eqb intent "unknown"); [apply IH; assumption|].
    destruct (cosine_similarity text matrix) as [[|s similarities]|]; [| |discriminate].
    + apply IH; assumption.
    + apply IH; [exact Hk'|].
      intros i sc Hin. apply set_in in Hin as [Hin|Hin]; [|apply Hok, Hin].
      inversion Hin; subst. split; [apply Hk; left; reflexivity | apply clamp_bounds].
Qed.

Lemma insert_desc_in x : forall items y, In y (insert_desc x items) <-> y = x \/ In y items.
Proof.
  induction items as [|z items IH]; intros y; cbn [insert_desc].
  - simpl. intuition.
  - destruct (Py.ltb (snd z) (snd x)); simpl; [intuition|].
    rewrite IH. intuition.
Qed.

Lemma sorted_desc_in : forall items y, In y (sorted_desc items) <-> In y items.
Proof.
  intros items y. unfold sorted_desc.
  assert (H : forall acc, In y (fold_left (fun acc x => insert_desc x acc) items acc)
                          <-> In y items \/ In y acc).
  { induction items as [|x items IH]; intros acc; cbn [fold_left].
    - simpl. intuition.
    - rewrite IH, insert_desc_in. simpl. intuition. }
  rewrite H. simpl. intuition.
Qed.

(** Scores fall along the list. *)
Definition falling (items : list (string * Q)) : Prop :=
  StronglySorted (fun a b => snd b <= snd a) items.

Lemma insert_desc_falling x : forall items, falling items -> falling (insert_desc x items).
Proof.
  induction items as [|y items IH]; intros H; cbn [insert_desc].
  - repeat constructor.
  - inversion H as [|? ? Hs Hall]; subst.
    destruct (ltb_spec (snd y) (snd x)) as [Hlt|Hge].
    + constructor; [exact H|]. constructor; [lra|].
      rewrite Forall_forall in *. intros z Hz. specialize (Hall z Hz). lra.
    + constructor; [apply IH, Hs|].
      rewrite Forall_forall in *. intros z Hz. apply insert_desc_in in Hz as [Hz|Hz].
      * subst. exact Hge.
      * apply Hall, Hz.
Qed.

Lemma sorted_desc_falling items : falling (sorted_desc items).
Proof.
  unfold sorted_desc.
  assert (H : forall acc, falling acc ->
                          falling (fold_left (fun acc x => insert_desc x acc) items acc)).
  { induction items as [|x items IH]; intros acc Hacc; [exact Hacc|].
    cbn [fold_left]. apply IH, insert_desc_falling, Hacc. }
  apply H. constructor.
Qed.

Lemma firstn_falling n : forall items, falling items -> falling (firstn n items).
Proof.
  induction n as [|n IH]; intros items H; [constructor|].
  destruct items as [|x items]; [constructor|]. cbn [firstn].
  inversion H as [|? ? Hs Hall]; subst. constructor; [apply IH, Hs|].
  rewrite Forall_forall in *. intros z Hz. apply Hall.
  eapply EntityExtractorMore.firstn_incl, Hz.
Qed.

Lemma intent_vectors_keys :
  incl (keys (intent_vectors Matrix transform)) IntentClassifier.EXAMPLE_INTENTS.
Proof.
  unfold intent_vectors.
  assert (Hk : forallb (fun k => PyStr.in_list k IntentClassifier.EXAMPLE_INTENTS)
                       (keys intent_text_map) = true) by (vm_compute; reflexivity).
  rewrite forallb_forall in Hk.
  intros x Hx. apply IntentClassifierFacts.in_list_In, Hk. revert Hx.
  generalize intent_text_map. induction d as [|[k texts] d IH]; [intros []|].
  cbn [flat_map]. unfold keys in *. rewrite map_app. intros Hx.
  apply in_app_iff in Hx as [Hx|Hx]; [|right; apply IH, Hx].
  destruct texts; [destruct Hx|]. cbn [snd fst map] in Hx. destruct Hx as [Hx|[]].
  left. exact Hx.
Qed.

(** Whatever the TF-IDF matrices and the similarities are, [classify]
    answers at most [top_k] entries, by falling score; every intent is
    one of the thirteen with examples (never ['unknown']) and every
    score lies between 0 and 1.  So the classifier keeps the contract
    that [IntentClassifier.classify] relies on. *)
Theorem classify_contract (available : bool) :
  IntentClassifier.semantic_ok (classify Matrix transform cosine_similarity available)
  /\ (forall text language top_k,
         let result := classify Matrix transform cosine_similarity available
                                text language top_k in
         (List.length result <= top_k)%nat /\ falling result).
Proof.
  assert (Hok : forall text result,
             score_intents Matrix cosine_similarity text (intent_vectors Matrix transform) []
             = Some result ->
             entries_ok IntentClassifier.EXAMPLE_INTENTS result).
  { intros text result H.
    eapply score_intents_ok; [apply intent_vectors_keys | | exact H].
    intros i s []. }
  split.
  - intros text language top_k intent score. unfold classify.
    destruct (negb available); [intros []|].
    destruct (String.eqb text "" || String.eqb (PyStr.strip text) ""); [intros []|].
    destruct (score_intents _ _ text _ []) as [result|] eqn:E; [|intros []].
    intros Hin. apply EntityExtractorMore.firstn_incl in Hin.
    apply (proj1 (sorted_desc_in _ _)) in Hin.
    exact (Hok text result E intent score Hin).
  - intros text language top_k result. unfold result, classify.
    destruct (negb available); [split; [cbn; lia | constructor]|].
    destruct (String.eqb text "" || String.eqb (PyStr.strip text) "");
      [split; [cbn; lia | constructor]|].
    destruct (score_intents _ _ text _ []) as [scores|]; [|split; [cbn; lia | constructor]].
    split; [apply firstn_le_length | apply firstn_falling, sorted_desc_falling].
Qed.

(** A blank text, a classifier that is not available and a similarity
    computation that raises all give the empty list. *)
Theorem classify_degrades (available : bool) (text language : string) (top_k : nat) :
  available = false \/ PyStr.strip text = ""
  \/ score_intents Matrix cosine_similarity text (intent_vectors Matrix transform) [] = None ->
  classify Matrix transform cosine_similarity available text language top_k = [].
Proof.
  unfold classify. intros [H|[H|H]].
  - rewrite H. reflexivity.
  - rewrite H. destruct (negb available); [reflexivity|]. rewrite orb_true_r. reflexivity.
  - rewrite H. destruct (negb available); [reflexivity|].
    destruct (String.eqb text "" || String.eqb (PyStr.strip text) ""); reflexivity.
Qed.

End Facts.

(** A similarity that is 2 for every example. *)
Lemma classify_degrades_witness :
  classify unit (fun _ => Some tt) (fun _ _ => Some [2]) true "   " "en" 3 = [].
Proof.
  apply classify_degrades. right. left. reflexivity.
Defined.

End SemanticFacts.

(* ================================================================== *)
(** ** Further properties: catalog lookups *)
(* ================================================================== *)

Module ProductCatalogFacts.

Import EntityExtractor ProductCatalog.

(** [find_product] answers the first product of the catalog whose name
    or one of whose name variants is the name asked for, letter case
    apart, and [None] exactly when there is no such product. *)
Theorem find_product_spec (catalog : list CatalogProduct) (name : string) :
  match find_product catalog name with
  | Some product =>
      exists before after,
        catalog = before ++ product :: after
        /\ named (PyStr.lower name) product = true
        /\ forall other, In other before -> named (PyStr.lower name) other = false
  | None => forall product, In product catalog -> named (PyStr.lower name) product = false
  end.
Proof.
  unfold find_product. induction catalog as [|c catalog IH]; cbn [find].
  - intros p [].
  - destruct (named (PyStr.lower name) c) eqn:E.
    + exists [], catalog. split; [reflexivity|]. split; [exact E | intros o []].
    + destruct (find (named (PyStr.lower name)) catalog) as [p|].
      * destruct IH as (before & after & Hc & Hn & Hb).
        exists (c :: before), after. split; [rewrite Hc; reflexivity|]. split; [exact Hn|].
        intros o [Ho|Ho]; [subst; exact E | apply Hb, Ho].
      * intros p [Hp|Hp]; [subst; exact E | apply IH, Hp].
Qed.

(** Every product of the catalog is found under its own name: the
    lookup answers a product, and that product answers to the name. *)
Theorem find_product_own_name (catalog : list CatalogProduct) (product : CatalogProduct) :
  In product catalog ->
  exists found,
    find_product catalog (c_name product) = Some found
    /\ named (PyStr.lower (c_name product)) found = true.
Proof.
  intros Hin. unfold find_product.
  destruct (find (named (PyStr.lower (c_name product))) catalog) as [found|] eqn:E.
  - exists found. split; [reflexivity|]. apply find_some in E. apply E.
  - exfalso. eapply find_none in E; [|exact Hin]. unfold named in E.
    rewrite String.eqb_refl in E. discriminate E.
Qed.

(** [find_product_by_gtin] compares the texts of the gtins, so with a
    product without a gtin in the catalog the text "None" finds a
    product of the catalog whose gtin reads "None": one without a gtin,
    unless a product has the very text "None" for its gtin. *)
Theorem find_by_gtin_none (catalog : list CatalogProduct) (product : CatalogProduct) :
  In product catalog ->
  c_gtin product = None ->
  exists found,
    find_product_by_gtin catalog "None" = Some found
    /\ In found catalog
    /\ str_gtin (c_gtin found) = "None"
    /\ ((forall other, In other catalog -> c_gtin other <> Some "None") ->
        c_gtin found = None).
Proof.
  intros Hin Hg. unfold find_product_by_gtin.
  destruct (find (fun p => String.eqb (str_gtin (c_gtin p)) "None") catalog) as [found|] eqn:E.
  - exists found. split; [reflexivity|]. apply find_some in E as [Hf E].
    apply String.eqb_eq in E. split; [exact Hf|]. split; [exact E|].
    intros Hnone. destruct (c_gtin found) as [g|] eqn:Eg; [|reflexivity].
    exfalso. apply (Hnone found Hf). rewrite Eg. cbn [str_gtin] in E. rewrite E. reflexivity.
  - exfalso. eapply find_none in E; [|exact Hin]. rewrite Hg in E. discriminate E.
Qed.

Lemma find_product_own_name_witness :
  exists found,
    find_product [EntityExtractorFacts.oat_milk] "Oat Milk" = Some found
    /\ named (PyStr.lower "Oat Milk") found = true.
Proof.
  apply (find_product_own_name [EntityExtractorFacts.oat_milk] EntityExtractorFacts.oat_milk).
  left. reflexivity.
Defined.

Definition loose_item : CatalogProduct :=
  {| c_gtin := None; c_name := "Loose Carrots"; c_name_variants := [] |}.

Lemma find_by_gtin_none_witness :
  exists found,
    find_product_by_gtin [EntityExtractorFacts.oat_milk; loose_item] "None" = Some found
    /\ In found [EntityExtractorFacts.oat_milk; loose_item]
    /\ str_gtin (c_gtin found) = "None"
    /\ ((forall other, In other [EntityExtractorFacts.oat_milk; loose_item] ->
                       c_gtin other <> Some "None") ->
        c_gtin found = None).
Proof.
  apply (find_by_gtin_none _ loose_item).
  - right. left. reflexivity.
  - reflexivity.
Defined.

End ProductCatalogFacts.

(* ================================================================== *)
(** ** Further properties: the parse functions *)
(* ================================================================== *)

Module AppFacts.

Import EntityExtractor App PyFacts.

Local Open Scope Q_scope.

Section Facts.

Context {R : Regex}.

Lemma filter_none {A : Type} (f : A -> bool) : forall l,
  (forall x, In x l -> f x = false) -> filter f l = [].
Proof.
  induction l as [|x l IH]; intros H; [reflexivity|]. cbn [filter].
  rewrite (H x) by (left; reflexivity). apply IH. intros y Hy. apply H. right. exact Hy.
Qed.

Lemma without_catalog_confidence text p :
  In p (products_without_catalog text) -> EntityExtractor.confidence p = 0.3.
Proof.
  unfold products_without_catalog. intros H. apply in_map_iff in H as (w & Hw & _).
  subst p. reflexivity.
Qed.

(** The priority list of the post-delivery parse boosts the products
    once. *)
Lemma post_delivery_boost entities :
  products (fold_left prioritise ["order_numbers"; "dates"; "reasons"; "products"] entities)
  = map (fun p => {| name := name p; gtin := gtin p;
                     confidence := boost (EntityExtractor.confidence p) |})
        (products entities).
Proof. reflexivity. Qed.

Lemma pipeline_products cfg ccfg sem fuzzy textblob catalog text context priority_entities :
  exists intent,
    products (r_entities (pipeline cfg ccfg sem fuzzy textblob catalog text context
                                   priority_entities))
    = filter (fun p => Py.leb (min_entity_confidence ccfg) (EntityExtractor.confidence p))
             (products (extract fuzzy textblob catalog
                                (TextNormalizer.normalize text (LanguageDetector.detect text))
                                (LanguageDetector.detect text) context priority_entities
                                (Some intent))).
Proof.
  unfold pipeline.
  destruct (IntentClassifier.classify cfg sem _ _ context) as [intent confidence].
  exists intent. reflexivity.
Qed.

(** Without a catalog no parse function reports a product, as long as
    the entity floor is above 0.36 (it is 0.4 by default): the candidates
    of the fallback have confidence 0.3, and 0.36 after the one priority
    boost of the post-delivery parse. *)
Theorem no_catalog_no_products (cfg : Config) (ccfg : ConfidenceConfig)
        (sem : option IntentClassifier.SemanticClassifier) (fuzzy : option FuzzyMatcher)
        (textblob : option PolarityAnalyzer) (text : string) (context : Py.context) :
  0.36 < min_entity_confidence ccfg ->
  products (r_entities (parse_single_text cfg ccfg sem fuzzy textblob [] text context)) = []
  /\ products (r_entities (parse_pre_order cfg ccfg sem fuzzy textblob [] text context)) = []
  /\ products (r_entities (parse_post_delivery cfg ccfg sem fuzzy textblob [] text context))
     = [].
Proof.
  intros Hfloor.
  assert (Hplain : forall ctx,
             products (r_entities (pipeline cfg ccfg sem fuzzy textblob [] text ctx [])) = []).
  { intros ctx. destruct (pipeline_products cfg ccfg sem fuzzy textblob [] text ctx [])
      as (intent & ->).
    apply filter_none. intros p Hp. unfold extract in Hp.
    cbn [fold_left products _extract_products] in Hp.
    rewrite (without_catalog_confidence _ _ Hp).
    destruct (leb_spec (min_entity_confidence ccfg) 0.3); [lra | reflexivity]. }
  split; [apply Hplain|]. split; [apply Hplain|].
  unfold parse_post_delivery.
  destruct (pipeline_products cfg ccfg sem fuzzy textblob [] text
              (with_stage context "post_delivery_investigation")
              ["order_numbers"; "dates"; "reasons"; "products"]) as (intent & ->).
  apply filter_none. intros p Hp. unfold extract in Hp.
  rewrite post_delivery_boost in Hp. cbn [products _extract_products] in Hp.
  apply in_map_iff in Hp as (q & Hq & Hin). subst p. cbn [EntityExtractor.confidence].
  rewrite (without_catalog_confidence _ _ Hin).
  assert (Hb : boost 0.3 <= 0.36).
  { unfold boost. eapply Qle_trans; [apply min_r | lra]. }
  destruct (leb_spec (min_entity_confidence ccfg) (boost 0.3)); [lra | reflexivity].
Qed.

(** With a catalog the products of a response are above the entity
    floor, at most five, and pairwise different in (gtin, name). *)
Theorem response_products (cfg : Config) (ccfg : ConfidenceConfig)
        (sem : option IntentClassifier.SemanticClassifier) (fuzzy : option FuzzyMatcher)
        (textblob : option PolarityAnalyzer) (catalog : list CatalogProduct)
        (text : string) (context : Py.context) (priority_entities : list string) :
  catalog <> [] ->
  let found := products (r_entities (pipeline cfg ccfg sem fuzzy textblob catalog text
                                              context priority_entities)) in
  NoDup (map key found)
  /\ (List.length found <= 5)%nat
  /\ forall p, In p found -> min_entity_confidence ccfg <= EntityExtractor.confidence p.
Proof.
  intros Hc found. unfold found.
  destruct (pipeline_products cfg ccfg sem fuzzy textblob catalog text context
                              priority_entities) as (intent & ->).
  set (all := products (extract _ _ _ _ _ _ _ _)).
  assert (Hall : NoDup (map key all) /\ (List.length all <= 5)%nat).
  { unfold all, extract.
    assert (Hl : forall e, List.length (products e) = List.length (map key (products e)))
      by (intros e; rewrite length_map; reflexivity).
    rewrite Hl, EntityExtractorFacts.fold_prioritise_keys. cbn [products].
    destruct catalog as [|c catalog]; [congruence|].
    rewrite EntityExtractorMore.extract_products_unfold. split.
    - rewrite <- firstn_map.
      apply EntityExtractorFacts.NoDup_firstn, EntityExtractorFacts.unique_nodup.
    - rewrite length_map. apply firstn_le_length. }
  destruct Hall as [Hnd Hlen]. split; [|split].
  - apply UrgencyReasonFacts.NoDup_map_filter, Hnd.
  - eapply Nat.le_trans; [apply filter_length_le | exact Hlen].
  - intros p Hp. apply filter_In in Hp as [_ Hp].
    destruct (leb_spec (min_entity_confidence ccfg) (EntityExtractor.confidence p));
      [assumption | discriminate].
Qed.

(** Without a semantic classifier, the flag [confidence_below_threshold]
    is raised exactly for the texts whose normal form is empty, which are
    answered [('unknown', 0.0)]; the intent floor is the default 0.3 or
    lower. *)
Theorem below_threshold_iff_empty (cfg : Config) (ccfg : ConfidenceConfig)
        (fuzzy : option FuzzyMatcher) (textblob : option PolarityAnalyzer)
        (catalog : list CatalogProduct) (text : string) (context : Py.context)
        (priority_entities : list string) :
  0 < min_intent_confidence ccfg ->
  min_intent_confidence ccfg <= 0.3 ->
  let r := pipeline cfg ccfg None fuzzy textblob catalog text context priority_entities in
  let normalized := TextNormalizer.normalize text (LanguageDetector.detect text) in
  (r_below_threshold r = true <-> normalized = "")
  /\ (normalized = "" -> r_intent r = "unknown" /\ r_confidence r = 0.0).
Proof.
  intros H0 H3 r normalized. unfold r, pipeline. fold normalized.
  destruct normalized as [|c t] eqn:En.
  - cbn [IntentClassifier.classify r_below_threshold r_intent r_confidence
         apply_confidence_filters confidence_below_threshold].
    split; [|intros _; split; reflexivity]. split; [reflexivity|]. intros _.
    destruct (ltb_spec 0.0 (min_intent_confidence ccfg)); [reflexivity | lra].
  - rewrite IntentClassifierMore.classify_unfold.
    pose proof (IntentClassifierFacts.rule_based_bounds (String c t)
                  (IntentClassifierMore.adjusted_scores (String c t)
                                                        (LanguageDetector.detect text) context))
      as Hb.
    destruct (IntentClassifier.rule_based (String c t) _) as [[intent confidence] scores].
    cbn [IntentClassifier.hybrid r_below_threshold apply_confidence_filters
         confidence_below_threshold fst snd] in *.
    destruct Hb as (_ & Hlo & _).
    { apply IntentClassifierFacts.known_keys_legacy_adjust,
        IntentClassifierFacts.known_keys_stage_adjust,
        IntentClassifierFacts.known_keys_rule_scores. }
    split; [|discriminate]. split; [|discriminate].
    destruct (ltb_spec confidence (min_intent_confidence ccfg)); [lra | discriminate].
Qed.

End Facts.

Lemma no_catalog_no_products_witness :
  products (r_entities (parse_single_text (R := py_re) DEFAULT_CONFIG DEFAULT_CONFIDENCE
                                          None None None [] "I want Oat Milk" None)) = [].
Proof.
  assert (H : 0.36 < min_entity_confidence DEFAULT_CONFIDENCE)
    by (unfold Qlt; simpl; lia).
  exact (proj1 (no_catalog_no_products (R := py_re) DEFAULT_CONFIG DEFAULT_CONFIDENCE
                                       None None None "I want Oat Milk" None H)).
Defined.

Lemma response_products_witness :
  let found := products (r_entities (pipeline (R := py_re) DEFAULT_CONFIG DEFAULT_CONFIDENCE
                                              None None None [EntityExtractorFacts.oat_milk]
                                              "oat and milk" None [])) in
  NoDup (map key found)
  /\ (List.length found <= 5)%nat
  /\ forall p, In p found
               -> min_entity_confidence DEFAULT_CONFIDENCE <= EntityExtractor.confidence p.
Proof.
  assert (H : [EntityExtractorFacts.oat_milk] <> []) by discriminate.
  exact (response_products (R := py_re) DEFAULT_CONFIG DEFAULT_CONFIDENCE None None None
                           [EntityExtractorFacts.oat_milk] "oat and milk" None [] H).
Defined.

Lemma below_threshold_iff_empty_witness :
  let r := pipeline (R := py_re) DEFAULT_CONFIG DEFAULT_CONFIDENCE None None None []
                    "um" None [] in
  let normalized := TextNormalizer.normalize (R := py_re) "um"
                      (LanguageDetector.detect (R := py_re) "um") in
  (r_below_threshold r = true <-> normalized = "")
  /\ (normalized = "" -> r_intent r = "unknown" /\ r_confidence r = 0.0).
Proof.
  assert (H0 : 0 < min_intent_confidence DEFAULT_CONFIDENCE) by (unfold Qlt; simpl; lia).
  assert (H3 : min_intent_confidence DEFAULT_CONFIDENCE <= 0.3) by (unfold Qle; simpl; lia).
  exact (below_threshold_iff_empty (R := py_re) DEFAULT_CONFIG DEFAULT_CONFIDENCE None None
                                   [] "um" None [] H0 H3).
Defined.

End AppFacts.

(* ================================================================== *)
(** ** Further properties: sessions *)
(* ================================================================== *)

Module SessionManagerFacts.

Import SessionManager PyFacts.

Local Open Scope Q_scope.

Lemma get_set_same {V : Type} (d : Py.dict V) k v : Py.get (Py.set d k v) k = Some v.
Proof.
  induction d as [|[k' v'] d IH]; cbn [Py.set Py.get].
  - rewrite String.eqb_refl. reflexivity.
  - destruct (String.eqb k k') eqn:E; cbn [Py.get]; rewrite E; [reflexivity | exact IH].
Qed.

Lemma get_del_same {V : Type} (d : Py.dict V) k : Py.get (del d k) k = None.
Proof.
  unfold del. induction d as [|[k' v'] d IH]; [reflexivity|]. cbn [filter fst].
  destruct (String.eqb k' k) eqn:E; cbn [negb]; [exact IH|].
  cbn [Py.get]. rewrite String.eqb_sym, E. exact IH.
Qed.

Lemma get_in {V : Type} (d : Py.dict V) k v : Py.get d k = Some v -> In (k, v) d.
Proof.
  induction d as [|[k' v'] d IH]; cbn [Py.get]; [discriminate|].
  destruct (String.eqb k k') eqn:E.
  - apply String.eqb_eq in E. subst. intros H. inversion H. left. reflexivity.
  - intros H. right. apply IH, H.
Qed.

Lemma Forall_set {V : Type} (P : string * V -> Prop) (d : Py.dict V) k v :
  Forall P d -> P (k, v) -> Forall P (Py.set d k v).
Proof.
  intros Hd Hv. induction d as [|[k' v'] d IH]; cbn [Py.set].
  - repeat constructor. exact Hv.
  - inversion Hd as [|? ? Hx Hd']; subst. destruct (String.eqb k k') eqn:E.
    + apply String.eqb_eq in E. subst. constructor; assumption.
    + constructor; [exact Hx | apply IH, Hd'].
Qed.

Lemma deque_append_length {A : Type} maxlen (d : list A) x :
  (List.length (deque_append maxlen d x) <= maxlen)%nat.
Proof. unfold deque_append. rewrite length_skipn. lia. Qed.

Lemma deque_append_last {A : Type} maxlen (d : list A) x :
  (0 < maxlen)%nat ->
  exists older, deque_append maxlen d x = older ++ [x].
Proof.
  intros H. unfold deque_append. rewrite length_app. cbn [List.length].
  exists (skipn (List.length d + 1 - maxlen) d).
  rewrite skipn_app.
  replace (List.length d + 1 - maxlen - List.length d)%nat with 0%nat by lia.
  reflexivity.
Qed.

Lemma skipn_incl {A : Type} (x : A) : forall n l, In x (skipn n l) -> In x l.
Proof.
  induction n as [|n IH]; intros l; [tauto|].
  destruct l as [|y l]; [tauto|]. cbn [skipn]. intros H. right. apply IH, H.
Qed.

Lemma substring_length m : forall s, (String.length (substring 0 m s) <= m)%nat.
Proof.
  induction m as [|m IH]; intros s; destruct s; simpl; try lia.
  specialize (IH s). lia.
Qed.

Section Facts.

Variable Payload : Type.
Variable clock : nat -> Q.

(** A stored session keeps at most [max_history] turns, each with at
    most 100 characters of text. *)
Definition session_ok (cfg : SessionConfig) (s : Session Payload) : Prop :=
  (List.length (history Payload s) <= max_history cfg)%nat
  /\ Forall (fun turn => (String.length (text Payload turn) <= 100)%nat) (history Payload s).

Definition bounded (cfg : SessionConfig) (st : State Payload) : Prop :=
  Forall (fun kv => session_ok cfg (snd kv)) (sessions Payload st).

Lemma bounded_set cfg st sid s n :
  bounded cfg st -> session_ok cfg s ->
  bounded cfg {| sessions := Py.set (sessions Payload st) sid s; reads := n |}.
Proof.
  intros Hb Hs. unfold bounded. cbn [sessions].
  apply Forall_set; assumption.
Qed.

Lemma bounded_filter cfg st f n :
  bounded cfg st ->
  bounded cfg {| sessions := filter f (sessions Payload st); reads := n |}.
Proof.
  unfold bounded. cbn [sessions]. rewrite !Forall_forall.
  intros H x Hx. apply filter_In in Hx as [Hx _]. apply H, Hx.
Qed.

Lemma bounded_reads cfg st n :
  bounded cfg st -> bounded cfg {| sessions := sessions Payload st; reads := n |}.
Proof. tauto. Qed.

Lemma bounded_get cfg st sid s :
  bounded cfg st -> Py.get (sessions Payload st) sid = Some s -> session_ok cfg s.
Proof.
  unfold bounded. rewrite Forall_forall. intros H Hg.
  apply (H (sid, s)), get_in, Hg.
Qed.

Lemma get_session_bounded cfg id st :
  bounded cfg st ->
  bounded cfg (snd (get_session Payload clock cfg id st))
  /\ forall s, fst (get_session Payload clock cfg id st) = Some s -> session_ok cfg s.
Proof.
  intros Hb. unfold get_session.
  destruct (negb (enabled cfg) || negb (Py.nonempty id)); [split; [exact Hb | discriminate]|].
  destruct id as [sid|]; [|split; [exact Hb | discriminate]].
  destruct (Py.get (sessions Payload st) sid) as [s|] eqn:E;
    [|split; [exact Hb | discriminate]].
  cbn [time_time]. destruct (Py.ltb _ _); cbn [fst snd].
  - split; [|discriminate]. unfold with_sessions, del. cbn [sessions reads].
    apply bounded_filter, Hb.
  - split; [exact Hb|]. intros s' H. inversion H; subst. eapply bounded_get; eassumption.
Qed.

Lemma create_session_bounded cfg sid st :
  bounded cfg st ->
  bounded cfg (snd (create_session Payload clock cfg sid st))
  /\ forall s, fst (create_session Payload clock cfg sid st) = Some s -> session_ok cfg s.
Proof.
  intros Hb. unfold create_session. destruct (negb (enabled cfg));
    [split; [exact Hb | discriminate]|].
  cbn [time_time fst snd with_sessions sessions reads].
  assert (Hnew : forall a b, session_ok cfg
                   {| session_id := sid; created_at := a; last_activity := b;
                      history := []; context := [] |}).
  { intros a b. split; cbn [history]; [cbn; lia | constructor]. }
  split; [apply bounded_set; [exact Hb | apply Hnew]|].
  intros s H. inversion H; subst. apply Hnew.
Qed.

Lemma get_or_create_bounded cfg id st :
  bounded cfg st ->
  bounded cfg (snd (get_or_create_session Payload clock cfg id st))
  /\ forall s, fst (get_or_create_session Payload clock cfg id st) = Some s ->
               session_ok cfg s.
Proof.
  intros Hb. unfold get_or_create_session.
  destruct (negb (Py.nonempty id)); [split; [exact Hb | discriminate]|].
  destruct id as [sid|]; [|split; [exact Hb | discriminate]].
  destruct (get_session_bounded cfg (Some sid) st Hb) as [Hb1 Hs1].
  destruct (get_session Payload clock cfg (Some sid) st) as [[s|] st1]; cbn [fst snd] in *.
  - specialize (Hs1 s eq_refl). cbn [time_time with_sessions sessions reads fst snd].
    assert (Hs : session_ok cfg
                   {| session_id := session_id Payload s; created_at := created_at Payload s;
                      last_activity := clock (reads Payload st1);
                      history := history Payload s; context := context Payload s |})
      by exact Hs1.
    split; [apply bounded_set; assumption|].
    intros s' H. inversion H; subst. exact Hs.
  - apply create_session_bounded, Hb1.
Qed.

(** The store never holds more than [max_history] turns for a session
    nor more than 100 characters of a text: every operation keeps that
    bound. *)
Theorem history_stays_bounded (cfg : SessionConfig) (st : State Payload)
        (id : option string) (sid intent text : string) (entities : Payload) :
  bounded cfg st ->
  bounded cfg (add_to_history Payload clock cfg sid intent text entities st)
  /\ bounded cfg (snd (get_or_create_session Payload clock cfg id st))
  /\ bounded cfg (snd (get_context Payload clock cfg id st))
  /\ bounded cfg (cleanup_expired Payload clock cfg st).
Proof.
  intros Hb. split; [|split; [|split]].
  - unfold add_to_history.
    destruct (negb (enabled cfg) || String.eqb sid ""); [exact Hb|].
    destruct (get_or_create_bounded cfg (Some sid) st Hb) as [Hb1 Hs1].
    destruct (get_or_create_session Payload clock cfg (Some sid) st) as [[s|] st1];
      cbn [fst snd] in *; [|exact Hb1].
    destruct (Hs1 s eq_refl) as [Hlen Htexts].
    cbn [time_time with_sessions sessions reads]. apply bounded_set; [exact Hb1|].
    split; cbn [history].
    + apply deque_append_length.
    + unfold deque_append. rewrite Forall_forall in *. intros turn Hin.
      apply skipn_incl in Hin.
      apply in_app_iff in Hin as [Hin'|[Hin'|[]]]; [apply Htexts, Hin'|].
      subst turn. cbn [SessionManager.text]. apply substring_length.
  - apply get_or_create_bounded, Hb.
  - unfold get_context.
    destruct (negb (enabled cfg) || negb (Py.nonempty id)); [exact Hb|].
    destruct (get_session_bounded cfg id st Hb) as [Hb1 _].
    destruct (get_session Payload clock cfg id st) as [[s|] st1]; exact Hb1.
  - unfold cleanup_expired. destruct (negb (enabled cfg)); [exact Hb|].
    cbn [time_time with_sessions sessions reads]. apply bounded_filter, Hb.
Qed.

Lemma nonempty_some sid : sid <> "" -> Py.nonempty (Some sid) = true.
Proof. destruct sid; [congruence | reflexivity]. Qed.

(** Where the session that [get_or_create_session] answers was created:
    it is the stored one, or it was made during the call. *)
Lemma get_or_create_stored cfg sid st :
  enabled cfg = true -> sid <> "" ->
  exists s st1,
    get_or_create_session Payload clock cfg (Some sid) st = (Some s, st1)
    /\ Py.get (sessions Payload st1) sid = Some s
    /\ (reads Payload st <= reads Payload st1)%nat
    /\ ((exists s0, Py.get (sessions Payload st) sid = Some s0
                    /\ created_at Payload s = created_at Payload s0)
        \/ (exists i, (reads Payload st <= i < reads Payload st1)%nat
                      /\ created_at Payload s = clock i)).
Proof.
  intros He Hsid. unfold get_or_create_session, get_session, create_session.
  rewrite (nonempty_some sid Hsid), He. cbn [negb orb].
  destruct (Py.get (sessions Payload st) sid) as [s0|] eqn:E.
  - cbn [time_time]. destruct (Py.ltb _ _).
    + cbn [time_time with_sessions sessions reads]. eexists _, _.
      split; [reflexivity|]. cbn [with_sessions sessions reads]. split; [apply get_set_same|]. split; [lia|].
      right. exists (S (reads Payload st)). split; [lia | reflexivity].
    + cbn [time_time with_sessions sessions reads]. eexists _, _.
      split; [reflexivity|]. cbn [with_sessions sessions reads]. split; [apply get_set_same|]. split; [lia|].
      left. exists s0. split; reflexivity.
  - cbn [time_time with_sessions sessions reads]. eexists _, _.
    split; [reflexivity|]. cbn [with_sessions sessions reads]. split; [apply get_set_same|]. split; [lia|].
    right. exists (reads Payload st). split; [lia | reflexivity].
Qed.

(** From the present reading on, no reading of the clock is more than
    the time to live after the creation of the session [sid], if there
    is one, or after an earlier reading. *)
Definition steady (cfg : SessionConfig) (st : State Payload) (sid : string) : Prop :=
  forall j, (reads Payload st <= j)%nat ->
    (forall s0, Py.get (sessions Payload st) sid = Some s0 ->
                clock j - created_at Payload s0 <= ttl_seconds cfg)
    /\ (forall i, (reads Payload st <= i <= j)%nat -> clock j - clock i <= ttl_seconds cfg).

Lemma last_snoc {A : Type} (l : list A) (x d : A) : List.last (l ++ [x]) d = x.
Proof.
  induction l as [|y l IH]; [reflexivity|].
  cbn [app]. destruct (l ++ [x]) eqn:E; [destruct l; discriminate|].
  cbn [List.last]. exact IH.
Qed.

(** A turn that was added is the last one of the context asked for
    next: [last_intent] is its intent, [previous_intents] ends with it,
    and the count of interactions is between 1 and [max_history]. *)
Theorem turn_is_remembered (cfg : SessionConfig) (st : State Payload)
        (sid intent text : string) (entities : Payload) :
  enabled cfg = true ->
  sid <> "" ->
  (0 < max_history cfg)%nat ->
  steady cfg st sid ->
  exists ctx,
    fst (get_context Payload clock cfg (Some sid)
           (add_to_history Payload clock cfg sid intent text entities st)) = Some ctx
    /\ last_intent ctx = Some intent
    /\ (exists earlier, previous_intents ctx = earlier ++ [intent])
    /\ (1 <= interaction_count ctx <= max_history cfg)%nat.
Proof.
  intros He Hsid Hmax Hsteady. unfold add_to_history.
  rewrite He. apply String.eqb_neq in Hsid as Hneq. rewrite Hneq. cbn [negb orb].
  destruct (get_or_create_stored cfg sid st He Hsid) as (s & st1 & -> & Hget & Hreads & Horigin).
  cbn [time_time with_sessions sessions reads].
  set (turn := {| timestamp := clock (reads Payload st1); intent := intent;
                  text := substring 0 100 text; entities := entities |}).
  unfold get_context, get_session.
  rewrite (nonempty_some sid Hsid), He. cbn [negb orb sessions with_sessions].
  rewrite get_set_same. cbn [time_time reads created_at with_sessions sessions].
  destruct (Hsteady (S (S (reads Payload st1)))) as [Hold Hnew]; [lia|].
  assert (Hfresh : clock (S (S (reads Payload st1))) - created_at Payload s
                   <= ttl_seconds cfg).
  { destruct Horigin as [(s0 & Hs0 & ->)|(i & Hi & ->)]; [apply Hold, Hs0 | apply Hnew; lia]. }
  destruct (ltb_spec (ttl_seconds cfg) (clock (S (S (reads Payload st1))) - created_at Payload s));
    [lra|].
  cbn [fst history]. eexists. split; [reflexivity|].
  destruct (deque_append_last (max_history cfg) (history Payload s) turn Hmax)
    as (older & Hd).
  cbn [last_intent previous_intents interaction_count]. rewrite Hd. split; [|split].
  - rewrite map_app. cbn [map]. rewrite last_snoc. reflexivity.
  - change (last_n 3 (older ++ [turn])) with (deque_append 3 older turn).
    destruct (deque_append_last 3 older turn) as (e & ->); [lia|].
    rewrite map_app. exists (map (SessionManager.intent Payload) e). reflexivity.
  - rewrite <- Hd. split; [|apply deque_append_length].
    rewrite Hd, length_app. cbn [List.length]. lia.
Qed.

(** A session older than the time to live is forgotten by the next
    question about it: the context is empty and the session is gone
    from the store. *)
Theorem expired_session_is_forgotten (cfg : SessionConfig) (st : State Payload)
        (sid : string) (s : Session Payload) :
  enabled cfg = true ->
  sid <> "" ->
  Py.get (sessions Payload st) sid = Some s ->
  ttl_seconds cfg < clock (reads Payload st) - created_at Payload s ->
  fst (get_context Payload clock cfg (Some sid) st) = None
  /\ Py.get (sessions Payload (snd (get_context Payload clock cfg (Some sid) st))) sid = None.
Proof.
  intros He Hsid Hget Hold. unfold get_context, get_session.
  rewrite (nonempty_some sid Hsid), He, Hget. cbn [negb orb time_time].
  destruct (ltb_spec (ttl_seconds cfg) (clock (reads Payload st) - created_at Payload s));
    [|lra].
  cbn [fst snd with_sessions sessions]. split; [reflexivity | apply get_del_same].
Qed.

End Facts.

(** An empty store is within the bounds. *)
Definition empty_store : State unit := {| sessions := []; reads := 0 |}.

Lemma history_stays_bounded_witness :
  bounded unit DEFAULT_SESSION
          (add_to_history unit (fun _ => 0) DEFAULT_SESSION "s1" "greeting" "hello" tt
                          empty_store).
Proof.
  apply (history_stays_bounded unit (fun _ => 0) DEFAULT_SESSION empty_store None "s1"
                               "greeting" "hello" tt).
  constructor.
Defined.

Lemma turn_is_remembered_witness :
  exists ctx,
    fst (get_context unit (fun _ => 0) DEFAULT_SESSION (Some "s1")
           (add_to_history unit (fun _ => 0) DEFAULT_SESSION "s1" "greeting" "hello" tt
                           empty_store)) = Some ctx
    /\ last_intent ctx = Some "greeting"
    /\ (exists earlier, previous_intents ctx = earlier ++ ["greeting"])
    /\ (1 <= interaction_count ctx <= max_history DEFAULT_SESSION)%nat.
Proof.
  apply (turn_is_remembered unit (fun _ => 0) DEFAULT_SESSION empty_store "s1" "greeting"
                            "hello" tt).
  - reflexivity.
  - discriminate.
  - cbn. lia.
  - intros j _. split; [intros s0 H; discriminate H|].
    intros i _. cbn. unfold Qle. simpl. lia.
Defined.

(** A session made at time 0 and asked about at time 4000. *)
Definition old_store : State unit :=
  {| sessions := [("s1", {| session_id := "s1"; created_at := 0; last_activity := 0;
                            history := []; context := [] |})];
     reads := 0 |}.

Lemma expired_session_is_forgotten_witness :
  fst (get_context unit (fun _ => 4000) DEFAULT_SESSION (Some "s1") old_store) = None
  /\ Py.get (sessions unit (snd (get_context unit (fun _ => 4000) DEFAULT_SESSION (Some "s1")
                                             old_store))) "s1" = None.
Proof.
  apply (expired_session_is_forgotten unit (fun _ => 4000) DEFAULT_SESSION old_store "s1"
           {| session_id := "s1"; created_at := 0; last_activity := 0;
              history := []; context := [] |}).
  - reflexivity.
  - discriminate.
  - reflexivity.
  - cbn. unfold Qlt. simpl. lia.
Defined.

End SessionManagerFacts.

(** ** Input validation *)

Module ValidatorsFacts.

Import Validators.

Section Facts.

Context {R : Regex}.

(** A value that [validate_text] accepts. *)
Definition accepted (cfg : ValidationConfig) (text : value) : Prop :=
  snd (validate_text cfg text) = None.

Lemma validate_text_code cfg text e :
  snd (validate_text cfg text) = Some e ->
  In (error_code e) ["MISSING_TEXT"; "INVALID_TYPE"; "TEXT_TOO_SHORT"; "TEXT_TOO_LONG"].
Proof.
  unfold validate_text.
  destruct text as [[|c s]|[|]]; cbn [snd]; try (intros H; inversion H; cbn; tauto).
  destruct (_ <? _)%Z; [intros H; inversion H; cbn; tauto|].
  destruct (_ <? _)%Z; [intros H; inversion H; cbn; tauto|].
  intros H; discriminate H.
Qed.

Lemma validate_text_rejected cfg text e :
  snd (validate_text cfg text) = Some e -> fst (validate_text cfg text) = "".
Proof.
  unfold validate_text.
  destruct text as [[|c s]|[|]]; cbn [fst snd]; try reflexivity.
  destruct (_ <? _)%Z; [reflexivity|].
  destruct (_ <? _)%Z; [reflexivity|].
  intros H; discriminate H.
Qed.

Lemma other_rejected cfg truth : ~ accepted cfg (Other truth).
Proof. unfold accepted. destruct truth; discriminate. Qed.

Lemma validate_items_spec cfg : forall texts i done,
  let r := validate_items cfg i texts done in
  (snd r = None <-> Forall (accepted cfg) texts)
  /\ (snd r = None -> fst r = done ++ map (fun t => fst (validate_text cfg t)) texts)
  /\ (snd r <> None -> fst r = []).
Proof.
  induction texts as [|text texts IH]; intros i done; cbn zeta.
  - cbn [validate_items fst snd map]. rewrite app_nil_r.
    split; [split; [constructor | reflexivity]|]. split; [reflexivity | congruence].
  - cbn [validate_items]. destruct text as [s|truth].
    + unfold accepted at 1.
      destruct (validate_text cfg (Str s)) as [validated [e|]] eqn:E.
      * cbn [fst snd]. split; [|split; [discriminate | reflexivity]].
        split; [discriminate|]. intros H. inversion H as [|? ? Ha _]; subst.
        unfold accepted in Ha. rewrite E in Ha. discriminate Ha.
      * specialize (IH (S i) (done ++ [validated])). cbn zeta in IH.
        destruct IH as (Hiff & Hok & Herr). split; [|split].
        -- rewrite Hiff. split; [intros H; constructor; [unfold accepted; rewrite E|]; auto|].
           intros H. inversion H; assumption.
        -- intros H. rewrite (Hok H), <- app_assoc. cbn [map app]. rewrite E. reflexivity.
        -- exact Herr.
    + cbn [fst snd]. split; [|split; [discriminate | reflexivity]].
      split; [discriminate|]. intros H. inversion H as [|? ? Ha _]; subst.
      exfalso. exact (other_rejected _ _ Ha).
Qed.

Lemma validate_items_code cfg : forall texts i done e,
  snd (validate_items cfg i texts done) = Some e ->
  In (error_code e) (map fst ERROR_CODES).
Proof.
  induction texts as [|text texts IH]; intros i done e; cbn [validate_items].
  - discriminate.
  - destruct text as [s|truth].
    + destruct (validate_text cfg (Str s)) as [validated [e0|]] eqn:E.
      * cbn [snd]. intros H. inversion H. cbn [error_code].
        assert (H0 : snd (validate_text cfg (Str s)) = Some e0) by (rewrite E; reflexivity).
        apply validate_text_code in H0. cbn in H0 |- *. tauto.
      * apply IH.
    + cbn [snd]. intros H. inversion H. cbn. tauto.
Qed.

(** A batch is validated as a whole or not at all: there is no error
    exactly when the batch is not empty, within the batch size, and
    every item is accepted by [validate_text]; the result is then the
    list of the validated items in order, and the empty list with any
    error. *)
Theorem batch_all_or_nothing (cfg : ValidationConfig) (texts : list value) :
  let r := validate_batch_request cfg (Items texts) in
  (snd r = None <->
   texts <> [] /\ (Z.of_nat (List.length texts) <= max_batch_size cfg)%Z
   /\ Forall (accepted cfg) texts)
  /\ (snd r = None -> fst r = map (fun t => fst (validate_text cfg t)) texts)
  /\ (snd r <> None -> fst r = []).
Proof.
  cbn zeta. unfold validate_batch_request.
  destruct (Z.ltb_spec (max_batch_size cfg) (Z.of_nat (List.length texts))) as [Hl|Hl].
  - cbn [fst snd]. split; [|split; [discriminate | reflexivity]].
    split; [discriminate | intros (_ & H & _); lia].
  - destruct texts as [|text texts].
    + cbn [List.length Nat.eqb fst snd]. split; [|split; [discriminate | reflexivity]].
      split; [discriminate | intros (H & _); congruence].
    + cbn [List.length Nat.eqb].
      pose proof (validate_items_spec cfg (text :: texts) 0 []) as (Hiff & Hok & Herr).
      cbn zeta in *. split; [|split; [exact Hok | exact Herr]].
      rewrite Hiff. split; [intros H; repeat split; [discriminate | exact Hl | exact H]|].
      intros (_ & _ & H). exact H.
Qed.

(** Every error of the batch validation carries one of the codes of
    [ERROR_CODES], also the ones it passes on from [validate_text]. *)
Theorem batch_error_codes_known (cfg : ValidationConfig) (texts : batch)
        (e : ValidationError) :
  snd (validate_batch_request cfg texts) = Some e ->
  In (error_code e) (map fst ERROR_CODES).
Proof.
  unfold validate_batch_request. destruct texts as [|texts].
  - cbn [snd]. intros H. inversion H. cbn. tauto.
  - destruct (_ <? _)%Z; [cbn [snd]; intros H; inversion H; cbn; tauto|].
    destruct (_ =? _)%nat; [cbn [snd]; intros H; inversion H; cbn; tauto|].
    apply validate_items_code.
Qed.

End Facts.

Lemma batch_error_codes_known_witness :
  In "INVALID_BATCH_ITEM" (map fst ERROR_CODES).
Proof.
  exact (batch_error_codes_known (R := py_re) DEFAULT_VALIDATION
           (Items [Other true])
           {| message := "Item 0 in batch is not a string";
              error_code := "INVALID_BATCH_ITEM" |}
           eq_refl).
Defined.

End ValidatorsFacts.
